(** * ASMP (ArtStudia Manager Packets): cache, ledger and registry client

    A shallow embedding of [asmp.py]: the class [ASMPClient],
    [print_package_list] and [main].  The three JSON files under
    [~/.asmp] are the state; Python values read from JSON are the data; Python
    exceptions are explicit results; the clock and the HTTP transport are
    the environment.

    Conventions of the model.
    - A [str] is a Rocq [string] that holds its UTF-8 bytes; [str.lower]
      is the Unicode lowercase that CPython computes.
    - JSON numbers are integers (the files hold unix timestamps only).
    - Every expression that a [print] evaluates and that can raise
      ([d[k]], [sep.join(x)]) is evaluated in the model.  A message that
      holds text of the server, or of a record of the cache or of the
      ledger, is printed in the model.  The terminal takes UTF-8, as the
      program's own messages need it to, and so refuses a surrogate and
      nothing else.  The messages that hold nothing but the program's own
      words, the command line and the configuration are left out; that
      text is taken to be printable, as what a terminal has typed is.
    - A write replaces the whole file.  The two writes that carry text
      of the server ([update_local_cache], [save_installed_package]) fail
      on a surrogate and leave the file cut off; the other writes carry
      text of the program, of the command line or of its own files only.
    - A base URL that is a string is taken to be one that [urllib] can
      split; it refuses, for one, a host with an unmatched bracket.
    - One call reads the clock once: readings that the source takes
      seconds apart within a call are given the same value. *)

From Stdlib Require Import List String Ascii NArith ZArith Bool Lia.
Import ListNotations.
Open Scope string_scope.
Open Scope list_scope.
Open Scope Z_scope.
Set Warnings "-register-all".

(** ** Python values that [json.load] produces *)

Inductive json : Type :=
| JNull
| JBool (b : bool)
| JInt (n : Z)
| JStr (s : string)
| JArr (items : list json)
| JObj (fields : list (string * json)).

(** The exceptions the program can meet.  [ConnectionError] and [Timeout]
    are the two subclasses of [requests.exceptions.RequestException] that
    [make_request] names; [RequestException] stands for the others
    (among them the [HTTPError] of [raise_for_status]). *)
Inductive exn : Type :=
| FileNotFoundError
| JSONDecodeError
| KeyError
| TypeError
| AttributeError
| ConnectionError
| Timeout
| RequestException
| UnicodeEncodeError.

Inductive result (A : Type) : Type :=
| Ok (a : A)
| Raise (e : exn).
Arguments Ok {A} a.
Arguments Raise {A} e.

Definition rbind {A B} (r : result A) (k : A -> result B) : result B :=
  match r with
  | Ok a => k a
  | Raise e => Raise e
  end.

Notation "x <~ r ;; k" := (rbind r (fun x => k))
  (at level 61, r at next level, right associativity).

(** ** Dictionaries in insertion order

    A Python [dict] keeps its keys in insertion order; assigning to a key
    that is present replaces the value where it stands, assigning to a new
    key appends. *)

Section Dict.
Context {K V : Type}.
Variable eqb : K -> K -> bool.

Fixpoint assoc_get (k : K) (d : list (K * V)) : option V :=
  match d with
  | [] => None
  | (k', v) :: d' => if eqb k k' then Some v else assoc_get k d'
  end.

Fixpoint assoc_set (k : K) (v : V) (d : list (K * V)) : list (K * V) :=
  match d with
  | [] => [(k, v)]
  | (k', v') :: d' =>
      if eqb k k' then (k, v) :: d' else (k', v') :: assoc_set k v d'
  end.

Definition assoc_keys (d : list (K * V)) : list K := map fst d.
Definition assoc_values (d : list (K * V)) : list V := map snd d.
End Dict.

(** What a hashable JSON value is as a dictionary key: [True == 1] and
    [False == 0] in Python, with equal hashes. *)
Inductive key : Type :=
| KNone
| KInt (n : Z)
| KStr (s : string).

Definition key_eqb (a b : key) : bool :=
  match a, b with
  | KNone, KNone => true
  | KInt n, KInt m => Z.eqb n m
  | KStr s, KStr t => String.eqb s t
  | _, _ => false
  end.

Definition pydict := list (key * json).

(** ** Strings

    A [str] is held as the bytes of its UTF-8 encoding.  A [str] may also
    hold surrogates (U+D800..U+DFFF: [json.load] reads them from an escape
    such as [\ud800]), which UTF-8 proper refuses; they are held as the
    three bytes that the same scheme gives them, and [utf8] tells whether
    a string is free of them.  Equality and the substring test on the
    bytes are those on the characters, since no character's bytes start
    inside another's. *)

(** The second and later bytes of a character are the bytes 0x80..0xBF. *)
Definition continuation (c : ascii) : bool :=
  let n := N_of_ascii c in
  (N.leb 0x80 n && N.ltb n 0xC0)%bool.

(** The characters of a string, each as its bytes: a character starts
    at every byte that is not a continuation byte. *)
Definition trailing (g : string) : bool :=
  match g with
  | String c _ => continuation c
  | EmptyString => false
  end.

Fixpoint chars (s : string) : list string :=
  match s with
  | EmptyString => []
  | String c s' =>
      match chars s' with
      | g :: l =>
          if trailing g then String c g :: l
          else String c EmptyString :: g :: l
      | [] => [String c EmptyString]
      end
  end.

(** [ord(c)] of a character given by its bytes. *)
Definition ord (g : string) : N :=
  match g with
  | EmptyString => 0
  | String c t =>
      let n := N_of_ascii c in
      let lead :=
        if N.ltb n 0x80 then n
        else if N.ltb n 0xE0 then N.land n 0x1F
        else if N.ltb n 0xF0 then N.land n 0x0F
        else N.land n 0x07 in
      fold_left (fun acc b => (acc * 64 + N.land (N_of_ascii b) 0x3F)%N)
        (list_ascii_of_string t) lead
  end.

Definition byte (n : N) : string := String (ascii_of_N n) EmptyString.

(** [chr(n)], as its bytes. *)
Definition chr (n : N) : string :=
  (if n <? 0x80 then byte n
   else if n <? 0x800 then
     byte (0xC0 + n / 64) ++ byte (0x80 + n mod 64)
   else if n <? 0x10000 then
     byte (0xE0 + n / 4096) ++ byte (0x80 + (n / 64) mod 64) ++
     byte (0x80 + n mod 64)
   else
     byte (0xF0 + n / 262144) ++ byte (0x80 + (n / 4096) mod 64) ++
     byte (0x80 + (n / 64) mod 64) ++ byte (0x80 + n mod 64))%N%string.

(** [str.lower] follows Unicode 14.0.0, as CPython 3.11 does.  A run
    [(lo, hi, step, to)] maps the code points [lo], [lo + step], ... up to
    [hi] to [to], [to + step], ...; the ranges of cased and of
    case-ignorable code points serve the one rule that looks at the
    context, that of the capital sigma. *)

Definition lower_runs : list (N * N * N * N) :=
  [
   (0x41, 0x5A, 1, 0x61); (0xC0, 0xD6, 1, 0xE0); (0xD8, 0xDE, 1, 0xF8); (0x100, 0x12E, 2, 0x101);
   (0x132, 0x136, 2, 0x133); (0x139, 0x147, 2, 0x13A); (0x14A, 0x176, 2, 0x14B); (0x178, 0x178, 1, 0xFF);
   (0x179, 0x17D, 2, 0x17A); (0x181, 0x181, 1, 0x253); (0x182, 0x184, 2, 0x183); (0x186, 0x186, 1, 0x254);
   (0x187, 0x187, 1, 0x188); (0x189, 0x18A, 1, 0x256); (0x18B, 0x18B, 1, 0x18C); (0x18E, 0x18E, 1, 0x1DD);
   (0x18F, 0x18F, 1, 0x259); (0x190, 0x190, 1, 0x25B); (0x191, 0x191, 1, 0x192); (0x193, 0x193, 1, 0x260);
   (0x194, 0x194, 1, 0x263); (0x196, 0x196, 1, 0x269); (0x197, 0x197, 1, 0x268); (0x198, 0x198, 1, 0x199);
   (0x19C, 0x19C, 1, 0x26F); (0x19D, 0x19D, 1, 0x272); (0x19F, 0x19F, 1, 0x275); (0x1A0, 0x1A4, 2, 0x1A1);
   (0x1A6, 0x1A6, 1, 0x280); (0x1A7, 0x1A7, 1, 0x1A8); (0x1A9, 0x1A9, 1, 0x283); (0x1AC, 0x1AC, 1, 0x1AD);
   (0x1AE, 0x1AE, 1, 0x288); (0x1AF, 0x1AF, 1, 0x1B0); (0x1B1, 0x1B2, 1, 0x28A); (0x1B3, 0x1B5, 2, 0x1B4);
   (0x1B7, 0x1B7, 1, 0x292); (0x1B8, 0x1B8, 1, 0x1B9); (0x1BC, 0x1BC, 1, 0x1BD); (0x1C4, 0x1C4, 1, 0x1C6);
   (0x1C5, 0x1C5, 1, 0x1C6); (0x1C7, 0x1C7, 1, 0x1C9); (0x1C8, 0x1C8, 1, 0x1C9); (0x1CA, 0x1CA, 1, 0x1CC);
   (0x1CB, 0x1DB, 2, 0x1CC); (0x1DE, 0x1EE, 2, 0x1DF); (0x1F1, 0x1F1, 1, 0x1F3); (0x1F2, 0x1F4, 2, 0x1F3);
   (0x1F6, 0x1F6, 1, 0x195); (0x1F7, 0x1F7, 1, 0x1BF); (0x1F8, 0x21E, 2, 0x1F9); (0x220, 0x220, 1, 0x19E);
   (0x222, 0x232, 2, 0x223); (0x23A, 0x23A, 1, 0x2C65); (0x23B, 0x23B, 1, 0x23C); (0x23D, 0x23D, 1, 0x19A);
   (0x23E, 0x23E, 1, 0x2C66); (0x241, 0x241, 1, 0x242); (0x243, 0x243, 1, 0x180); (0x244, 0x244, 1, 0x289);
   (0x245, 0x245, 1, 0x28C); (0x246, 0x24E, 2, 0x247); (0x370, 0x372, 2, 0x371); (0x376, 0x376, 1, 0x377);
   (0x37F, 0x37F, 1, 0x3F3); (0x386, 0x386, 1, 0x3AC); (0x388, 0x38A, 1, 0x3AD); (0x38C, 0x38C, 1, 0x3CC);
   (0x38E, 0x38F, 1, 0x3CD); (0x391, 0x3A1, 1, 0x3B1); (0x3A3, 0x3AB, 1, 0x3C3); (0x3CF, 0x3CF, 1, 0x3D7);
   (0x3D8, 0x3EE, 2, 0x3D9); (0x3F4, 0x3F4, 1, 0x3B8); (0x3F7, 0x3F7, 1, 0x3F8); (0x3F9, 0x3F9, 1, 0x3F2);
   (0x3FA, 0x3FA, 1, 0x3FB); (0x3FD, 0x3FF, 1, 0x37B); (0x400, 0x40F, 1, 0x450); (0x410, 0x42F, 1, 0x430);
   (0x460, 0x480, 2, 0x461); (0x48A, 0x4BE, 2, 0x48B); (0x4C0, 0x4C0, 1, 0x4CF); (0x4C1, 0x4CD, 2, 0x4C2);
   (0x4D0, 0x52E, 2, 0x4D1); (0x531, 0x556, 1, 0x561); (0x10A0, 0x10C5, 1, 0x2D00); (0x10C7, 0x10C7, 1, 0x2D27);
   (0x10CD, 0x10CD, 1, 0x2D2D); (0x13A0, 0x13EF, 1, 0xAB70); (0x13F0, 0x13F5, 1, 0x13F8); (0x1C90, 0x1CBA, 1, 0x10D0);
   (0x1CBD, 0x1CBF, 1, 0x10FD); (0x1E00, 0x1E94, 2, 0x1E01); (0x1E9E, 0x1E9E, 1, 0xDF); (0x1EA0, 0x1EFE, 2, 0x1EA1);
   (0x1F08, 0x1F0F, 1, 0x1F00); (0x1F18, 0x1F1D, 1, 0x1F10); (0x1F28, 0x1F2F, 1, 0x1F20); (0x1F38, 0x1F3F, 1, 0x1F30);
   (0x1F48, 0x1F4D, 1, 0x1F40); (0x1F59, 0x1F5F, 2, 0x1F51); (0x1F68, 0x1F6F, 1, 0x1F60); (0x1F88, 0x1F8F, 1, 0x1F80);
   (0x1F98, 0x1F9F, 1, 0x1F90); (0x1FA8, 0x1FAF, 1, 0x1FA0); (0x1FB8, 0x1FB9, 1, 0x1FB0); (0x1FBA, 0x1FBB, 1, 0x1F70);
   (0x1FBC, 0x1FBC, 1, 0x1FB3); (0x1FC8, 0x1FCB, 1, 0x1F72); (0x1FCC, 0x1FCC, 1, 0x1FC3); (0x1FD8, 0x1FD9, 1, 0x1FD0);
   (0x1FDA, 0x1FDB, 1, 0x1F76); (0x1FE8, 0x1FE9, 1, 0x1FE0); (0x1FEA, 0x1FEB, 1, 0x1F7A); (0x1FEC, 0x1FEC, 1, 0x1FE5);
   (0x1FF8, 0x1FF9, 1, 0x1F78); (0x1FFA, 0x1FFB, 1, 0x1F7C); (0x1FFC, 0x1FFC, 1, 0x1FF3); (0x2126, 0x2126, 1, 0x3C9);
   (0x212A, 0x212A, 1, 0x6B); (0x212B, 0x212B, 1, 0xE5); (0x2132, 0x2132, 1, 0x214E); (0x2160, 0x216F, 1, 0x2170);
   (0x2183, 0x2183, 1, 0x2184); (0x24B6, 0x24CF, 1, 0x24D0); (0x2C00, 0x2C2F, 1, 0x2C30); (0x2C60, 0x2C60, 1, 0x2C61);
   (0x2C62, 0x2C62, 1, 0x26B); (0x2C63, 0x2C63, 1, 0x1D7D); (0x2C64, 0x2C64, 1, 0x27D); (0x2C67, 0x2C6B, 2, 0x2C68);
   (0x2C6D, 0x2C6D, 1, 0x251); (0x2C6E, 0x2C6E, 1, 0x271); (0x2C6F, 0x2C6F, 1, 0x250); (0x2C70, 0x2C70, 1, 0x252);
   (0x2C72, 0x2C72, 1, 0x2C73); (0x2C75, 0x2C75, 1, 0x2C76); (0x2C7E, 0x2C7F, 1, 0x23F); (0x2C80, 0x2CE2, 2, 0x2C81);
   (0x2CEB, 0x2CED, 2, 0x2CEC); (0x2CF2, 0x2CF2, 1, 0x2CF3); (0xA640, 0xA66C, 2, 0xA641); (0xA680, 0xA69A, 2, 0xA681);
   (0xA722, 0xA72E, 2, 0xA723); (0xA732, 0xA76E, 2, 0xA733); (0xA779, 0xA77B, 2, 0xA77A); (0xA77D, 0xA77D, 1, 0x1D79);
   (0xA77E, 0xA786, 2, 0xA77F); (0xA78B, 0xA78B, 1, 0xA78C); (0xA78D, 0xA78D, 1, 0x265); (0xA790, 0xA792, 2, 0xA791);
   (0xA796, 0xA7A8, 2, 0xA797); (0xA7AA, 0xA7AA, 1, 0x266); (0xA7AB, 0xA7AB, 1, 0x25C); (0xA7AC, 0xA7AC, 1, 0x261);
   (0xA7AD, 0xA7AD, 1, 0x26C); (0xA7AE, 0xA7AE, 1, 0x26A); (0xA7B0, 0xA7B0, 1, 0x29E); (0xA7B1, 0xA7B1, 1, 0x287);
   (0xA7B2, 0xA7B2, 1, 0x29D); (0xA7B3, 0xA7B3, 1, 0xAB53); (0xA7B4, 0xA7C2, 2, 0xA7B5); (0xA7C4, 0xA7C4, 1, 0xA794);
   (0xA7C5, 0xA7C5, 1, 0x282); (0xA7C6, 0xA7C6, 1, 0x1D8E); (0xA7C7, 0xA7C9, 2, 0xA7C8); (0xA7D0, 0xA7D0, 1, 0xA7D1);
   (0xA7D6, 0xA7D8, 2, 0xA7D7); (0xA7F5, 0xA7F5, 1, 0xA7F6); (0xFF21, 0xFF3A, 1, 0xFF41); (0x10400, 0x10427, 1, 0x10428);
   (0x104B0, 0x104D3, 1, 0x104D8); (0x10570, 0x10594, 2, 0x10597); (0x10571, 0x10579, 2, 0x10598); (0x1057D, 0x10589, 2, 0x105A4);
   (0x1058D, 0x10591, 2, 0x105B4); (0x10595, 0x10595, 1, 0x105BC); (0x10C80, 0x10CB2, 1, 0x10CC0); (0x118A0, 0x118BF, 1, 0x118C0);
   (0x16E40, 0x16E5F, 1, 0x16E60); (0x1E900, 0x1E921, 1, 0x1E922)]%N.

Definition cased_ranges : list (N * N) :=
  [
   (0x41, 0x5A); (0x61, 0x7A); (0xAA, 0xAA); (0xB5, 0xB5); (0xBA, 0xBA);
   (0xC0, 0xD6); (0xD8, 0xF6); (0xF8, 0x1BA); (0x1BC, 0x1BF); (0x1C4, 0x293);
   (0x295, 0x2AF); (0x370, 0x373); (0x376, 0x377); (0x37B, 0x37D); (0x37F, 0x37F);
   (0x386, 0x386); (0x388, 0x38A); (0x38C, 0x38C); (0x38E, 0x3A1); (0x3A3, 0x3F5);
   (0x3F7, 0x481); (0x48A, 0x52F); (0x531, 0x556); (0x560, 0x588); (0x10A0, 0x10C5);
   (0x10C7, 0x10C7); (0x10CD, 0x10CD); (0x10D0, 0x10FA); (0x10FD, 0x10FF); (0x13A0, 0x13F5);
   (0x13F8, 0x13FD); (0x1C80, 0x1C88); (0x1C90, 0x1CBA); (0x1CBD, 0x1CBF); (0x1D00, 0x1D2B);
   (0x1D6B, 0x1D77); (0x1D79, 0x1D9A); (0x1E00, 0x1F15); (0x1F18, 0x1F1D); (0x1F20, 0x1F45);
   (0x1F48, 0x1F4D); (0x1F50, 0x1F57); (0x1F59, 0x1F59); (0x1F5B, 0x1F5B); (0x1F5D, 0x1F5D);
   (0x1F5F, 0x1F7D); (0x1F80, 0x1FB4); (0x1FB6, 0x1FBC); (0x1FBE, 0x1FBE); (0x1FC2, 0x1FC4);
   (0x1FC6, 0x1FCC); (0x1FD0, 0x1FD3); (0x1FD6, 0x1FDB); (0x1FE0, 0x1FEC); (0x1FF2, 0x1FF4);
   (0x1FF6, 0x1FFC); (0x2102, 0x2102); (0x2107, 0x2107); (0x210A, 0x2113); (0x2115, 0x2115);
   (0x2119, 0x211D); (0x2124, 0x2124); (0x2126, 0x2126); (0x2128, 0x2128); (0x212A, 0x212D);
   (0x212F, 0x2134); (0x2139, 0x2139); (0x213C, 0x213F); (0x2145, 0x2149); (0x214E, 0x214E);
   (0x2160, 0x217F); (0x2183, 0x2184); (0x24B6, 0x24E9); (0x2C00, 0x2C7B); (0x2C7E, 0x2CE4);
   (0x2CEB, 0x2CEE); (0x2CF2, 0x2CF3); (0x2D00, 0x2D25); (0x2D27, 0x2D27); (0x2D2D, 0x2D2D);
   (0xA640, 0xA66D); (0xA680, 0xA69B); (0xA722, 0xA76F); (0xA771, 0xA787); (0xA78B, 0xA78E);
   (0xA790, 0xA7CA); (0xA7D0, 0xA7D1); (0xA7D3, 0xA7D3); (0xA7D5, 0xA7D9); (0xA7F5, 0xA7F6);
   (0xA7FA, 0xA7FA); (0xAB30, 0xAB5A); (0xAB60, 0xAB68); (0xAB70, 0xABBF); (0xFB00, 0xFB06);
   (0xFB13, 0xFB17); (0xFF21, 0xFF3A); (0xFF41, 0xFF5A); (0x10400, 0x1044F); (0x104B0, 0x104D3);
   (0x104D8, 0x104FB); (0x10570, 0x1057A); (0x1057C, 0x1058A); (0x1058C, 0x10592); (0x10594, 0x10595);
   (0x10597, 0x105A1); (0x105A3, 0x105B1); (0x105B3, 0x105B9); (0x105BB, 0x105BC); (0x10C80, 0x10CB2);
   (0x10CC0, 0x10CF2); (0x118A0, 0x118DF); (0x16E40, 0x16E7F); (0x1D400, 0x1D454); (0x1D456, 0x1D49C);
   (0x1D49E, 0x1D49F); (0x1D4A2, 0x1D4A2); (0x1D4A5, 0x1D4A6); (0x1D4A9, 0x1D4AC); (0x1D4AE, 0x1D4B9);
   (0x1D4BB, 0x1D4BB); (0x1D4BD, 0x1D4C3); (0x1D4C5, 0x1D505); (0x1D507, 0x1D50A); (0x1D50D, 0x1D514);
   (0x1D516, 0x1D51C); (0x1D51E, 0x1D539); (0x1D53B, 0x1D53E); (0x1D540, 0x1D544); (0x1D546, 0x1D546);
   (0x1D54A, 0x1D550); (0x1D552, 0x1D6A5); (0x1D6A8, 0x1D6C0); (0x1D6C2, 0x1D6DA); (0x1D6DC, 0x1D6FA);
   (0x1D6FC, 0x1D714); (0x1D716, 0x1D734); (0x1D736, 0x1D74E); (0x1D750, 0x1D76E); (0x1D770, 0x1D788);
   (0x1D78A, 0x1D7A8); (0x1D7AA, 0x1D7C2); (0x1D7C4, 0x1D7CB); (0x1DF00, 0x1DF09); (0x1DF0B, 0x1DF1E);
   (0x1E900, 0x1E943); (0x1F130, 0x1F149); (0x1F150, 0x1F169); (0x1F170, 0x1F189)]%N.

Definition case_ignorable_ranges : list (N * N) :=
  [
   (0x27, 0x27); (0x2E, 0x2E); (0x3A, 0x3A); (0x5E, 0x5E); (0x60, 0x60);
   (0xA8, 0xA8); (0xAD, 0xAD); (0xAF, 0xAF); (0xB4, 0xB4); (0xB7, 0xB8);
   (0x2B0, 0x36F); (0x374, 0x375); (0x37A, 0x37A); (0x384, 0x385); (0x387, 0x387);
   (0x483, 0x489); (0x559, 0x559); (0x55F, 0x55F); (0x591, 0x5BD); (0x5BF, 0x5BF);
   (0x5C1, 0x5C2); (0x5C4, 0x5C5); (0x5C7, 0x5C7); (0x5F4, 0x5F4); (0x600, 0x605);
   (0x610, 0x61A); (0x61C, 0x61C); (0x640, 0x640); (0x64B, 0x65F); (0x670, 0x670);
   (0x6D6, 0x6DD); (0x6DF, 0x6E8); (0x6EA, 0x6ED); (0x70F, 0x70F); (0x711, 0x711);
   (0x730, 0x74A); (0x7A6, 0x7B0); (0x7EB, 0x7F5); (0x7FA, 0x7FA); (0x7FD, 0x7FD);
   (0x816, 0x82D); (0x859, 0x85B); (0x888, 0x888); (0x890, 0x891); (0x898, 0x89F);
   (0x8C9, 0x902); (0x93A, 0x93A); (0x93C, 0x93C); (0x941, 0x948); (0x94D, 0x94D);
   (0x951, 0x957); (0x962, 0x963); (0x971, 0x971); (0x981, 0x981); (0x9BC, 0x9BC);
   (0x9C1, 0x9C4); (0x9CD, 0x9CD); (0x9E2, 0x9E3); (0x9FE, 0x9FE); (0xA01, 0xA02);
   (0xA3C, 0xA3C); (0xA41, 0xA42); (0xA47, 0xA48); (0xA4B, 0xA4D); (0xA51, 0xA51);
   (0xA70, 0xA71); (0xA75, 0xA75); (0xA81, 0xA82); (0xABC, 0xABC); (0xAC1, 0xAC5);
   (0xAC7, 0xAC8); (0xACD, 0xACD); (0xAE2, 0xAE3); (0xAFA, 0xAFF); (0xB01, 0xB01);
   (0xB3C, 0xB3C); (0xB3F, 0xB3F); (0xB41, 0xB44); (0xB4D, 0xB4D); (0xB55, 0xB56);
   (0xB62, 0xB63); (0xB82, 0xB82); (0xBC0, 0xBC0); (0xBCD, 0xBCD); (0xC00, 0xC00);
   (0xC04, 0xC04); (0xC3C, 0xC3C); (0xC3E, 0xC40); (0xC46, 0xC48); (0xC4A, 0xC4D);
   (0xC55, 0xC56); (0xC62, 0xC63); (0xC81, 0xC81); (0xCBC, 0xCBC); (0xCBF, 0xCBF);
   (0xCC6, 0xCC6); (0xCCC, 0xCCD); (0xCE2, 0xCE3); (0xD00, 0xD01); (0xD3B, 0xD3C);
   (0xD41, 0xD44); (0xD4D, 0xD4D); (0xD62, 0xD63); (0xD81, 0xD81); (0xDCA, 0xDCA);
   (0xDD2, 0xDD4); (0xDD6, 0xDD6); (0xE31, 0xE31); (0xE34, 0xE3A); (0xE46, 0xE4E);
   (0xEB1, 0xEB1); (0xEB4, 0xEBC); (0xEC6, 0xEC6); (0xEC8, 0xECD); (0xF18, 0xF19);
   (0xF35, 0xF35); (0xF37, 0xF37); (0xF39, 0xF39); (0xF71, 0xF7E); (0xF80, 0xF84);
   (0xF86, 0xF87); (0xF8D, 0xF97); (0xF99, 0xFBC); (0xFC6, 0xFC6); (0x102D, 0x1030);
   (0x1032, 0x1037); (0x1039, 0x103A); (0x103D, 0x103E); (0x1058, 0x1059); (0x105E, 0x1060);
   (0x1071, 0x1074); (0x1082, 0x1082); (0x1085, 0x1086); (0x108D, 0x108D); (0x109D, 0x109D);
   (0x10FC, 0x10FC); (0x135D, 0x135F); (0x1712, 0x1714); (0x1732, 0x1733); (0x1752, 0x1753);
   (0x1772, 0x1773); (0x17B4, 0x17B5); (0x17B7, 0x17BD); (0x17C6, 0x17C6); (0x17C9, 0x17D3);
   (0x17D7, 0x17D7); (0x17DD, 0x17DD); (0x180B, 0x180F); (0x1843, 0x1843); (0x1885, 0x1886);
   (0x18A9, 0x18A9); (0x1920, 0x1922); (0x1927, 0x1928); (0x1932, 0x1932); (0x1939, 0x193B);
   (0x1A17, 0x1A18); (0x1A1B, 0x1A1B); (0x1A56, 0x1A56); (0x1A58, 0x1A5E); (0x1A60, 0x1A60);
   (0x1A62, 0x1A62); (0x1A65, 0x1A6C); (0x1A73, 0x1A7C); (0x1A7F, 0x1A7F); (0x1AA7, 0x1AA7);
   (0x1AB0, 0x1ACE); (0x1B00, 0x1B03); (0x1B34, 0x1B34); (0x1B36, 0x1B3A); (0x1B3C, 0x1B3C);
   (0x1B42, 0x1B42); (0x1B6B, 0x1B73); (0x1B80, 0x1B81); (0x1BA2, 0x1BA5); (0x1BA8, 0x1BA9);
   (0x1BAB, 0x1BAD); (0x1BE6, 0x1BE6); (0x1BE8, 0x1BE9); (0x1BED, 0x1BED); (0x1BEF, 0x1BF1);
   (0x1C2C, 0x1C33); (0x1C36, 0x1C37); (0x1C78, 0x1C7D); (0x1CD0, 0x1CD2); (0x1CD4, 0x1CE0);
   (0x1CE2, 0x1CE8); (0x1CED, 0x1CED); (0x1CF4, 0x1CF4); (0x1CF8, 0x1CF9); (0x1D2C, 0x1D6A);
   (0x1D78, 0x1D78); (0x1D9B, 0x1DFF); (0x1FBD, 0x1FBD); (0x1FBF, 0x1FC1); (0x1FCD, 0x1FCF);
   (0x1FDD, 0x1FDF); (0x1FED, 0x1FEF); (0x1FFD, 0x1FFE); (0x200B, 0x200F); (0x2018, 0x2019);
   (0x2024, 0x2024); (0x2027, 0x2027); (0x202A, 0x202E); (0x2060, 0x2064); (0x2066, 0x206F);
   (0x2071, 0x2071); (0x207F, 0x207F); (0x2090, 0x209C); (0x20D0, 0x20F0); (0x2C7C, 0x2C7D);
   (0x2CEF, 0x2CF1); (0x2D6F, 0x2D6F); (0x2D7F, 0x2D7F); (0x2DE0, 0x2DFF); (0x2E2F, 0x2E2F);
   (0x3005, 0x3005); (0x302A, 0x302D); (0x3031, 0x3035); (0x303B, 0x303B); (0x3099, 0x309E);
   (0x30FC, 0x30FE); (0xA015, 0xA015); (0xA4F8, 0xA4FD); (0xA60C, 0xA60C); (0xA66F, 0xA672);
   (0xA674, 0xA67D); (0xA67F, 0xA67F); (0xA69C, 0xA69F); (0xA6F0, 0xA6F1); (0xA700, 0xA721);
   (0xA770, 0xA770); (0xA788, 0xA78A); (0xA7F2, 0xA7F4); (0xA7F8, 0xA7F9); (0xA802, 0xA802);
   (0xA806, 0xA806); (0xA80B, 0xA80B); (0xA825, 0xA826); (0xA82C, 0xA82C); (0xA8C4, 0xA8C5);
   (0xA8E0, 0xA8F1); (0xA8FF, 0xA8FF); (0xA926, 0xA92D); (0xA947, 0xA951); (0xA980, 0xA982);
   (0xA9B3, 0xA9B3); (0xA9B6, 0xA9B9); (0xA9BC, 0xA9BD); (0xA9CF, 0xA9CF); (0xA9E5, 0xA9E6);
   (0xAA29, 0xAA2E); (0xAA31, 0xAA32); (0xAA35, 0xAA36); (0xAA43, 0xAA43); (0xAA4C, 0xAA4C);
   (0xAA70, 0xAA70); (0xAA7C, 0xAA7C); (0xAAB0, 0xAAB0); (0xAAB2, 0xAAB4); (0xAAB7, 0xAAB8);
   (0xAABE, 0xAABF); (0xAAC1, 0xAAC1); (0xAADD, 0xAADD); (0xAAEC, 0xAAED); (0xAAF3, 0xAAF4);
   (0xAAF6, 0xAAF6); (0xAB5B, 0xAB5F); (0xAB69, 0xAB6B); (0xABE5, 0xABE5); (0xABE8, 0xABE8);
   (0xABED, 0xABED); (0xFB1E, 0xFB1E); (0xFBB2, 0xFBC2); (0xFE00, 0xFE0F); (0xFE13, 0xFE13);
   (0xFE20, 0xFE2F); (0xFE52, 0xFE52); (0xFE55, 0xFE55); (0xFEFF, 0xFEFF); (0xFF07, 0xFF07);
   (0xFF0E, 0xFF0E); (0xFF1A, 0xFF1A); (0xFF3E, 0xFF3E); (0xFF40, 0xFF40); (0xFF70, 0xFF70);
   (0xFF9E, 0xFF9F); (0xFFE3, 0xFFE3); (0xFFF9, 0xFFFB); (0x101FD, 0x101FD); (0x102E0, 0x102E0);
   (0x10376, 0x1037A); (0x10780, 0x10785); (0x10787, 0x107B0); (0x107B2, 0x107BA); (0x10A01, 0x10A03);
   (0x10A05, 0x10A06); (0x10A0C, 0x10A0F); (0x10A38, 0x10A3A); (0x10A3F, 0x10A3F); (0x10AE5, 0x10AE6);
   (0x10D24, 0x10D27); (0x10EAB, 0x10EAC); (0x10F46, 0x10F50); (0x10F82, 0x10F85); (0x11001, 0x11001);
   (0x11038, 0x11046); (0x11070, 0x11070); (0x11073, 0x11074); (0x1107F, 0x11081); (0x110B3, 0x110B6);
   (0x110B9, 0x110BA); (0x110BD, 0x110BD); (0x110C2, 0x110C2); (0x110CD, 0x110CD); (0x11100, 0x11102);
   (0x11127, 0x1112B); (0x1112D, 0x11134); (0x11173, 0x11173); (0x11180, 0x11181); (0x111B6, 0x111BE);
   (0x111C9, 0x111CC); (0x111CF, 0x111CF); (0x1122F, 0x11231); (0x11234, 0x11234); (0x11236, 0x11237);
   (0x1123E, 0x1123E); (0x112DF, 0x112DF); (0x112E3, 0x112EA); (0x11300, 0x11301); (0x1133B, 0x1133C);
   (0x11340, 0x11340); (0x11366, 0x1136C); (0x11370, 0x11374); (0x11438, 0x1143F); (0x11442, 0x11444);
   (0x11446, 0x11446); (0x1145E, 0x1145E); (0x114B3, 0x114B8); (0x114BA, 0x114BA); (0x114BF, 0x114C0);
   (0x114C2, 0x114C3); (0x115B2, 0x115B5); (0x115BC, 0x115BD); (0x115BF, 0x115C0); (0x115DC, 0x115DD);
   (0x11633, 0x1163A); (0x1163D, 0x1163D); (0x1163F, 0x11640); (0x116AB, 0x116AB); (0x116AD, 0x116AD);
   (0x116B0, 0x116B5); (0x116B7, 0x116B7); (0x1171D, 0x1171F); (0x11722, 0x11725); (0x11727, 0x1172B);
   (0x1182F, 0x11837); (0x11839, 0x1183A); (0x1193B, 0x1193C); (0x1193E, 0x1193E); (0x11943, 0x11943);
   (0x119D4, 0x119D7); (0x119DA, 0x119DB); (0x119E0, 0x119E0); (0x11A01, 0x11A0A); (0x11A33, 0x11A38);
   (0x11A3B, 0x11A3E); (0x11A47, 0x11A47); (0x11A51, 0x11A56); (0x11A59, 0x11A5B); (0x11A8A, 0x11A96);
   (0x11A98, 0x11A99); (0x11C30, 0x11C36); (0x11C38, 0x11C3D); (0x11C3F, 0x11C3F); (0x11C92, 0x11CA7);
   (0x11CAA, 0x11CB0); (0x11CB2, 0x11CB3); (0x11CB5, 0x11CB6); (0x11D31, 0x11D36); (0x11D3A, 0x11D3A);
   (0x11D3C, 0x11D3D); (0x11D3F, 0x11D45); (0x11D47, 0x11D47); (0x11D90, 0x11D91); (0x11D95, 0x11D95);
   (0x11D97, 0x11D97); (0x11EF3, 0x11EF4); (0x13430, 0x13438); (0x16AF0, 0x16AF4); (0x16B30, 0x16B36);
   (0x16B40, 0x16B43); (0x16F4F, 0x16F4F); (0x16F8F, 0x16F9F); (0x16FE0, 0x16FE1); (0x16FE3, 0x16FE4);
   (0x1AFF0, 0x1AFF3); (0x1AFF5, 0x1AFFB); (0x1AFFD, 0x1AFFE); (0x1BC9D, 0x1BC9E); (0x1BCA0, 0x1BCA3);
   (0x1CF00, 0x1CF2D); (0x1CF30, 0x1CF46); (0x1D167, 0x1D169); (0x1D173, 0x1D182); (0x1D185, 0x1D18B);
   (0x1D1AA, 0x1D1AD); (0x1D242, 0x1D244); (0x1DA00, 0x1DA36); (0x1DA3B, 0x1DA6C); (0x1DA75, 0x1DA75);
   (0x1DA84, 0x1DA84); (0x1DA9B, 0x1DA9F); (0x1DAA1, 0x1DAAF); (0x1E000, 0x1E006); (0x1E008, 0x1E018);
   (0x1E01B, 0x1E021); (0x1E023, 0x1E024); (0x1E026, 0x1E02A); (0x1E130, 0x1E13D); (0x1E2AE, 0x1E2AE);
   (0x1E2EC, 0x1E2EF); (0x1E8D0, 0x1E8D6); (0x1E944, 0x1E94B); (0x1F3FB, 0x1F3FF); (0xE0001, 0xE0001);
   (0xE0020, 0xE007F); (0xE0100, 0xE01EF)]%N.

Definition in_ranges (n : N) (t : list (N * N)) : bool :=
  existsb (fun r => (fst r <=? n) && (n <=? snd r))%N t.

Definition in_run (n : N) (r : N * N * N * N) : bool :=
  let '(lo, hi, step, _) := r in
  ((lo <=? n) && (n <=? hi) && ((n - lo) mod step =? 0))%N.

(** The simple lowercase mapping of a code point, when it has one. *)
Definition simple_lower (n : N) : option N :=
  match find (in_run n) lower_runs with
  | Some (lo, _, _, to) => Some (to + (n - lo))%N
  | None => None
  end.

(** The lowercase of one character out of context: U+0130 is the one
    character whose lowercase is two characters long. *)
Definition lower_char (g : string) : string :=
  let n := ord g in
  if (n =? 0x130)%N then chr 0x69 ++ chr 0x307
  else match simple_lower n with
       | Some m => chr m
       | None => g
       end.

Definition cased (n : N) : bool := in_ranges n cased_ranges.
Definition case_ignorable (n : N) : bool := in_ranges n case_ignorable_ranges.

(** The first character of [l] that is not case-ignorable. *)
Fixpoint first_solid (l : list N) : option N :=
  match l with
  | [] => None
  | n :: l' => if case_ignorable n then first_solid l' else Some n
  end.

(** Whether a capital sigma stands at the end of a word: the nearest
    character before it that is not case-ignorable is cased, and the
    nearest such character after it, if there is one, is not.  [before]
    is read from the sigma leftwards. *)
Definition final_sigma (before after : list N) : bool :=
  match first_solid before with
  | Some b =>
      cased b &&
      match first_solid after with
      | Some a => negb (cased a)
      | None => true
      end
  | None => false
  end.

Fixpoint lower_chars (before : list N) (l : list string) : string :=
  match l with
  | [] => EmptyString
  | g :: l' =>
      (if (ord g =? 0x3A3)%N
       then chr (if final_sigma before (map ord l') then 0x3C2 else 0x3C3)
       else lower_char g)
      ++ lower_chars (ord g :: before) l'
  end.

(** [s.lower()] *)
Definition lower (s : string) : string := lower_chars [] (chars s).

(** A surrogate is a code point in U+D800..U+DFFF. *)
Definition surrogate (n : N) : bool := ((0xD800 <=? n) && (n <=? 0xDFFF))%N.

(** [s.encode('utf-8')] succeeds: every character starts on a byte of
    its own and none is a surrogate. *)
Definition utf8 (s : string) : bool :=
  forallb (fun g => negb (trailing g) && negb (surrogate (ord g))) (chars s).

(** [needle in hay] *)
Fixpoint str_in (needle hay : string) : bool :=
  String.prefix needle hay ||
  match hay with
  | EmptyString => false
  | String _ hay' => str_in needle hay'
  end.

(** ** Python operations on JSON values *)

(** [hash(v)] when [v] becomes a dictionary key. *)
Definition hash_key (v : json) : result key :=
  match v with
  | JNull => Ok KNone
  | JBool b => Ok (KInt (if b then 1 else 0))
  | JInt n => Ok (KInt n)
  | JStr s => Ok (KStr s)
  | JArr _ | JObj _ => Raise TypeError
  end.

(** [bool(v)] *)
Definition truthy (v : json) : bool :=
  match v with
  | JNull => false
  | JBool b => b
  | JInt n => negb (Z.eqb n 0)
  | JStr s => negb (String.eqb s "")
  | JArr l => match l with [] => false | _ => true end
  | JObj o => match o with [] => false | _ => true end
  end.

Definition field (k : string) (o : list (string * json)) : option json :=
  assoc_get String.eqb k o.

Arguments field : simpl never.

(** [v[k]] for a string [k] *)
Definition subscript (v : json) (k : string) : result json :=
  match v with
  | JObj o => match field k o with Some x => Ok x | None => Raise KeyError end
  | _ => Raise TypeError
  end.

(** [v.get(k, default)] *)
Definition dict_get (v : json) (k : string) (default : json) : result json :=
  match v with
  | JObj o => match field k o with Some x => Ok x | None => Ok default end
  | _ => Raise AttributeError
  end.

(** [v[k] = x] *)
Definition setitem (v : json) (k : string) (x : json) : result json :=
  match v with
  | JObj o => Ok (JObj (assoc_set String.eqb k x o))
  | _ => Raise TypeError
  end.

(** [for x in v]: a list gives its items, a string its characters, a
    dictionary its keys. *)
Definition py_iter (v : json) : result (list json) :=
  match v with
  | JArr l => Ok l
  | JStr s => Ok (map JStr (chars s))
  | JObj o => Ok (map (fun kv => JStr (fst kv)) o)
  | _ => Raise TypeError
  end.

(** [a == b] on JSON values: numbers and booleans compare by value, lists
    item by item, dictionaries key by key whatever the order. *)
Fixpoint py_eq (a b : json) : bool :=
  match a, b with
  | JNull, JNull => true
  | JBool x, JBool y => Bool.eqb x y
  | JBool x, JInt n => Z.eqb (if x then 1 else 0) n
  | JInt n, JBool y => Z.eqb n (if y then 1 else 0)
  | JInt n, JInt m => Z.eqb n m
  | JStr s, JStr t => String.eqb s t
  | JArr l, JArr m =>
      (fix items (l m : list json) : bool :=
         match l, m with
         | [], [] => true
         | x :: l', y :: m' => py_eq x y && items l' m'
         | _, _ => false
         end) l m
  | JObj o, JObj p =>
      Nat.eqb (List.length o) (List.length p) &&
      (fix fields (o : list (string * json)) : bool :=
         match o with
         | [] => true
         | (k, v) :: o' =>
             match field k p with
             | Some w => py_eq v w
             | None => false
             end && fields o'
         end) o
  | _, _ => false
  end.

(** ** Methods of [str] on JSON values *)

(** [v.lower()] on a JSON value: only a [str] has the method. *)
Definition str_lower (v : json) : result string :=
  match v with
  | JStr s => Ok (lower s)
  | _ => Raise AttributeError
  end.

Fixpoint all_str (l : list json) : result (list string) :=
  match l with
  | [] => Ok []
  | JStr s :: l' => r <~ all_str l' ;; Ok (s :: r)
  | _ :: _ => Raise TypeError
  end.

(** [sep.join(v)]: [v] must be iterable and hold strings only. *)
Definition str_join (sep : string) (v : json) : result string :=
  l <~ py_iter v ;;
  ss <~ all_str l ;;
  Ok (String.concat sep ss).

(** ** Text that UTF-8 encodes *)

(** [json.dumps(v, ensure_ascii=False).encode('utf-8')] succeeds: no
    string of [v], key or value, holds a surrogate. *)
Fixpoint encodable (v : json) : bool :=
  match v with
  | JStr s => utf8 s
  | JArr l => forallb encodable l
  | JObj o => forallb (fun kv => utf8 (fst kv) && encodable (snd kv)) o
  | _ => true
  end.

(** [str(v)] can be written to the terminal.  A string is written as it
    is; any other value goes through [repr], which escapes what cannot be
    printed, surrogates among it. *)
Definition printable (v : json) : bool :=
  match v with
  | JStr s => utf8 s
  | _ => true
  end.

(** [print(f"... {v} ...")] for the values [vs] that the message holds:
    the terminal encodes the message and refuses a surrogate. *)
Definition print (vs : list json) : result unit :=
  if forallb printable vs then Ok tt else Raise UnicodeEncodeError.

(** ** The files, the clock and the transport *)

(** The three files of [~/.asmp], named as the attributes of [ASMPClient]. *)
Inductive path : Type :=
| config_file
| packages_file
| installed_file.

(** A file is absent, present without being JSON, or holds a value. *)
Inductive file : Type :=
| Missing
| Garbled
| Holds (j : json).

(** [urljoin(base, endpoint)], kept as its two parts. *)
Record url : Type := { url_base : json; url_path : string }.

(** What [session.post] is called with. *)
Record request : Type := {
  req_url : url;
  req_json : list (string * json);
  req_timeout : Z
}.

(** The state a command runs in: the content of the three files, the
    files written so far (one entry per [open(..., 'w')]), and the requests
    posted so far. *)
Record world : Type := {
  config : file;
  packages : file;
  installed : file;
  writes : list path;
  posted : list request
}.

(** The environment: what [int(time.time())] reads during the call, and
    the answer of the server to a request, which is the decoded body or
    the exception that [post], [raise_for_status] or [response.json()]
    raises. *)
Record env : Type := {
  now : Z;
  net : request -> result json
}.

Definition read_file (p : path) (w : world) : file :=
  match p with
  | config_file => config w
  | packages_file => packages w
  | installed_file => installed w
  end.

Definition write_file (p : path) (j : json) (w : world) : world :=
  match p with
  | config_file =>
      {| config := Holds j; packages := packages w; installed := installed w;
         writes := writes w ++ [p]; posted := posted w |}
  | packages_file =>
      {| config := config w; packages := Holds j; installed := installed w;
         writes := writes w ++ [p]; posted := posted w |}
  | installed_file =>
      {| config := config w; packages := packages w; installed := Holds j;
         writes := writes w ++ [p]; posted := posted w |}
  end.

(** ** Commands: state that survives an exception *)

Definition M (A : Type) : Type := world -> result A * world.

Definition ret {A} (a : A) : M A := fun w => (Ok a, w).

Definition raise {A} (e : exn) : M A := fun w => (Raise e, w).

Definition bind {A B} (m : M A) (k : A -> M B) : M B :=
  fun w =>
    match m w with
    | (Ok a, w') => k a w'
    | (Raise e, w') => (Raise e, w')
    end.

Definition lift {A} (r : result A) : M A := fun w => (r, w).

(** [try: body except ...: handler]; a handler that does not name the
    exception raises it again. *)
Definition try_except {A} (body : M A) (handler : exn -> M A) : M A :=
  fun w =>
    match body w with
    | (Ok a, w') => (Ok a, w')
    | (Raise e, w') => handler e w'
    end.

Notation "x <- m ;; k" := (bind m (fun x => k))
  (at level 61, m at next level, right associativity).

(** [p.exists()] *)
Definition file_exists (p : path) : M bool :=
  fun w => (Ok (match read_file p w with Missing => false | _ => true end), w).

(** [with open(p, 'r') as f: json.load(f)] *)
Definition json_load (p : path) : M json :=
  fun w =>
    match read_file p w with
    | Missing => (Raise FileNotFoundError, w)
    | Garbled => (Raise JSONDecodeError, w)
    | Holds j => (Ok j, w)
    end.

(** [with open(p, 'w') as f: json.dump(j, f)] of a value made of the
    program's own literals, of the command line and of entries read back
    from the ledger: text that UTF-8 encodes. *)
Definition json_dump (p : path) (j : json) : M unit :=
  fun w => (Ok tt, write_file p j w).

(** A file that was opened for writing and not written to its end: it is
    there, and it is not JSON. *)
Definition cut_file (p : path) (w : world) : world :=
  match p with
  | config_file =>
      {| config := Garbled; packages := packages w; installed := installed w;
         writes := writes w ++ [p]; posted := posted w |}
  | packages_file =>
      {| config := config w; packages := Garbled; installed := installed w;
         writes := writes w ++ [p]; posted := posted w |}
  | installed_file =>
      {| config := config w; packages := packages w; installed := Garbled;
         writes := writes w ++ [p]; posted := posted w |}
  end.

(** [with open(p, 'w', encoding='utf-8') as f: json.dump(j, f,
    ensure_ascii=False)] of a value that holds text of the server.
    [open] empties the file; [json.dump] then writes the value piece by
    piece, and the codec raises at the first string it refuses, which
    leaves the file cut off. *)
Definition json_dump_utf8 (p : path) (j : json) : M unit :=
  fun w =>
    if encodable j then (Ok tt, write_file p j w)
    else (Raise UnicodeEncodeError, cut_file p w).

Definition record_post (r : request) (w : world) : world :=
  {| config := config w; packages := packages w; installed := installed w;
     writes := writes w; posted := posted w ++ [r] |}.

(** [session.post(url, json=..., timeout=...)], [raise_for_status()] and
    [response.json()]. *)
Definition post (e : env) (r : request) : M json :=
  fun w => (net e r, record_post r w).

(** [urljoin] returns the endpoint for an empty base and refuses a base
    that is not a string.  A base that is a string is taken to be a URL
    that [urlsplit] accepts: its [ValueError] on a malformed host is not
    modelled. *)
Definition urljoin (base : json) (endpoint : string) : result url :=
  match base with
  | JStr _ => Ok {| url_base := base; url_path := endpoint |}
  | _ =>
      if truthy base then Raise TypeError
      else Ok {| url_base := JStr ""; url_path := endpoint |}
  end.

(** [d.update(data)] *)
Definition dict_update (d data : list (string * json)) : list (string * json) :=
  fold_left (fun acc kv => assoc_set String.eqb (fst kv) (snd kv) acc) data d.

(** A list comprehension [[x for x in l if test(x)]] whose test may raise. *)
Fixpoint filter_r (test : json -> result bool) (l : list json)
  : result (list json) :=
  match l with
  | [] => Ok []
  | x :: l' =>
      b <~ test x ;;
      r <~ filter_r test l' ;;
      Ok (if b then x :: r else r)
  end.

(** A [for] loop whose body may raise. *)
Fixpoint for_each (body : json -> result unit) (l : list json) : result unit :=
  match l with
  | [] => Ok tt
  | x :: l' => _ <~ body x ;; for_each body l'
  end.

(** ** [ASMPClient] *)

Definition __version__ : string := "0.1.0".

(** The one attribute of the client that changes: [self.base_url]. *)
Record ASMPClient : Type := { base_url : json }.

Definition default_config (server_url : json) : json :=
  JObj [("server_url", server_url);
        ("auto_update", JBool true);
        ("timeout", JInt 30);
        ("client_version", JStr __version__)].

Definition launcher_updater : json :=
  JObj [("name", JStr "launcher_updater");
        ("version", JStr "1.0.0");
        ("description", JStr "Launcher and updater for ArtStudia applications");
        ("author", JStr "ArtTeam");
        ("license", JStr "MIT");
        ("type", JStr "tool");
        ("tags", JArr [JStr "launcher"; JStr "updater"; JStr "gui"]);
        ("source", JStr "https://github.com/artteam9/launcher_updater.git");
        ("source_type", JStr "git")].

Definition artutils : json :=
  JObj [("name", JStr "artutils");
        ("version", JStr "1.2.0");
        ("description", JStr "Utility functions for ArtTeam projects");
        ("author", JStr "ArtTeam");
        ("license", JStr "MIT");
        ("type", JStr "library");
        ("tags", JArr [JStr "utilities"; JStr "helpers"; JStr "tools"]);
        ("source", JStr "artutils");
        ("source_type", JStr "pypi")].

Definition default_packages (e : env) : json :=
  JObj [("packages", JArr [launcher_updater; artutils]);
        ("last_updated", JInt (now e));
        ("client_version", JStr __version__)].

(** [init_config]: the value is the client with [base_url] as the
    configuration file sets it. *)
Definition init_config (e : env) (self : ASMPClient) : M ASMPClient :=
  has_config <- file_exists config_file ;;
  self' <- (if has_config then
              config <- json_load config_file ;;
              server_url <- lift (dict_get config "server_url" (base_url self)) ;;
              ret {| base_url := server_url |}
            else
              _ <- json_dump config_file (default_config (base_url self)) ;;
              ret self) ;;
  has_packages <- file_exists packages_file ;;
  _ <- (if has_packages then ret tt
        else json_dump packages_file (default_packages e)) ;;
  has_installed <- file_exists installed_file ;;
  _ <- (if has_installed then ret tt
        else json_dump installed_file (JArr [])) ;;
  ret self'.

(** [ASMPClient(base_url)]: [base_url or "https://api.artstudia.com"],
    then [init_config]. *)
Definition __init__ (e : env) (base : json) : M ASMPClient :=
  init_config e
    {| base_url := if truthy base then base else JStr "https://api.artstudia.com" |}.

(** The body and the arguments of the [post] of [make_request]. *)
Definition request_of (e : env) (u : url) (data : list (string * json))
  : request :=
  let base_request :=
    [("app_name", JStr "ADK - ArtStudia Developer Kit");
     ("api_version", JStr "0.1.0");
     ("client_version", JStr __version__);
     ("timestamp", JInt (now e))] in
  let base_request :=
    match data with
    | [] => base_request
    | _ => dict_update base_request data
    end in
  {| req_url := u; req_json := base_request; req_timeout := 30 |}.

Definition make_request (e : env) (self : ASMPClient) (endpoint : string)
    (data : list (string * json)) : M json :=
  url <- lift (urljoin (base_url self) endpoint) ;;
  try_except
    (post e (request_of e url data))
    (fun ex =>
       match ex with
       | ConnectionError => ret JNull
       | Timeout => ret JNull
       | RequestException => ret JNull
       | JSONDecodeError => ret JNull
       | _ => raise ex
       end).

(** [response and response.get("success")], as [if] reads it. *)
Definition succeeded (response : json) : result bool :=
  if truthy response then
    s <~ dict_get response "success" JNull ;;
    Ok (truthy s)
  else Ok false.

(** The test of the loop of [search_local]; [or] stops at the first
    operand that holds. *)
Definition matches (query : string) (pkg : json) : result bool :=
  name <~ subscript pkg "name" ;;
  name <~ str_lower name ;;
  if str_in (lower query) name then Ok true
  else
    description <~ dict_get pkg "description" (JStr "") ;;
    description <~ str_lower description ;;
    if str_in (lower query) description then Ok true
    else
      tags <~ dict_get pkg "tags" (JArr []) ;;
      tags <~ str_join " " tags ;;
      Ok (str_in (lower query) (lower tags)).

Definition search_local (query : string) : M (list json) :=
  try_except
    (packages_data <- json_load packages_file ;;
     pkgs <- lift (dict_get packages_data "packages" (JArr [])) ;;
     pkgs <- lift (py_iter pkgs) ;;
     lift (filter_r (matches query) pkgs))
    (fun _ => ret []).

(** [d[pkg["name"]] = pkg] *)
Definition put_package (d : pydict) (pkg : json) : result pydict :=
  name <~ subscript pkg "name" ;;
  k <~ hash_key name ;;
  Ok (assoc_set key_eqb k pkg d).

Fixpoint put_packages (d : pydict) (pkgs : list json) : result pydict :=
  match pkgs with
  | [] => Ok d
  | pkg :: pkgs' => d' <~ put_package d pkg ;; put_packages d' pkgs'
  end.

Definition update_local_cache (e : env) (pkgs : json) : M unit :=
  try_except
    (local_data <- json_load packages_file ;;
     old <- lift (dict_get local_data "packages" (JArr [])) ;;
     old <- lift (py_iter old) ;;
     local_packages <- lift (put_packages [] old) ;;
     new <- lift (py_iter pkgs) ;;
     local_packages <- lift (put_packages local_packages new) ;;
     local_data <- lift (setitem local_data "packages"
                           (JArr (assoc_values local_packages))) ;;
     local_data <- lift (setitem local_data "last_updated" (JInt (now e))) ;;
     local_data <- lift (setitem local_data "client_version" (JStr __version__)) ;;
     json_dump_utf8 packages_file local_data)
    (fun _ => ret tt).

Definition search_data (query : string) : list (string * json) :=
  [("type_request", JStr "search");
   ("query", JStr query);
   ("filters", JObj [("type", JArr [JStr "library"; JStr "tool"]);
                     ("status", JArr [JStr "stable"; JStr "beta"])])].

(** [response.get("error", "Неизвестная ошибка") if response else
    "Нет соединения"]: the message of the warning. *)
Definition error_msg (response : json) : result json :=
  if truthy response
  then dict_get response "error" (JStr "Неизвестная ошибка")
  else Ok (JStr "Нет соединения").

Definition search_remote (e : env) (self : ASMPClient) (query : string) : M json :=
  response <- make_request e self "/api/packages/search" (search_data query) ;;
  ok <- lift (succeeded response) ;;
  if ok then
    pkgs <- lift (dict_get response "packages" (JArr [])) ;;
    _ <- update_local_cache e pkgs ;;
    ret pkgs
  else
    message <- lift (error_msg response) ;;
    _ <- lift (print [message]) ;;
    found <- search_local query ;;
    ret (JArr found).

Definition info_data (package_name : string) (version : json)
  : list (string * json) :=
  [("type_request", JStr "package_info");
   ("package_name", JStr package_name);
   ("version", version)].

Definition get_package_info_remote (e : env) (self : ASMPClient)
    (package_name : string) (version : json) : M json :=
  response <- make_request e self "/api/packages/info"
                (info_data package_name version) ;;
  ok <- lift (succeeded response) ;;
  if ok then lift (dict_get response "package" JNull) else ret JNull.

Definition get_installed_packages : M json :=
  try_except (json_load installed_file)
    (fun ex =>
       match ex with
       | FileNotFoundError => ret (JArr [])
       | _ => raise ex
       end).

(** The test [p["name"] != package_info["name"]] of the comprehension in
    [save_installed_package]. *)
Definition other_name (package_info p : json) : result bool :=
  a <~ subscript p "name" ;;
  b <~ subscript package_info "name" ;;
  Ok (negb (py_eq a b)).

(** The three assignments that stamp [package_info]. *)
Definition stamp (e : env) (package_info : json) : result json :=
  package_info <~ setitem package_info "installed_at" (JInt (now e)) ;;
  package_info <~ setitem package_info "installed_by" (JStr "asmp") ;;
  setitem package_info "client_version" (JStr __version__).

(** [save_installed_package] assigns to [package_info] in place; the value
    is the record as the caller sees it afterwards. *)
Definition save_installed_package (e : env) (package_info : json) : M json :=
  installed <- get_installed_packages ;;
  installed <- lift (py_iter installed) ;;
  installed <- lift (filter_r (other_name package_info) installed) ;;
  package_info <- lift (stamp e package_info) ;;
  _ <- json_dump_utf8 installed_file (JArr (installed ++ [package_info])) ;;
  ret package_info.

(** The body of the [try] of [download_and_install].  The download is
    simulated by the source ([print] and [time.sleep]); what remains is
    the message for each dependency, the write of the ledger, and the two
    closing messages. *)
Definition download_steps (e : env) (package_info : json) : M bool :=
  dependencies <- lift (dict_get package_info "dependencies" (JArr [])) ;;
  _ <- lift (if truthy dependencies
             then dependencies <~ py_iter dependencies ;;
                  for_each (fun dep => print [dep]) dependencies
             else Ok tt) ;;
  package_info <- save_installed_package e package_info ;;
  name <- lift (subscript package_info "name") ;;
  version <- lift (subscript package_info "version") ;;
  _ <- lift (print [name; version]) ;;
  name <- lift (subscript package_info "name") ;;
  _ <- lift (print [name]) ;;
  ret true.

Definition download_and_install (e : env) (package_info download_url
    install_script : json) : M bool :=
  try_except (download_steps e package_info) (fun _ => ret false).

(** [version or package_info["version"]] *)
Definition resolved_version (version package_info : json) : result json :=
  if truthy version then Ok version else subscript package_info "version".

(** What [install_package_remote] does between the package information
    and the download request: the messages that announce the package,
    then the version to ask for. *)
Definition announced_version (version package_info : json) : result json :=
  name <~ subscript package_info "name" ;;
  found <~ subscript package_info "version" ;;
  _ <~ print [name; found] ;;
  description <~ dict_get package_info "description" (JStr "Нет описания") ;;
  _ <~ print [description] ;;
  author <~ dict_get package_info "author" (JStr "Unknown") ;;
  _ <~ print [author] ;;
  dependencies <~ dict_get package_info "dependencies" (JArr []) ;;
  _ <~ (if truthy dependencies
        then joined <~ str_join ", " dependencies ;; print [JStr joined]
        else Ok tt) ;;
  resolved_version version package_info.

Definition download_data (package_name : string) (v : json)
  : list (string * json) :=
  [("type_request", JStr "download");
   ("package_name", JStr package_name);
   ("version", v)].

Definition install_package_remote (e : env) (self : ASMPClient)
    (package_name : string) (version : json) : M bool :=
  package_info <- get_package_info_remote e self package_name version ;;
  if negb (truthy package_info) then ret false
  else
    v <- lift (announced_version version package_info) ;;
    response <- make_request e self "/api/packages/download"
                  (download_data package_name v) ;;
    ok <- lift (succeeded response) ;;
    if ok then
      download_url <- lift (dict_get response "download_url" JNull) ;;
      install_script <- lift (dict_get response "install_script" JNull) ;;
      download_and_install e package_info download_url install_script
    else ret false.

(** [update_server_url]: the value is the client with its new [base_url]. *)
Definition update_server_url (new_url : string) : M ASMPClient :=
  _ <- json_dump config_file (default_config (JStr new_url)) ;;
  ret {| base_url := JStr new_url |}.

(** [server_status]: the value tells whether the server was reported
    available. *)
Definition server_status (e : env) (self : ASMPClient) : M bool :=
  response <- make_request e self "/api/status" [("type_request", JStr "ping")] ;;
  ok <- lift (succeeded response) ;;
  if ok then
    server_info <- lift (dict_get response "server" (JObj [])) ;;
    name <- lift (dict_get server_info "name" (JStr "Unknown")) ;;
    _ <- lift (print [name]) ;;
    api_version <- lift (dict_get server_info "api_version" (JStr "Unknown")) ;;
    _ <- lift (print [api_version]) ;;
    packages_count <- lift (dict_get server_info "packages_count" (JInt 0)) ;;
    _ <- lift (print [packages_count]) ;;
    uptime <- lift (dict_get server_info "uptime" (JStr "Unknown")) ;;
    _ <- lift (print [uptime]) ;;
    ret true
  else ret false.

(** ** The [uninstall] branch of [main] *)

(** [next((p for p in installed if p["name"] == name), None)]: the
    generator is read only up to its first match. *)
Fixpoint first_named (name : string) (l : list json) : result json :=
  match l with
  | [] => Ok JNull
  | p :: l' =>
      n <~ subscript p "name" ;;
      if py_eq n (JStr name) then Ok p else first_named name l'
  end.

(** The test [p["name"] != args.package_name]. *)
Definition not_named (name : string) (p : json) : result bool :=
  n <~ subscript p "name" ;;
  Ok (negb (py_eq n (JStr name))).

(** The branch prints one of two messages and returns nothing; the value
    here is [true] where it rewrites the ledger and reports the removal,
    [false] where it reports that the package is not installed. *)
Definition uninstall (package_name : string) : M bool :=
  installed <- get_installed_packages ;;
  items <- lift (py_iter installed) ;;
  package <- lift (first_named package_name items) ;;
  if negb (truthy package) then ret false
  else
    installed <- lift (filter_r (not_named package_name) items) ;;
    _ <- json_dump installed_file (JArr installed) ;;
    ret true.

(** ** The [search] command of [main]

    [asmp = ASMPClient()] then [asmp.search_remote(args.query)]; the
    printing of the result is left out. *)
Definition main_search (e : env) (query : string) : M json :=
  asmp <- __init__ e JNull ;;
  search_remote e asmp query.

(** ** [show_config], [print_package_list] and [main]

    Of the functions that only print, the model keeps what they read and
    what their messages evaluate, since that is where they can raise. *)

Definition show_config : M unit :=
  config <- json_load config_file ;;
  _ <- lift (dict_get config "server_url" (JStr "Не указан")) ;;
  _ <- lift (dict_get config "auto_update" (JBool true)) ;;
  _ <- lift (dict_get config "timeout" (JInt 30)) ;;
  ret tt.

(** [len(v)] *)
Definition py_len (v : json) : result Z :=
  match v with
  | JArr l => Ok (Z.of_nat (List.length l))
  | JStr s => Ok (Z.of_nat (List.length (chars s)))
  | JObj o => Ok (Z.of_nat (List.length o))
  | _ => Raise TypeError
  end.

(** The body of the loop of [print_package_list]. *)
Definition print_package (pkg : json) : result unit :=
  name <~ subscript pkg "name" ;;
  version <~ dict_get pkg "version" (JStr "N/A") ;;
  _ <~ print [name; version] ;;
  description <~ dict_get pkg "description" (JStr "Нет описания") ;;
  _ <~ print [description] ;;
  tags <~ dict_get pkg "tags" (JArr []) ;;
  _ <~ (if truthy tags
        then joined <~ str_join ", " tags ;; print [JStr joined]
        else Ok tt) ;;
  type <~ dict_get pkg "type" (JStr "library") ;;
  author <~ dict_get pkg "author" (JStr "Unknown") ;;
  print [type; author].

Definition print_package_list (pkgs : json) : result unit :=
  if negb (truthy pkgs) then Ok tt
  else
    _ <~ py_len pkgs ;;
    pkgs <~ py_iter pkgs ;;
    for_each print_package pkgs.

(** The messages of the [info] branch of [main]. *)
Definition print_package_info (package_info : json) : result unit :=
  name <~ subscript package_info "name" ;;
  _ <~ print [name] ;;
  version <~ dict_get package_info "version" (JStr "N/A") ;;
  _ <~ print [version] ;;
  description <~ dict_get package_info "description" (JStr "Нет описания") ;;
  _ <~ print [description] ;;
  type <~ dict_get package_info "type" (JStr "library") ;;
  _ <~ print [type] ;;
  license <~ dict_get package_info "license" (JStr "Unknown") ;;
  _ <~ print [license] ;;
  author <~ dict_get package_info "author" (JStr "Unknown") ;;
  _ <~ print [author] ;;
  dependencies <~ dict_get package_info "dependencies" (JArr []) ;;
  _ <~ (if truthy dependencies
        then joined <~ str_join ", " dependencies ;; print [JStr joined]
        else Ok tt) ;;
  tags <~ dict_get package_info "tags" (JArr []) ;;
  _ <~ (if truthy tags
        then joined <~ str_join ", " tags ;; print [JStr joined]
        else Ok tt) ;;
  Ok tt.

(** The subcommands of the parser, with their arguments. *)
Inductive command : Type :=
| CmdInstall (package_name : string) (version : json)
| CmdUninstall (package_name : string)
| CmdSearch (query : string)
| CmdList
| CmdInfo (package_name : string)
| CmdServerStatus
| CmdConfig
| CmdSetServer (url : string)
| CmdVersion.

(** [main]: with no argument at all it prints the banner and the help
    and returns; otherwise it builds the client, then runs the branch of
    the subcommand. *)
Definition main (e : env) (args : option command) : M unit :=
  match args with
  | None => ret tt
  | Some cmd =>
      asmp <- __init__ e JNull ;;
      match cmd with
      | CmdInstall package_name version =>
          _ <- install_package_remote e asmp package_name version ;;
          ret tt
      | CmdUninstall package_name =>
          _ <- uninstall package_name ;;
          ret tt
      | CmdSearch query =>
          pkgs <- search_remote e asmp query ;;
          lift (print_package_list pkgs)
      | CmdList =>
          pkgs <- get_installed_packages ;;
          lift (print_package_list pkgs)
      | CmdInfo package_name =>
          package_info <- get_package_info_remote e asmp package_name JNull ;;
          if truthy package_info then lift (print_package_info package_info)
          else ret tt
      | CmdServerStatus =>
          _ <- server_status e asmp ;;
          ret tt
      | CmdConfig => show_config
      | CmdSetServer url =>
          _ <- update_server_url url ;;
          ret tt
      | CmdVersion => ret tt
      end
  end.

(** * Observations and predicates *)

(** ** The records of the cache *)

(** The list under [packages] in the cache file. *)
Definition cache_records (w : world) : option (list json) :=
  match packages w with
  | Holds (JObj o) =>
      match field "packages" o with
      | Some (JArr l) => Some l
      | _ => None
      end
  | _ => None
  end.

(** ** Characters of a string *)

(** A character as [chars] cuts it: a byte, then continuation bytes. *)
Fixpoint all_trailing (s : string) : bool :=
  match s with
  | EmptyString => true
  | String c s' => continuation c && all_trailing s'
  end.

Definition group (g : string) : bool :=
  match g with
  | EmptyString => false
  | String _ t => all_trailing t
  end.

(** A character that [lower] leaves as it is, wherever it stands. *)
Definition stable (g : string) : bool :=
  group g && negb (ord g =? 0x3A3)%N && String.eqb (lower_char g) g.

(** What [lower] puts out in place of a character: stable characters
    that start on a byte of their own. *)
Definition settled (g : string) : bool := stable g && negb (trailing g).

(** The concatenation of the characters. *)
Definition glue (l : list string) : string := fold_right append EmptyString l.

Definition run_targets (r : N * N * N * N) : list N :=
  let '(lo, hi, step, to) := r in
  map (fun k => (to + N.of_nat k * step)%N)
      (seq 0 (S (N.to_nat ((hi - lo) / step)))).

(** The characters that [lower] puts out for one character of its input. *)
Definition lowered (before : list N) (g : string) (after : list string)
  : list string :=
  if (ord g =? 0x3A3)%N
  then [chr (if final_sigma before (map ord after) then 0x3C2 else 0x3C3)]
  else if (ord g =? 0x130)%N then [chr 0x69; chr 0x307]
  else match simple_lower (ord g) with
       | Some m => [chr m]
       | None => [g]
       end.

Fixpoint lower_groups (before : list N) (l : list string) : list string :=
  match l with
  | [] => []
  | g :: l' => lowered before g l' ++ lower_groups (ord g :: before) l'
  end.

(** ** Files that hold encodable text *)

(** What a file holds is text that UTF-8 encodes, as in every file that
    the program has written itself. *)
Definition encoded (f : file) : bool :=
  match f with
  | Holds j => encodable j
  | _ => true
  end.

(** The fields of an object, each with the verdict on its key and value. *)
Definition verdicts (o : list (string * json)) : list (string * bool) :=
  map (fun kv => (fst kv, utf8 (fst kv) && encodable (snd kv))) o.

(** ** Package records and the search criterion *)

(** A package record as the data model has it: an object whose [name] is
    a string, whose [description], when present, is a string, and whose
    [tags], when present, are a list of strings. *)
Definition name_of (p : json) : option string :=
  match p with
  | JObj o =>
      match field "name" o with
      | Some (JStr n) => Some n
      | _ => None
      end
  | _ => None
  end.

Definition description_of (p : json) : option string :=
  match p with
  | JObj o =>
      match field "description" o with
      | None => Some ""
      | Some (JStr d) => Some d
      | Some _ => None
      end
  | _ => None
  end.

Definition tags_of (p : json) : option (list string) :=
  match p with
  | JObj o =>
      match field "tags" o with
      | None => Some []
      | Some (JArr l) =>
          match all_str l with
          | Ok ts => Some ts
          | Raise _ => None
          end
      | Some _ => None
      end
  | _ => None
  end.

Definition well_formed (p : json) : bool :=
  match name_of p, description_of p, tags_of p with
  | Some _, Some _, Some _ => true
  | _, _, _ => false
  end.

(** The criterion in the words of the specification: the lowercased query
    is a substring of the lowercased name, or of the lowercased
    description, or of the lowercased space-joined tag list. *)
Definition hit (query name description : string) (tags : list string) : bool :=
  str_in (lower query) (lower name)
  || str_in (lower query) (lower description)
  || str_in (lower query) (lower (String.concat " " tags)).

Definition record_hit (query : string) (p : json) : bool :=
  match name_of p, description_of p, tags_of p with
  | Some n, Some d, Some ts => hit query n d ts
  | _, _, _ => false
  end.

(** ** Answers of the server *)

(** The failures of a remote call: the transport raises (no connection,
    timeout, any other request error), the body is not JSON, the body is
    an object whose [success] is absent or false, or the body is an empty
    value ([null], [0], an empty string, list or object). *)
Definition remote_failed (answer : result json) : bool :=
  match answer with
  | Raise ConnectionError => true
  | Raise Timeout => true
  | Raise RequestException => true
  | Raise JSONDecodeError => true
  | Raise _ => false
  | Ok (JObj o) =>
      match field "success" o with
      | Some s => negb (truthy s)
      | None => true
      end
  | Ok v => negb (truthy v)
  end.


(** The environment when the clock reads [t].  One call may read the
    clock several times, seconds apart (an install: for each of its two
    requests, and for the stamp of the ledger entry, after the simulated
    download); a property of such a call names each reading apart. *)
Definition clock_at (e : env) (t : Z) : env := {| now := t; net := net e |}.

(** The answer of the server to the request that [make_request] posts
    for an endpoint, when the URL can be built. *)
Definition answer (e : env) (self : ASMPClient) (endpoint : string)
    (data : list (string * json)) : result json :=
  u <~ urljoin (base_url self) endpoint ;;
  net e (request_of e u data).

(** An answer that is text that UTF-8 encodes, or no answer at all. *)
Definition well_encoded (answer : result json) : bool :=
  match answer with
  | Ok v => encodable v
  | Raise _ => true
  end.

(** What [make_request] makes of the answer of the server. *)
Definition received (answer : result json) : result json :=
  match answer with
  | Ok j => Ok j
  | Raise ConnectionError => Ok JNull
  | Raise Timeout => Ok JNull
  | Raise RequestException => Ok JNull
  | Raise JSONDecodeError => Ok JNull
  | Raise ex => Raise ex
  end.

(** ** Names of records and the merged cache *)

(** The dictionary key of a record: [hash(pkg["name"])]. *)
Definition name_key (p : json) : result key :=
  n <~ subscript p "name" ;; hash_key n.

Definition has_name (p : json) : bool :=
  match name_key p with
  | Ok _ => true
  | Raise _ => false
  end.

Definition named (k : key) (p : json) : bool :=
  match name_key p with
  | Ok k' => key_eqb k k'
  | Raise _ => false
  end.

(** The last record of [l] whose name is [k]. *)
Fixpoint last_named (k : key) (l : list json) : option json :=
  match l with
  | [] => None
  | p :: l' =>
      match last_named k l' with
      | Some q => Some q
      | None => if named k p then Some p else None
      end
  end.

(** Every value of the dictionary stands under its own name. *)
Definition keyed (d : pydict) : Prop :=
  forall k v, In (k, v) d -> name_key v = Ok k.

(** The key of a record that has one. *)
Definition key_of (p : json) : key :=
  match name_key p with
  | Ok k => k
  | Raise _ => KNone
  end.

(** The keys of [l] that are not among [seen], each once, in the order
    in which they first occur: what a dictionary that has the keys [seen]
    appends when the keys of [l] are assigned to in turn. *)
Fixpoint new_names (seen l : list key) : list key :=
  match l with
  | [] => []
  | k :: l' =>
      if existsb (key_eqb k) seen then new_names seen l'
      else k :: new_names (seen ++ [k]) l'
  end.

(** The body of the [try] of [update_local_cache], up to the write. *)
Definition merged (e : env) (local_data pkgs : json) : result json :=
  old <~ dict_get local_data "packages" (JArr []) ;;
  old <~ py_iter old ;;
  local_packages <~ put_packages [] old ;;
  new <~ py_iter pkgs ;;
  local_packages <~ put_packages local_packages new ;;
  local_data <~ setitem local_data "packages"
                  (JArr (assoc_values local_packages)) ;;
  local_data <~ setitem local_data "last_updated" (JInt (now e)) ;;
  setitem local_data "client_version" (JStr __version__).

(** The object that a successful merge writes. *)
Definition restamped (e : env) (o : list (string * json)) (d : pydict)
  : list (string * json) :=
  assoc_set String.eqb "client_version" (JStr __version__)
    (assoc_set String.eqb "last_updated" (JInt (now e))
       (assoc_set String.eqb "packages" (JArr (assoc_values d)) o)).

(** A field of the object that the cache file holds. *)
Definition cache_field (k : string) (w : world) : option json :=
  match packages w with
  | Holds (JObj o) => field k o
  | _ => None
  end.

(** ** Entries of the ledger *)

(** The entries of the ledger as [save_installed_package] and the
    [uninstall] branch read them: none when the file is absent. *)
Definition installed_entries (w : world) : option (list json) :=
  match installed w with
  | Missing => Some []
  | Holds (JArr l) => Some l
  | _ => None
  end.

Definition has_name_field (p : json) : bool :=
  match subscript p "name" with
  | Ok _ => true
  | Raise _ => false
  end.

(** [p["name"] == name] for a ledger entry [p]. *)
Definition is_named (name : string) (p : json) : bool :=
  match subscript p "name" with
  | Ok n => py_eq n (JStr name)
  | Raise _ => false
  end.

Definition stamped (e : env) (o : list (string * json)) : list (string * json) :=
  assoc_set String.eqb "client_version" (JStr __version__)
    (assoc_set String.eqb "installed_by" (JStr "asmp")
       (assoc_set String.eqb "installed_at" (JInt (now e)) o)).

(** ** Commands and the ledger *)

(** The ledger file as a command may change it: its content and the
    record of its writes. *)
Definition same_ledger (w w' : world) : Prop :=
  installed w' = installed w /\ writes w' = writes w.

(** A command that never touches the ledger. *)
Definition quiet {A} (m : M A) : Prop :=
  forall w, same_ledger w (snd (m w)).

(** ** Requests and the configured timeout *)

(** The [timeout] of the configuration file. *)
Definition configured_timeout (w : world) : option json :=
  match config w with
  | Holds (JObj o) => field "timeout" o
  | _ => None
  end.

(** Every request the command posts carries a timeout of 30 seconds. *)
Definition timed {A} (m : M A) : Prop :=
  forall w, exists rs,
    posted (snd (m w)) = posted w ++ rs /\
    Forall (fun r => req_timeout r = 30) rs.

(** ** What a command leaves alone *)

(** What one command may do to the state, as a relation between the
    state before and the state after; [keeps R m] says that [m] stays
    within [R] whether it returns or raises. *)
Definition keeps (R : world -> world -> Prop) {A} (m : M A) : Prop :=
  forall w, R w (snd (m w)).

(** The file [p] holds what it held. *)
Definition same_file (p : path) (w w' : world) : Prop :=
  read_file p w' = read_file p w.

(** The file [p], if it existed, holds what it held. *)
Definition kept (p : path) (w w' : world) : Prop :=
  read_file p w <> Missing -> read_file p w' = read_file p w.

(** No request was posted. *)
Definition no_post (w w' : world) : Prop :=
  posted w' = posted w.

(** At most [n] requests were posted. *)
Definition posts (n : nat) {A} (m : M A) : Prop :=
  forall w, exists rs,
    posted (snd (m w)) = posted w ++ rs /\ (List.length rs <= n)%nat.

(** The name of a ledger entry, when it is a string. *)
Definition entry_name (p : json) : option string :=
  match subscript p "name" with
  | Ok (JStr n) => Some n
  | _ => None
  end.

Definition has_entry_name (p : json) : bool :=
  match entry_name p with
  | Some _ => true
  | None => false
  end.

(** The fields that every request carries. *)
Definition envelope (e : env) : list (string * json) :=
  [("app_name", JStr "ADK - ArtStudia Developer Kit");
   ("api_version", JStr "0.1.0");
   ("client_version", JStr __version__);
   ("timestamp", JInt (now e))].

(** The one file a subcommand may rewrite. *)
Definition writes_to (cmd : command) : option path :=
  match cmd with
  | CmdSearch _ => Some packages_file
  | CmdInstall _ _ => Some installed_file
  | CmdUninstall _ => Some installed_file
  | CmdSetServer _ => Some config_file
  | _ => None
  end.

(** The number of requests a subcommand may post. *)
Definition max_requests (cmd : command) : nat :=
  match cmd with
  | CmdInstall _ _ => 2
  | CmdSearch _ => 1
  | CmdInfo _ => 1
  | CmdServerStatus => 1
  | _ => 0
  end.

(** The state after [init_config] has created the cache and the ledger
    where they were missing. *)
Definition seeded (e : env) (w : world) : world :=
  let w1 := match packages w with
            | Missing => write_file packages_file (default_packages e) w
            | _ => w
            end in
  match installed w1 with
  | Missing => write_file installed_file (JArr []) w1
  | _ => w1
  end.

(** What reading an existing configuration file raises: the decode
    error of [json.load], or the error of [.get] on a value that is not
    an object. *)
Definition config_error (f : file) : option exn :=
  match f with
  | Garbled => Some JSONDecodeError
  | Holds (JObj _) => None
  | Holds _ => Some AttributeError
  | Missing => None
  end.

(** A JSON answer that is neither an object nor empty. *)
Definition not_an_object (v : json) : bool :=
  match v with
  | JObj _ => false
  | _ => truthy v
  end.

(** No file has disappeared. *)
Definition grows (w w' : world) : Prop :=
  forall p, read_file p w <> Missing -> read_file p w' <> Missing.

(** * Example states and servers *)

(** The example of the specification: a cached record named [artutils]
    with the tag [helpers] is found by [UTIL] and by [help]. *)
Definition example_cache : world :=
  {| config := Missing;
     packages := Holds (JObj [("packages",
                   JArr [JObj [("name", JStr "artutils");
                               ("tags", JArr [JStr "helpers"])];
                         JObj [("name", JStr "other")]])]);
     installed := Missing; writes := []; posted := [] |}.

(** No server can be reached. *)
Definition offline : env :=
  {| now := 1700000000; net := fun _ => Raise ConnectionError |}.

Definition default_client : ASMPClient :=
  {| base_url := JStr "https://api.artstudia.com" |}.

(** The example of the specification: the cache holds [x] at version
    [1.0.0]; merging [x] at version [2.0.0] leaves exactly one [x], at
    version [2.0.0]. *)
Definition x_1 : json := JObj [("name", JStr "x"); ("version", JStr "1.0.0")].
Definition x_2 : json := JObj [("name", JStr "x"); ("version", JStr "2.0.0")].
Definition y_1 : json := JObj [("name", JStr "y"); ("version", JStr "0.3.0")].

Definition cache_x : world :=
  {| config := Missing;
     packages := Holds (JObj [("packages", JArr [x_1; y_1]);
                              ("last_updated", JInt 1600000000);
                              ("client_version", JStr "0.0.9")]);
     installed := Missing; writes := []; posted := [] |}.

(** No server either, with the clock at [t]. *)
Definition at_time (t : Z) : env :=
  {| now := t; net := fun _ => Raise ConnectionError |}.

Definition foo_1 : list (string * json) :=
  [("name", JStr "foo"); ("version", JStr "1.0")].
Definition foo_2 : list (string * json) :=
  [("name", JStr "foo"); ("version", JStr "2.0")].

Definition fresh_world : world :=
  {| config := Missing; packages := Missing; installed := Missing;
     writes := []; posted := [] |}.

Definition ledger_foo : world :=
  {| config := Missing; packages := Missing;
     installed := Holds (JArr [JObj (stamped (at_time 1700000000) foo_1)]);
     writes := []; posted := [] |}.

(** A server that knows [foo] and answers the download request with
    [download]. *)
Definition serving (download : result json) : env :=
  {| now := 1700000000;
     net := fun r =>
       if String.eqb (url_path (req_url r)) "/api/packages/info"
       then Ok (JObj [("success", JBool true); ("package", JObj foo_2)])
       else download |}.

Definition no_download : env := serving (Raise Timeout).

Definition with_download : env :=
  serving (Ok (JObj [("success", JBool true);
                     ("download_url", JStr "https://api.artstudia.com/foo.zip")])).

Definition broken_ledger : world :=
  {| config := Missing; packages := Missing; installed := Garbled;
     writes := []; posted := [] |}.

(** A configuration file edited to a timeout of 60 seconds. *)
Definition patient_config : world :=
  {| config := Holds (JObj [("server_url", JStr "https://api.artstudia.com");
                            ("auto_update", JBool true);
                            ("timeout", JInt 60);
                            ("client_version", JStr "0.1.0")]);
     packages := Missing; installed := Missing; writes := []; posted := [] |}.

(** A cache with one record that has no name. *)
Definition cache_with_nameless : world :=
  {| config := Missing;
     packages := Holds (JObj [("packages",
                   JArr [artutils; JObj [("version", JStr "1.0")]])]);
     installed := Missing; writes := []; posted := [] |}.

(** A server that answers every search with [x] at [2.0.0]. *)
Definition search_server : env :=
  {| now := 1700000000;
     net := fun _ => Ok (JObj [("success", JBool true);
                               ("packages", JArr [x_2])]) |}.

(** A server that answers with a list instead of an object. *)
Definition odd_server : env :=
  {| now := 1700000000; net := fun _ => Ok (JArr [JInt 1]) |}.

(** A string that holds U+D800 alone, as [json.load] reads it from the
    escape [\ud800], and a record of the server that carries it. *)
Definition lone_surrogate : string := chr 0xD800.

Definition x_odd : json :=
  JObj [("name", JStr "x"); ("version", JStr "2.0.0");
        ("description", JStr lone_surrogate)].

(** A server that refuses every request with an error message that
    holds the surrogate. *)
Definition rude_server : env :=
  {| now := 1700000000;
     net := fun _ => Ok (JObj [("success", JBool false);
                               ("error", JStr lone_surrogate)]) |}.

(** A package whose license holds the surrogate, and a server that knows
    it and grants its download. *)
Definition foo_odd : list (string * json) :=
  [("name", JStr "foo"); ("version", JStr "2.0");
   ("license", JStr lone_surrogate)].

Definition odd_download : env :=
  {| now := 1700000000;
     net := fun r =>
       if String.eqb (url_path (req_url r)) "/api/packages/info"
       then Ok (JObj [("success", JBool true); ("package", JObj foo_odd)])
       else Ok (JObj [("success", JBool true)]) |}.

(** A ledger with an entry whose description holds the surrogate. *)
Definition ledger_odd : world :=
  {| config := Missing; packages := Missing;
     installed := Holds (JArr [x_odd]); writes := []; posted := [] |}.

(** A cache with a record in Russian and one in Greek. *)
Definition cache_abroad : world :=
  {| config := Missing;
     packages := Holds (JObj [("packages",
                   JArr [JObj [("name", JStr "Привет Мир")];
                         JObj [("name", JStr "ΟΔΥΣΣΕΥΣ")]])]);
     installed := Missing; writes := []; posted := [] |}.

(** A configuration file that is not JSON. *)
Definition broken_config : world :=
  {| config := Garbled; packages := Missing; installed := Missing;
     writes := []; posted := [] |}.

(** * Properties *)

(** Unfolds the plumbing of a command down to the matches on the files. *)
Ltac run :=
  unfold bind, lift, ret, raise, try_except, json_load, json_dump,
    file_exists, read_file in *; simpl in *.

(** ** Characters *)

(** [lower] of a lowered string is that string. *)

Lemma chars_head (s : string) :
  match chars s with
  | [] => s = EmptyString
  | g :: _ => trailing g = trailing s
  end.
Proof.
  destruct s as [|c s]; simpl; [reflexivity|].
  destruct (chars s) as [|g l]; [reflexivity|].
  destruct (trailing g); reflexivity.
Qed.

Lemma chars_cons (c : ascii) (s : string) :
  trailing s = false -> chars (String c s) = String c EmptyString :: chars s.
Proof.
  intros H. simpl. pose proof (chars_head s) as Hh.
  destruct (chars s) as [|g l]; [reflexivity|].
  now rewrite Hh, H.
Qed.

Lemma chars_group (g b : string) :
  group g = true -> trailing b = false -> chars (g ++ b) = g :: chars b.
Proof.
  destruct g as [|c t]; [discriminate|]. simpl group.
  revert c. induction t as [|d t IH]; intros c Ht Hb.
  - now apply chars_cons.
  - simpl in Ht. apply andb_prop in Ht as [Hd Ht].
    change (String c (String d t) ++ b)%string
      with (String c (String d t ++ b)).
    change (chars (String c (String d t ++ b)))
      with (match chars (String d t ++ b) with
            | g :: l => if trailing g then String c g :: l
                        else String c EmptyString :: g :: l
            | [] => [String c EmptyString]
            end).
    rewrite (IH d Ht Hb). simpl trailing. now rewrite Hd.
Qed.

Lemma lower_targets_settled :
  forallb (fun m => settled (chr m)) (flat_map run_targets lower_runs) = true.
Proof. vm_compute. reflexivity. Qed.

Lemma lower_runs_steps :
  forallb (fun r => let '(_, _, step, _) := r in negb (step =? 0)%N)
    lower_runs = true.
Proof. vm_compute. reflexivity. Qed.

Lemma simple_lower_settled (n m : N) :
  simple_lower n = Some m -> settled (chr m) = true.
Proof.
  unfold simple_lower.
  destruct (find (in_run n) lower_runs) as [[[[lo hi] step] to]|] eqn:Hf;
    [|discriminate].
  intros [= <-]. apply find_some in Hf as [Hin Hrun].
  pose proof lower_targets_settled as Hall.
  rewrite forallb_forall in Hall. apply Hall.
  apply in_flat_map. exists (lo, hi, step, to). split; [exact Hin|].
  pose proof lower_runs_steps as Hs. rewrite forallb_forall in Hs.
  specialize (Hs _ Hin). simpl in Hs.
  apply negb_true_iff, N.eqb_neq in Hs.
  unfold in_run in Hrun.
  apply andb_prop in Hrun as [Hrun Hmod]. apply andb_prop in Hrun as [Hlo Hhi].
  apply N.leb_le in Hlo, Hhi. apply N.eqb_eq in Hmod.
  unfold run_targets. apply in_map_iff.
  exists (N.to_nat ((n - lo) / step)). split.
  - rewrite N2Nat.id. f_equal.
    pose proof (N.div_mod (n - lo) step Hs) as Hd. rewrite Hmod in Hd.
    rewrite N.add_0_r, N.mul_comm in Hd. now symmetry.
  - assert (Hle : ((n - lo) / step <= (hi - lo) / step)%N)
      by (apply N.Div0.div_le_mono; lia).
    revert Hle. generalize ((n - lo) / step)%N, ((hi - lo) / step)%N.
    intros a b Hab. apply in_seq. lia.
Qed.

Lemma append_empty (s : string) : (s ++ EmptyString)%string = s.
Proof. induction s as [|c s IH]; simpl; [reflexivity|]. now rewrite IH. Qed.

Lemma append_assoc (a b c : string) :
  ((a ++ b) ++ c)%string = (a ++ (b ++ c))%string.
Proof. induction a as [|x a IH]; simpl; [reflexivity|]. now rewrite IH. Qed.

Lemma glue_app (a b : list string) : glue (a ++ b) = (glue a ++ glue b)%string.
Proof.
  induction a as [|x a IH]; simpl; [reflexivity|].
  now rewrite IH, append_assoc.
Qed.

Lemma lower_chars_groups (before : list N) (l : list string) :
  lower_chars before l = glue (lower_groups before l).
Proof.
  revert before. induction l as [|g l IH]; intros before; [reflexivity|].
  cbn [lower_chars lower_groups]. rewrite IH, glue_app. f_equal.
  unfold lowered, lower_char.
  destruct (ord g =? 0x3A3)%N;
    [unfold glue; cbn [fold_right]; now rewrite append_empty|].
  destruct (ord g =? 0x130)%N;
    [unfold glue; cbn [fold_right]; now rewrite append_empty|].
  destruct (simple_lower (ord g));
    unfold glue; cbn [fold_right]; now rewrite append_empty.
Qed.

Lemma chars_cut (s : string) :
  forallb group (chars s) = true /\
  forallb (fun g => negb (trailing g)) (tl (chars s)) = true.
Proof.
  induction s as [|c s [IHg IHt]]; [now split|].
  simpl. destruct (chars s) as [|g l]; [now split|].
  simpl in IHg, IHt. apply andb_prop in IHg as [Hg Hl].
  destruct (trailing g) eqn:Ht; simpl.
  - split; [|exact IHt]. rewrite Hl, andb_true_r.
    destruct g as [|d t]; [discriminate|]. simpl in *. now rewrite Ht, Hg.
  - now rewrite Hg, Hl, Ht, IHt.
Qed.

Lemma sigma_settled :
  settled (chr 0x3C2) = true /\ settled (chr 0x3C3) = true /\
  settled (chr 0x69) = true /\ settled (chr 0x307) = true.
Proof. vm_compute. repeat split. Qed.

Lemma lowered_stable (before : list N) (g : string) (after : list string) :
  group g = true ->
  forallb settled (lowered before g after) = true \/
  (lowered before g after = [g] /\ stable g = true).
Proof.
  intros Hg. unfold lowered.
  destruct sigma_settled as (H2 & H3 & Hi & Hd).
  destruct (ord g =? 0x3A3)%N eqn:Hs.
  { left. cbn [forallb]. destruct (final_sigma _ _); now rewrite ?H2, ?H3. }
  destruct (ord g =? 0x130)%N eqn:Hi'.
  { left. cbn [forallb]. now rewrite Hi, Hd. }
  destruct (simple_lower (ord g)) as [m|] eqn:Hl.
  { left. cbn [forallb]. now rewrite (simple_lower_settled _ _ Hl). }
  right. split; [reflexivity|]. unfold stable, lower_char.
  rewrite Hg, Hs, Hi', Hl. cbn [negb andb]. apply String.eqb_refl.
Qed.

Lemma lowered_settled (before : list N) (g : string) (after : list string) :
  group g = true -> trailing g = false ->
  forallb settled (lowered before g after) = true.
Proof.
  intros Hg Ht. destruct (lowered_stable before g after Hg) as [H|[-> H]];
    [exact H|]. simpl. unfold settled. now rewrite H, Ht.
Qed.

Lemma lower_groups_settled (before : list N) (l : list string) :
  forallb group l = true ->
  forallb (fun g => negb (trailing g)) l = true ->
  forallb settled (lower_groups before l) = true.
Proof.
  revert before. induction l as [|g l IH]; intros before Hg Ht; [reflexivity|].
  simpl in *. apply andb_prop in Hg as [Hg Hgl]. apply andb_prop in Ht as [Ht Htl].
  rewrite forallb_app, IH by assumption.
  rewrite lowered_settled; [reflexivity|assumption|].
  now apply negb_true_iff.
Qed.

Lemma settled_group (g : string) : settled g = true -> group g = true.
Proof.
  unfold settled, stable. intros H.
  apply andb_prop in H as [H _]. apply andb_prop in H as [H _].
  now apply andb_prop in H as [H _].
Qed.

Lemma settled_stable (g : string) : settled g = true -> stable g = true.
Proof. unfold settled. intros H. now apply andb_prop in H as [H _]. Qed.

Lemma settled_headed (g : string) : settled g = true -> trailing g = false.
Proof.
  unfold settled. intros H. apply andb_prop in H as [_ H].
  now apply negb_true_iff.
Qed.

Lemma trailing_glue (l : list string) :
  forallb settled l = true -> trailing (glue l) = false.
Proof.
  destruct l as [|g l]; [reflexivity|]. simpl. intros H.
  apply andb_prop in H as [H _].
  pose proof (settled_group _ H) as Hg. pose proof (settled_headed _ H) as Ht.
  destruct g as [|c t]; [discriminate|]. exact Ht.
Qed.

Lemma chars_glue_settled (l : list string) :
  forallb settled l = true -> chars (glue l) = l.
Proof.
  induction l as [|g l IH]; [reflexivity|]. simpl. intros H.
  apply andb_prop in H as [Hg Hl].
  rewrite chars_group; [now rewrite IH| now apply settled_group|].
  now apply trailing_glue.
Qed.

Lemma lower_chars_stable (before : list N) (l : list string) :
  forallb stable l = true -> lower_chars before l = glue l.
Proof.
  revert before. induction l as [|g l IH]; intros before H; [reflexivity|].
  simpl in *. apply andb_prop in H as [Hg Hl]. rewrite IH by assumption.
  unfold stable in Hg. apply andb_prop in Hg as [Hg He].
  apply andb_prop in Hg as [_ Hs]. apply negb_true_iff in Hs. rewrite Hs.
  apply String.eqb_eq in He. now rewrite He.
Qed.

Lemma lower_idempotent (s : string) : lower (lower s) = lower s.
Proof.
  unfold lower. rewrite (lower_chars_groups [] (chars s)).
  destruct (chars_cut s) as [Hg Ht].
  destruct (chars s) as [|g l]; [reflexivity|].
  simpl in Hg, Ht. apply andb_prop in Hg as [Hg Hgl].
  simpl lower_groups.
  pose proof (lower_groups_settled [ord g] l Hgl Ht) as Hrest.
  destruct (lowered_stable [] g l Hg) as [H|[-> H]].
  - assert (Hall : forallb settled (lowered [] g l ++ lower_groups [ord g] l) = true)
      by now rewrite forallb_app, H, Hrest.
    rewrite chars_glue_settled by exact Hall.
    apply lower_chars_stable.
    rewrite forallb_forall in Hall. apply forallb_forall.
    intros x Hx. now apply settled_stable, Hall.
  - change ([g] ++ lower_groups [ord g] l) with (g :: lower_groups [ord g] l).
    change (glue (g :: lower_groups [ord g] l))
      with (g ++ glue (lower_groups [ord g] l))%string.
    assert (Hgg : group g = true).
    { unfold stable in H. apply andb_prop in H as [H _].
      now apply andb_prop in H as [H _]. }
    rewrite chars_group, chars_glue_settled;
      [|exact Hrest|exact Hgg|now apply trailing_glue].
    apply (lower_chars_stable [] (g :: lower_groups [ord g] l)).
    simpl. rewrite H. apply forallb_forall. intros x Hx.
    rewrite forallb_forall in Hrest. now apply settled_stable, Hrest.
Qed.


(** A string that UTF-8 encodes starts on a character of its own, and so
    do its characters, each of which UTF-8 encodes. *)
Lemma utf8_headed (s : string) : utf8 s = true -> trailing s = false.
Proof.
  unfold utf8. intros H. pose proof (chars_head s) as Hh.
  destruct (chars s) as [|g l]; [now subst|].
  simpl in H. apply andb_prop in H as [H _]. apply andb_prop in H as [H _].
  rewrite <- Hh. now apply negb_true_iff.
Qed.

Lemma chars_app (a b : string) :
  trailing b = false -> chars (a ++ b) = chars a ++ chars b.
Proof.
  intros Hb. induction a as [|c a IH]; [reflexivity|].
  change (chars (String c a ++ b))
    with (match chars (a ++ b) with
          | g :: l => if trailing g then String c g :: l
                      else String c EmptyString :: g :: l
          | [] => [String c EmptyString]
          end).
  rewrite IH.
  change (chars (String c a))
    with (match chars a with
          | g :: l => if trailing g then String c g :: l
                      else String c EmptyString :: g :: l
          | [] => [String c EmptyString]
          end).
  destruct (chars a) as [|g l].
  - simpl. pose proof (chars_head b) as Hh.
    destruct (chars b) as [|g' l']; [reflexivity|]. now rewrite Hh, Hb.
  - simpl. now destruct (trailing g).
Qed.

Lemma utf8_app (a b : string) :
  utf8 a = true -> utf8 b = true -> utf8 (a ++ b) = true.
Proof.
  intros Ha Hb. unfold utf8 in *.
  rewrite chars_app, forallb_app by now apply utf8_headed.
  now rewrite Ha, Hb.
Qed.

Lemma utf8_concat (sep : string) (l : list string) :
  utf8 sep = true -> forallb utf8 l = true -> utf8 (String.concat sep l) = true.
Proof.
  intros Hs. induction l as [|x l IH]; [reflexivity|].
  intros H. cbn [forallb] in H. apply andb_prop in H as [Hx Hl].
  destruct l as [|y l]; [exact Hx|].
  change (String.concat sep (x :: y :: l))
    with (x ++ sep ++ String.concat sep (y :: l))%string.
  repeat apply utf8_app; auto.
Qed.

Lemma chars_single (g : string) : group g = true -> chars g = [g].
Proof.
  intros H. rewrite <- (append_empty g) at 1.
  now rewrite chars_group.
Qed.

Lemma utf8_chars (s : string) :
  utf8 s = true -> forallb utf8 (chars s) = true.
Proof.
  unfold utf8 at 1. intros H. destruct (chars_cut s) as [Hg _].
  rewrite forallb_forall in H, Hg. apply forallb_forall. intros g Hin.
  unfold utf8. rewrite (chars_single g (Hg g Hin)). cbn [forallb].
  now rewrite (H g Hin).
Qed.

(** [lower] beyond ASCII: Cyrillic, the capital sigma at the end of a
    word and inside it, the dotted capital I. *)
Example lower_cyrillic : lower "ПРИВЕТ Мир" = "привет мир".
Proof. vm_compute. reflexivity. Qed.

Example lower_final_sigma : lower "ΟΔΥΣΣΕΥΣ" = "οδυσσευς".
Proof. vm_compute. reflexivity. Qed.

Example lower_dotted_I : lower "İ" = (chr 0x69 ++ chr 0x307)%string.
Proof. vm_compute. reflexivity. Qed.

Example surrogate_refused :
  utf8 lone_surrogate = false /\ utf8 "Привет, мир" = true.
Proof. vm_compute. split; reflexivity. Qed.

(** ** Reading the ledger and the cache *)

Lemma get_installed_packages_holds (w : world) (j : json) :
  installed w = Holds j -> get_installed_packages w = (Ok j, w).
Proof.
  intros H. unfold get_installed_packages. run. now rewrite H.
Qed.

Lemma get_installed_packages_missing (w : world) :
  installed w = Missing -> get_installed_packages w = (Ok (JArr []), w).
Proof.
  intros H. unfold get_installed_packages. run. now rewrite H.
Qed.

Lemma get_installed_packages_reads_only (w : world) :
  snd (get_installed_packages w) = w.
Proof.
  unfold get_installed_packages. run. now destruct (installed w).
Qed.



(** C10. The ledger read forgives a missing file only: with no ledger file
    [get_installed_packages] gives the empty list, with a ledger file that
    is not JSON the decode error reaches the caller.  The cache read of
    [search_local] forgives both, and gives the empty list. *)
Theorem ledger_read_tolerates_absence_only
    (c p i : file) (ws : list path) (ps : list request) (query : string) :
  let absent := {| config := c; packages := p; installed := Missing;
                   writes := ws; posted := ps |} in
  let broken := {| config := c; packages := p; installed := Garbled;
                   writes := ws; posted := ps |} in
  let no_cache := {| config := c; packages := Missing; installed := i;
                     writes := ws; posted := ps |} in
  let bad_cache := {| config := c; packages := Garbled; installed := i;
                      writes := ws; posted := ps |} in
  get_installed_packages absent = (Ok (JArr []), absent) /\
  get_installed_packages broken = (Raise JSONDecodeError, broken) /\
  search_local query no_cache = (Ok [], no_cache) /\
  search_local query bad_cache = (Ok [], bad_cache).
Proof.
  repeat split; reflexivity.
Qed.

(** ** First run *)

Lemma init_config_first_run (e : env) (self : ASMPClient) (w : world) :
  config w = Missing -> packages w = Missing -> installed w = Missing ->
  init_config e self w =
    (Ok self,
     {| config := Holds (default_config (base_url self));
        packages := Holds (default_packages e);
        installed := Holds (JArr []);
        writes := writes w ++ [config_file] ++ [packages_file] ++ [installed_file];
        posted := posted w |}).
Proof.
  intros Hc Hp Hi. unfold init_config. run.
  rewrite Hc. simpl. rewrite Hp. simpl. rewrite Hi. simpl.
  now rewrite <- !app_assoc.
Qed.

(** C9. On a first run (no cache file, no ledger file, and a configuration
    file that is absent or holds a JSON object) [init_config] succeeds and
    leaves a cache of exactly the two built-in records, the tool
    [launcher_updater] and the library [artutils], and an empty ledger. *)
Theorem first_run_bootstrap (e : env) (self : ASMPClient) (w : world) :
  config w = Missing \/ (exists o, config w = Holds (JObj o)) ->
  packages w = Missing ->
  installed w = Missing ->
  exists self' w',
    init_config e self w = (Ok self', w') /\
    cache_records w' = Some [launcher_updater; artutils] /\
    subscript launcher_updater "type" = Ok (JStr "tool") /\
    subscript artutils "type" = Ok (JStr "library") /\
    installed w' = Holds (JArr []).
Proof.
  intros [Hc | [o Hc]] Hp Hi.
  - rewrite (init_config_first_run e self w Hc Hp Hi).
    do 2 eexists. split; [reflexivity|]. repeat split.
  - unfold init_config. run. repeat (rewrite ?Hc; simpl).
    destruct (field "server_url" o); simpl; rewrite Hp; simpl; rewrite Hi; simpl;
      do 2 eexists; (split; [reflexivity|]); repeat split.
Qed.

Lemma first_run_bootstrap_witness :
  exists self' w',
    init_config {| now := 1700000000; net := fun _ => Raise ConnectionError |}
      {| base_url := JStr "https://api.artstudia.com" |}
      {| config := Missing; packages := Missing; installed := Missing;
         writes := []; posted := [] |} = (Ok self', w') /\
    cache_records w' = Some [launcher_updater; artutils] /\
    subscript launcher_updater "type" = Ok (JStr "tool") /\
    subscript artutils "type" = Ok (JStr "library") /\
    installed w' = Holds (JArr []).
Proof.
  apply first_run_bootstrap; [left; reflexivity | reflexivity | reflexivity].
Defined.

(** ** Local search *)

Lemma filter_r_pure (test : json -> result bool) (f : json -> bool)
    (l : list json) :
  (forall x, In x l -> test x = Ok (f x)) ->
  filter_r test l = Ok (filter f l).
Proof.
  induction l as [|x l IH]; intros H; simpl; [reflexivity|].
  rewrite (H x (or_introl eq_refl)). simpl.
  rewrite IH by (intros y Hy; apply H; now right).
  reflexivity.
Qed.

Lemma matches_well_formed (query : string) (p : json) :
  well_formed p = true -> matches query p = Ok (record_hit query p).
Proof.
  unfold well_formed, record_hit, matches, hit, name_of, description_of,
    tags_of, str_join.
  destruct p as [| | | | |o]; try discriminate. simpl.
  destruct (field "name" o) as [[| | |n| |]|]; try discriminate. simpl.
  destruct (field "description" o) as [[| | |d| |]|]; try discriminate; simpl;
    destruct (field "tags" o) as [[| | | |ts|]|]; try discriminate; simpl;
    try (destruct (all_str ts); try discriminate; simpl);
    intros _;
    repeat match goal with
           | |- context [if ?b then _ else _] => destruct b; simpl
           end;
    reflexivity.
Qed.

(** C8. On a cache of well-formed records [search_local] returns exactly
    the records that the query hits (the lowercased query is a substring
    of the lowercased name, description or space-joined tags), in the
    order of the stored list; the cache is only read. *)
Theorem search_local_filters (query : string) (w : world) (l : list json) :
  cache_records w = Some l ->
  forallb well_formed l = true ->
  search_local query w = (Ok (filter (record_hit query) l), w).
Proof.
  unfold cache_records. intros Hc Hwf.
  destruct (packages w) as [| |[| | | | |o]] eqn:Hp; try discriminate.
  destruct (field "packages" o) as [[| | | |l'|]|] eqn:Hf; try discriminate.
  injection Hc as ->.
  unfold search_local. run. rewrite Hp. simpl. rewrite Hf. simpl.
  rewrite (filter_r_pure (matches query) (record_hit query)); [reflexivity|].
  intros x Hx. apply matches_well_formed.
  rewrite forallb_forall in Hwf. now apply Hwf.
Qed.

Lemma search_local_filters_witness :
  search_local "UTIL" example_cache =
    (Ok [JObj [("name", JStr "artutils"); ("tags", JArr [JStr "helpers"])]],
     example_cache) /\
  search_local "help" example_cache =
    (Ok [JObj [("name", JStr "artutils"); ("tags", JArr [JStr "helpers"])]],
     example_cache).
Proof.
  split.
  - exact (search_local_filters "UTIL" example_cache _ eq_refl eq_refl).
  - reflexivity.
Defined.

(** The search folds the case of every alphabet: the Russian record is
    found in capitals, and the Greek one with the sigma the query ends
    on only where the name ends on it too. *)
Example search_local_abroad :
  fst (search_local "ПРИВЕТ" cache_abroad)
    = Ok [JObj [("name", JStr "Привет Мир")]] /\
  fst (search_local "οδυσσευς" cache_abroad)
    = Ok [JObj [("name", JStr "ΟΔΥΣΣΕΥΣ")]] /\
  fst (search_local "οδυσσευσ" cache_abroad) = Ok [].
Proof. vm_compute. repeat split; reflexivity. Qed.

(** ** Fallback of the remote search *)


Lemma make_request_run (e : env) (self : ASMPClient) (endpoint : string)
    (data : list (string * json)) (u : url) (w : world) :
  urljoin (base_url self) endpoint = Ok u ->
  make_request e self endpoint data w =
    (received (net e (request_of e u data)), record_post (request_of e u data) w).
Proof.
  intros Hu. unfold make_request, post, bind, lift, try_except.
  rewrite Hu. unfold received.
  now destruct (net e (request_of e u data)) as [j|[]].
Qed.

Lemma failed_not_succeeded (answer : result json) :
  remote_failed answer = true ->
  exists response,
    received answer = Ok response /\
    succeeded response = Ok false /\
    exists msg, error_msg response = Ok msg.
Proof.
  destruct answer as [v|ex].
  - intros H. exists v. split; [reflexivity|].
    unfold succeeded, error_msg.
    destruct v as [| | | | |o];
      cbv beta iota delta [remote_failed] in H;
      try solve [apply negb_true_iff in H; rewrite H; eauto].
    unfold dict_get.
    destruct (truthy (JObj o)); [|eauto].
    destruct (field "success" o) as [s|].
    + simpl. apply negb_true_iff in H. rewrite H.
      split; [reflexivity|]. destruct (field "error" o); eauto.
    + simpl. split; [reflexivity|]. destruct (field "error" o); eauto.
  - destruct ex; simpl; try discriminate; intros _;
      exists JNull; repeat split; unfold error_msg; simpl; eauto.
Qed.




(** Without the proviso on the message the fallback is not reached: the
    warning cannot be printed, and the exception leaves [search_remote]. *)
Example surrogate_error_stops_the_fallback :
  fst (search_remote rude_server default_client "gui" example_cache)
    = Raise UnicodeEncodeError.
Proof. vm_compute. reflexivity. Qed.

(** ** Dictionaries: reading after writing *)

Section DictFacts.
Context {K V : Type}.
Variable eqb : K -> K -> bool.
Hypothesis eqb_eq : forall a b, eqb a b = true <-> a = b.

Lemma eqb_refl (a : K) : eqb a a = true.
Proof. now apply eqb_eq. Qed.

Lemma eqb_neq (a b : K) : a <> b -> eqb a b = false.
Proof.
  intros H. destruct (eqb a b) eqn:E; [|reflexivity].
  now apply eqb_eq in E.
Qed.

Lemma assoc_get_set_same (k : K) (v : V) (d : list (K * V)) :
  assoc_get eqb k (assoc_set eqb k v d) = Some v.
Proof.
  induction d as [|[k' v'] d IH]; simpl.
  - now rewrite eqb_refl.
  - destruct (eqb k k') eqn:E; simpl.
    + now rewrite eqb_refl.
    + now rewrite E.
Qed.

Lemma assoc_get_set_other (k k' : K) (v : V) (d : list (K * V)) :
  k <> k' ->
  assoc_get eqb k' (assoc_set eqb k v d) = assoc_get eqb k' d.
Proof.
  intros Hne. induction d as [|[k0 v0] d IH]; simpl.
  - rewrite eqb_neq; [reflexivity|]. congruence.
  - destruct (eqb k k0) eqn:E; simpl.
    + apply eqb_eq in E. subst k0.
      rewrite (@eqb_neq k' k) by congruence. reflexivity.
    + now rewrite IH.
Qed.

Lemma assoc_set_present (k : K) (v : V) (d : list (K * V)) :
  assoc_get eqb k d = Some v -> assoc_set eqb k v d = d.
Proof.
  induction d as [|[k' v'] d IH]; simpl; [discriminate|].
  destruct (eqb k k') eqn:E.
  - apply eqb_eq in E. subst k'. now intros [= ->].
  - intros H. now rewrite IH.
Qed.

Lemma assoc_set_twice (k : K) (v1 v2 : V) (d : list (K * V)) :
  assoc_set eqb k v2 (assoc_set eqb k v1 d) = assoc_set eqb k v2 d.
Proof.
  induction d as [|[k' v'] d IH]; simpl.
  - now rewrite eqb_refl.
  - destruct (eqb k k') eqn:E; simpl.
    + now rewrite eqb_refl.
    + now rewrite E, IH.
Qed.

(** Replacing the value of a key that is present commutes with any
    assignment to another key: neither moves an entry. *)
Lemma assoc_set_swap (k k' : K) (v v' : V) (d : list (K * V)) :
  k <> k' ->
  assoc_get eqb k d <> None ->
  assoc_set eqb k v (assoc_set eqb k' v' d) =
  assoc_set eqb k' v' (assoc_set eqb k v d).
Proof.
  intros Hne. induction d as [|[k0 v0] d IH]; simpl; [congruence|].
  destruct (eqb k k0) eqn:E; destruct (eqb k' k0) eqn:E'; simpl;
    rewrite ?E, ?E'; intros H.
  - apply eqb_eq in E, E'. congruence.
  - rewrite eqb_neq by congruence. reflexivity.
  - rewrite eqb_neq by congruence. reflexivity.
  - now rewrite IH.
Qed.

Lemma assoc_keys_set (k : K) (v : V) (d : list (K * V)) :
  assoc_keys (assoc_set eqb k v d) =
    if existsb (eqb k) (assoc_keys d) then assoc_keys d
    else assoc_keys d ++ [k].
Proof.
  induction d as [|[k' v'] d IH]; simpl; [reflexivity|].
  destruct (eqb k k') eqn:E; simpl.
  - apply eqb_eq in E. now subst.
  - unfold assoc_keys in *. rewrite IH.
    now destruct (existsb (eqb k) (map fst d)).
Qed.

Lemma existsb_eqb_In (k : K) (l : list K) :
  existsb (eqb k) l = true <-> In k l.
Proof.
  rewrite existsb_exists. split.
  - intros (x & Hx & E). apply eqb_eq in E. now subst.
  - intros H. exists k. split; [assumption | apply eqb_refl].
Qed.

Lemma assoc_set_absent (k : K) (v : V) (d : list (K * V)) :
  ~ In k (assoc_keys d) -> assoc_set eqb k v d = d ++ [(k, v)].
Proof.
  induction d as [|[k' v'] d IH]; simpl; [reflexivity|].
  intros H. rewrite eqb_neq by intuition congruence.
  rewrite IH; [reflexivity|]. intuition.
Qed.

Lemma assoc_keys_set_NoDup (k : K) (v : V) (d : list (K * V)) :
  NoDup (assoc_keys d) -> NoDup (assoc_keys (assoc_set eqb k v d)).
Proof.
  intros H. rewrite assoc_keys_set.
  destruct (existsb (eqb k) (assoc_keys d)) eqn:E; [assumption|].
  apply NoDup_app; [assumption | repeat constructor; intros [] |].
  intros x Hx [<-|[]].
  apply existsb_eqb_In in Hx. congruence.
Qed.

Lemma assoc_get_In (k : K) (v : V) (d : list (K * V)) :
  assoc_get eqb k d = Some v -> In (k, v) d.
Proof.
  induction d as [|[k' v'] d IH]; simpl; [discriminate|].
  destruct (eqb k k') eqn:E.
  - apply eqb_eq in E. subst. intros [= ->]. now left.
  - intros H. right. now apply IH.
Qed.

End DictFacts.

Lemma key_eqb_eq (a b : key) : key_eqb a b = true <-> a = b.
Proof.
  destruct a, b; simpl; try (split; [discriminate | congruence]);
    try tauto.
  - rewrite Z.eqb_eq. split; congruence.
  - rewrite String.eqb_eq. split; congruence.
Qed.

Section DictMembers.
Context {K V : Type}.
Variable eqb : K -> K -> bool.

Lemma assoc_set_In (k k' : K) (v v' : V) (d : list (K * V)) :
  In (k', v') (assoc_set eqb k v d) -> (k', v') = (k, v) \/ In (k', v') d.
Proof.
  induction d as [|[k0 v0] d IH]; simpl.
  - intros [H|[]]; auto.
  - destruct (eqb k k0); simpl; intros [H|H]; auto.
    destruct (IH H); auto.
Qed.
End DictMembers.

(** ** Text that UTF-8 encodes *)

Section DictAll.
Context {K V : Type}.
Variable eqb : K -> K -> bool.

Lemma forallb_assoc_set (Q : K * V -> bool) (k : K) (v : V) (d : list (K * V)) :
  Q (k, v) = true -> forallb Q d = true ->
  forallb Q (assoc_set eqb k v d) = true.
Proof.
  intros Hv. induction d as [|[k' v'] d IH]; simpl.
  - now rewrite Hv.
  - intros H. apply andb_prop in H as [H1 H2].
    destruct (eqb k k'); simpl.
    + now rewrite Hv, H2.
    + now rewrite H1, IH.
Qed.

Lemma forallb_values_set (Q : V -> bool) (k : K) (v : V) (d : list (K * V)) :
  Q v = true -> forallb Q (assoc_values d) = true ->
  forallb Q (assoc_values (assoc_set eqb k v d)) = true.
Proof.
  intros Hv. unfold assoc_values.
  induction d as [|[k' v'] d IH]; simpl.
  - now rewrite Hv.
  - intros H. apply andb_prop in H as [H1 H2].
    destruct (eqb k k'); simpl.
    + now rewrite Hv, H2.
    + now rewrite H1, IH.
Qed.

Lemma map_assoc_set {W} (f : K -> V -> W) (k : K) (v : V) (d : list (K * V)) :
  map (fun kv => (fst kv, f (fst kv) (snd kv))) (assoc_set eqb k v d) =
  assoc_set eqb k (f k v) (map (fun kv => (fst kv, f (fst kv) (snd kv))) d).
Proof.
  induction d as [|[k' v'] d IH]; simpl; [reflexivity|].
  destruct (eqb k k'); simpl; [reflexivity|]. now rewrite IH.
Qed.
End DictAll.

Lemma encodable_verdicts (o : list (string * json)) :
  encodable (JObj o) = forallb snd (verdicts o).
Proof.
  unfold verdicts. simpl. induction o as [|[k v] o IH]; simpl; [reflexivity|].
  now rewrite IH.
Qed.

Lemma verdicts_set (k : string) (v : json) (o : list (string * json)) :
  verdicts (assoc_set String.eqb k v o) =
    assoc_set String.eqb k (utf8 k && encodable v) (verdicts o).
Proof.
  unfold verdicts.
  apply (map_assoc_set String.eqb (fun k v => utf8 k && encodable v)).
Qed.

Lemma encodable_field (o : list (string * json)) (k : string) (v : json) :
  encodable (JObj o) = true -> field k o = Some v -> encodable v = true.
Proof.
  intros He Hf. simpl in He. rewrite forallb_forall in He.
  apply (assoc_get_In String.eqb String.eqb_eq) in Hf.
  specialize (He _ Hf). simpl in He. now apply andb_prop in He as [_ He].
Qed.

Lemma encodable_set (k : string) (v : json) (o : list (string * json)) :
  utf8 k = true -> encodable v = true -> encodable (JObj o) = true ->
  encodable (JObj (assoc_set String.eqb k v o)) = true.
Proof.
  intros Hk Hv Ho. simpl in *.
  apply (forallb_assoc_set String.eqb); [|exact Ho].
  simpl. now rewrite Hk, Hv.
Qed.

Lemma encodable_list (l : list json) :
  encodable (JArr l) = forallb encodable l.
Proof. reflexivity. Qed.

Lemma encodable_In (l : list json) (p : json) :
  forallb encodable l = true -> In p l -> encodable p = true.
Proof. intros H. rewrite forallb_forall in H. apply H. Qed.

Lemma encodable_printable (v : json) : encodable v = true -> printable v = true.
Proof. destruct v; simpl; auto. Qed.

(** The clock does not decide whether a merge can be written. *)
Lemma encodable_restamped_clock (e1 e2 : env) (o : list (string * json))
    (d : pydict) :
  encodable (JObj (restamped e1 o d)) = encodable (JObj (restamped e2 o d)).
Proof.
  rewrite !encodable_verdicts. unfold restamped.
  now rewrite !verdicts_set.
Qed.

Lemma encodable_restamped (e : env) (o : list (string * json)) (d : pydict) :
  encodable (JObj o) = true ->
  forallb encodable (assoc_values d) = true ->
  encodable (JObj (restamped e o d)) = true.
Proof.
  intros Ho Hd. unfold restamped.
  repeat apply encodable_set; try reflexivity; assumption.
Qed.

(** ** Merging remote records into the cache *)

Lemma put_package_key (d : pydict) (p : json) :
  put_package d p = (k <~ name_key p ;; Ok (assoc_set key_eqb k p d)).
Proof.
  unfold put_package, name_key.
  destruct (subscript p "name") as [n|]; simpl; [|reflexivity].
  now destruct (hash_key n).
Qed.

Lemma put_packages_total (d : pydict) (l : list json) :
  forallb has_name l = true -> exists d', put_packages d l = Ok d'.
Proof.
  revert d. induction l as [|p l IH]; intros d H; simpl in *; [eauto|].
  apply andb_true_iff in H as [Hp Hl].
  rewrite put_package_key. unfold has_name in Hp.
  destruct (name_key p) as [k|]; [|discriminate]. simpl. now apply IH.
Qed.

Lemma put_packages_keyed (d d' : pydict) (l : list json) :
  put_packages d l = Ok d' -> keyed d -> keyed d'.
Proof.
  revert d. induction l as [|p l IH]; intros d H Hd; simpl in H.
  - now injection H as <-.
  - rewrite put_package_key in H.
    destruct (name_key p) as [k|] eqn:Hk; [|discriminate]. simpl in H.
    apply (IH _ H). intros k' v' Hin.
    apply assoc_set_In in Hin as [[= -> ->]|Hin]; [assumption | now apply Hd].
Qed.

Lemma put_packages_NoDup (d d' : pydict) (l : list json) :
  put_packages d l = Ok d' ->
  NoDup (assoc_keys d) -> NoDup (assoc_keys d').
Proof.
  revert d. induction l as [|p l IH]; intros d H Hd; simpl in H.
  - now injection H as <-.
  - rewrite put_package_key in H.
    destruct (name_key p) as [k|] eqn:Hk; [|discriminate]. simpl in H.
    apply (IH _ H). now apply (assoc_keys_set_NoDup key_eqb key_eqb_eq).
Qed.

(** Last write wins: after the puts, a name maps to the last record of
    the list with that name, or to what it mapped to before. *)
Lemma put_packages_get (d d' : pydict) (l : list json) (k : key) :
  put_packages d l = Ok d' ->
  assoc_get key_eqb k d' =
    match last_named k l with
    | Some q => Some q
    | None => assoc_get key_eqb k d
    end.
Proof.
  revert d. induction l as [|p l IH]; intros d H; simpl in H.
  - now injection H as <-.
  - rewrite put_package_key in H.
    destruct (name_key p) as [kp|] eqn:Hk; [|discriminate]. simpl in H.
    rewrite (IH _ H). simpl.
    destruct (last_named k l); [reflexivity|].
    unfold named. rewrite Hk.
    destruct (key_eqb k kp) eqn:E.
    + apply key_eqb_eq in E. subst.
      apply (assoc_get_set_same key_eqb key_eqb_eq).
    + apply (assoc_get_set_other key_eqb key_eqb_eq).
      intros ->. rewrite (eqb_refl key_eqb key_eqb_eq) in E. discriminate.
Qed.


(** Reading the values back into an empty dictionary rebuilds it. *)
Lemma put_packages_values (acc d : pydict) :
  keyed d -> NoDup (assoc_keys (acc ++ d)) ->
  put_packages acc (assoc_values d) = Ok (acc ++ d).
Proof.
  revert acc. induction d as [|[k v] d IH]; intros acc Hd Hnd; simpl.
  - now rewrite app_nil_r.
  - rewrite put_package_key, (Hd k v (or_introl eq_refl)). simpl.
    rewrite (assoc_set_absent key_eqb key_eqb_eq).
    + replace (acc ++ (k, v) :: d) with ((acc ++ [(k, v)]) ++ d)
        by now rewrite <- app_assoc.
      apply IH.
      * intros k0 v0 H. apply Hd. now right.
      * now rewrite <- app_assoc.
    + unfold assoc_keys in *. rewrite map_app in Hnd. simpl in Hnd.
      apply NoDup_remove_2 in Hnd. intros H. apply Hnd.
      apply in_or_app. now left.
Qed.



Lemma put_packages_In (d d' : pydict) (l : list json) (k : key) (v : json) :
  put_packages d l = Ok d' -> In (k, v) d' -> In (k, v) d \/ In v l.
Proof.
  revert d. induction l as [|p l IH]; intros d H Hin; simpl in H.
  - injection H as <-. now left.
  - rewrite put_package_key in H.
    destruct (name_key p) as [kp|] eqn:Hk; [|discriminate]. simpl in H.
    destruct (IH _ H Hin) as [Hd|Hl]; [|right; now right].
    apply assoc_set_In in Hd as [[= -> ->]|Hd]; [right; now left | now left].
Qed.


Lemma keyed_names (d : pydict) :
  keyed d -> map name_key (assoc_values d) = map Ok (assoc_keys d).
Proof.
  induction d as [|[k v] d IH]; intros Hd; simpl; [reflexivity|].
  rewrite (Hd k v (or_introl eq_refl)). f_equal.
  apply IH. intros k0 v0 H. apply Hd. now right.
Qed.


Lemma put_packages_encodable (d d' : pydict) (l : list json) :
  put_packages d l = Ok d' ->
  forallb encodable (assoc_values d) = true ->
  forallb encodable l = true ->
  forallb encodable (assoc_values d') = true.
Proof.
  revert d. induction l as [|p l IH]; intros d H Hd Hl; simpl in H.
  - now injection H as <-.
  - rewrite put_package_key in H.
    destruct (name_key p) as [k|] eqn:Hk; [|discriminate]. simpl in H.
    simpl in Hl. apply andb_prop in Hl as [Hp Hl].
    apply (IH _ H); [|exact Hl].
    now apply (forallb_values_set key_eqb).
Qed.

(** The merge, then the write: the file takes the merged object when
    UTF-8 encodes it, and is left cut off when not. *)
Lemma update_local_cache_run (e : env) (pkgs : json) (w : world) :
  update_local_cache e pkgs w =
    (Ok tt,
     match packages w with
     | Holds j =>
         match merged e j pkgs with
         | Ok j' => if encodable j' then write_file packages_file j' w
                    else cut_file packages_file w
         | Raise _ => w
         end
     | _ => w
     end).
Proof.
  unfold update_local_cache, merged, json_dump_utf8. run.
  destruct (packages w) as [| |j]; try reflexivity.
  destruct (dict_get j "packages" (JArr [])) as [old|]; simpl; [|reflexivity].
  destruct (py_iter old) as [lo|]; simpl; [|reflexivity].
  destruct (put_packages [] lo) as [d0|]; simpl; [|reflexivity].
  destruct (py_iter pkgs) as [ln|]; simpl; [|reflexivity].
  destruct (put_packages d0 ln) as [d1|]; simpl; [|reflexivity].
  destruct (setitem j "packages" (JArr (assoc_values d1))) as [j1|]; simpl;
    [|reflexivity].
  destruct (setitem j1 "last_updated" (JInt (now e))) as [j2|]; simpl;
    [|reflexivity].
  destruct (setitem j2 "client_version" (JStr __version__)) as [j3|]; simpl;
    [|reflexivity].
  now destruct (encodable j3).
Qed.

Lemma restamped_packages (e : env) (o : list (string * json)) (d : pydict) :
  field "packages" (restamped e o d) = Some (JArr (assoc_values d)).
Proof.
  unfold field, restamped.
  rewrite !(assoc_get_set_other String.eqb String.eqb_eq) by discriminate.
  apply (assoc_get_set_same String.eqb String.eqb_eq).
Qed.

Lemma merged_records (e : env) (o : list (string * json))
    (old new : list json) (d0 d1 : pydict) :
  field "packages" o = Some (JArr old) ->
  put_packages [] old = Ok d0 ->
  put_packages d0 new = Ok d1 ->
  merged e (JObj o) (JArr new) = Ok (JObj (restamped e o d1)).
Proof.
  intros Hf H0 H1. unfold merged, dict_get. rewrite Hf. simpl.
  rewrite H0. simpl. rewrite H1. reflexivity.
Qed.

(** A merge of named records that UTF-8 encodes, into a cache of such
    records, writes the merged object. *)
Lemma update_local_cache_writes (e : env) (w : world)
    (o : list (string * json)) (old incoming : list json) (d0 d1 : pydict) :
  packages w = Holds (JObj o) ->
  field "packages" o = Some (JArr old) ->
  put_packages [] old = Ok d0 ->
  put_packages d0 incoming = Ok d1 ->
  encodable (JObj o) = true ->
  forallb encodable incoming = true ->
  update_local_cache e (JArr incoming) w =
    (Ok tt, write_file packages_file (JObj (restamped e o d1)) w).
Proof.
  intros Hp Hf H0 H1 Ho Hi.
  rewrite update_local_cache_run, Hp, (merged_records e o _ _ _ _ Hf H0 H1).
  rewrite encodable_restamped; [reflexivity|exact Ho|].
  apply (put_packages_encodable _ _ _ H1); [|exact Hi].
  apply (put_packages_encodable _ _ _ H0); [reflexivity|].
  exact (encodable_field o "packages" (JArr old) Ho Hf).
Qed.


Example merge_overwrite :
  cache_records (snd (update_local_cache offline (JArr [x_2]) cache_x)) =
    Some [x_2; y_1].
Proof. reflexivity. Qed.


(** ** Merging the same record twice *)

Lemma merged_inv (e : env) (j j' : json) (l : list json) :
  merged e j (JArr l) = Ok j' ->
  exists o old d0 d1,
    j = JObj o /\
    (pk <~ dict_get j "packages" (JArr []) ;; py_iter pk) = Ok old /\
    put_packages [] old = Ok d0 /\
    put_packages d0 l = Ok d1 /\
    j' = JObj (restamped e o d1).
Proof.
  unfold merged. intros H.
  destruct j as [| | | | |o]; try discriminate.
  destruct (dict_get (JObj o) "packages" (JArr [])) as [pk|]; [|discriminate].
  simpl in H. destruct (py_iter pk) as [old|] eqn:Hold; [|discriminate].
  simpl in H. destruct (put_packages [] old) as [d0|] eqn:H0; [|discriminate].
  simpl in H. destruct (put_packages d0 l) as [d1|] eqn:H1; [|discriminate].
  simpl in H. injection H as <-.
  exists o, old, d0, d1. simpl. rewrite Hold. auto.
Qed.

Lemma merged_ok (e : env) (o : list (string * json)) (old l : list json)
    (d0 d1 : pydict) :
  (pk <~ dict_get (JObj o) "packages" (JArr []) ;; py_iter pk) = Ok old ->
  put_packages [] old = Ok d0 ->
  put_packages d0 l = Ok d1 ->
  merged e (JObj o) (JArr l) = Ok (JObj (restamped e o d1)).
Proof.
  unfold merged. intros Hold H0 H1.
  destruct (dict_get (JObj o) "packages" (JArr [])) as [pk|]; [|discriminate].
  simpl in *. rewrite Hold. simpl. rewrite H0. simpl. rewrite H1. reflexivity.
Qed.

(** Whether the merge raises does not depend on the clock. *)
Lemma merged_raises (e1 e2 : env) (j pkgs : json) (ex : exn) :
  merged e1 j pkgs = Raise ex -> merged e2 j pkgs = Raise ex.
Proof.
  unfold merged.
  destruct (dict_get j "packages" (JArr [])) as [pk|] eqn:Hg; [|exact id].
  simpl. destruct (py_iter pk) as [old|]; [|exact id].
  simpl. destruct (put_packages [] old) as [d0|]; [|exact id].
  simpl. destruct (py_iter pkgs) as [new|]; [|exact id].
  simpl. destruct (put_packages d0 new) as [d1|]; [|exact id].
  destruct j; discriminate.
Qed.

Lemma restamped_twice (e1 e2 : env) (o : list (string * json)) (d : pydict) :
  restamped e2 (restamped e1 o d) d = restamped e2 o d.
Proof.
  unfold restamped at 1.
  rewrite (assoc_set_present String.eqb String.eqb_eq "packages")
    by apply restamped_packages.
  unfold restamped.
  set (X := assoc_set String.eqb "packages" (JArr (assoc_values d)) o).
  rewrite (assoc_set_swap String.eqb String.eqb_eq
             "last_updated" "client_version").
  - now rewrite !(assoc_set_twice String.eqb String.eqb_eq).
  - discriminate.
  - now rewrite (assoc_get_set_same String.eqb String.eqb_eq).
Qed.

Lemma restamped_field (e1 e2 : env) (o : list (string * json)) (d : pydict)
    (k : string) :
  k <> "last_updated" ->
  field k (restamped e2 o d) = field k (restamped e1 o d).
Proof.
  intros Hk. unfold field, restamped.
  destruct (String.eqb_spec "client_version" k) as [<-|Hc].
  - now rewrite !(assoc_get_set_same String.eqb String.eqb_eq).
  - rewrite !(assoc_get_set_other String.eqb String.eqb_eq "client_version" k)
      by assumption.
    rewrite !(assoc_get_set_other String.eqb String.eqb_eq "last_updated" k)
      by congruence.
    reflexivity.
Qed.

(** Merging [r] into a cache that a merge of [r] has just written. *)
Lemma merged_again (e1 e2 : env) (j j1 r : json) :
  merged e1 j (JArr [r]) = Ok j1 ->
  merged e2 j1 (JArr [r]) = merged e2 j (JArr [r]).
Proof.
  intros H.
  destruct (merged_inv _ _ _ _ H) as (o & old & d0 & d1 & -> & Hold & H0 & H1 & ->).
  rewrite (merged_ok e2 o old [r] d0 d1 Hold H0 H1).
  assert (Hk1 : keyed d1).
  { apply (put_packages_keyed _ _ _ H1), (put_packages_keyed _ _ _ H0).
    intros ? ? []. }
  assert (Hn1 : NoDup (assoc_keys d1)).
  { apply (put_packages_NoDup _ _ _ H1), (put_packages_NoDup _ _ _ H0).
    constructor. }
  rewrite (merged_ok e2 (restamped e1 o d1) (assoc_values d1) [r] d1 d1).
  - now rewrite restamped_twice.
  - unfold dict_get. now rewrite restamped_packages.
  - now apply (put_packages_values []).
  - simpl in *. rewrite put_package_key in *.
    destruct (name_key r) as [k|]; [|discriminate]. simpl in *.
    injection H1 as <-.
    now rewrite (assoc_set_twice key_eqb key_eqb_eq).
Qed.

(** C2, as the code has it.  Merging the same record twice leaves the
    cache file that a single merge made at the time of the second call
    leaves.  Against the state after the first merge, every field other
    than [last_updated] is the same, and the whole file is the same when
    the two merges read the same clock value. *)
Theorem merge_twice (e1 e2 : env) (r : json) (w : world) :
  let w1 := snd (update_local_cache e1 (JArr [r]) w) in
  let w2 := snd (update_local_cache e2 (JArr [r]) w1) in
  packages w2 = packages (snd (update_local_cache e2 (JArr [r]) w)) /\
  (forall k, k <> "last_updated" -> cache_field k w2 = cache_field k w1) /\
  (now e1 = now e2 -> packages w2 = packages w1).
Proof.
  cbv zeta. rewrite !update_local_cache_run. simpl.
  destruct (packages w) as [| |j] eqn:Hp; simpl; rewrite ?Hp; auto.
  destruct (merged e1 j (JArr [r])) as [j1|ex] eqn:H1; simpl.
  - pose proof (merged_again e1 e2 j j1 r H1) as Hagain.
    destruct (merged_inv _ _ _ _ H1) as (o & old & d0 & d1 & -> & Hold & H0 & Hd & ->).
    rewrite (merged_ok e2 o old [r] d0 d1 Hold H0 Hd) in *.
    rewrite (encodable_restamped_clock e2 e1).
    destruct (encodable (JObj (restamped e1 o d1))) eqn:He; simpl.
    + rewrite Hagain, (encodable_restamped_clock e2 e1), He. simpl.
      split; [reflexivity|]. split.
      * intros k Hk. unfold cache_field. simpl. now apply restamped_field.
      * intros Hn. unfold restamped. now rewrite Hn.
    + auto.
  - rewrite Hp, (merged_raises e1 e2 _ _ _ H1). simpl. rewrite Hp. auto.
Qed.

(** C2, as the claim states it, fails when the clock moves between the
    two calls: the second merge writes its own [last_updated]. *)
Lemma merge_twice_not_identical :
  let w1 := snd (update_local_cache (at_time 1700000000) (JArr [x_2]) cache_x) in
  let w2 := snd (update_local_cache (at_time 1700000060) (JArr [x_2]) w1) in
  packages w2 <> packages w1.
Proof.
  cbv zeta. vm_compute. intros H. discriminate H.
Qed.

Lemma merge_twice_witness :
  let w1 := snd (update_local_cache (at_time 1700000000) (JArr [x_2]) cache_x) in
  let w2 := snd (update_local_cache (at_time 1700000000) (JArr [x_2]) w1) in
  packages w2 = packages w1.
Proof.
  exact (proj2 (proj2 (merge_twice (at_time 1700000000) (at_time 1700000000)
                         x_2 cache_x)) eq_refl).
Defined.

(** ** The ledger of installed packages *)

Lemma stamp_object (e : env) (o : list (string * json)) :
  stamp e (JObj o) = Ok (JObj (stamped e o)).
Proof. reflexivity. Qed.


Lemma stamped_other (e : env) (o : list (string * json)) (k : string) :
  k <> "installed_at" -> k <> "installed_by" -> k <> "client_version" ->
  field k (stamped e o) = field k o.
Proof.
  intros H1 H2 H3. unfold field, stamped.
  rewrite (assoc_get_set_other String.eqb String.eqb_eq "client_version" k)
    by congruence.
  rewrite (assoc_get_set_other String.eqb String.eqb_eq "installed_by" k)
    by congruence.
  apply (assoc_get_set_other String.eqb String.eqb_eq). congruence.
Qed.

Lemma str_eq_refl (n : string) : py_eq (JStr n) (JStr n) = true.
Proof. simpl. apply String.eqb_refl. Qed.

Lemma other_name_pure (o : list (string * json)) (n : string) (p : json) :
  field "name" o = Some (JStr n) ->
  has_name_field p = true ->
  other_name (JObj o) p = Ok (negb (is_named n p)).
Proof.
  unfold other_name, has_name_field, is_named. intros Ho Hp.
  destruct (subscript p "name") as [a|]; [|discriminate]. simpl.
  now rewrite Ho.
Qed.

Lemma encodable_stamped (e : env) (o : list (string * json)) :
  encodable (JObj o) = true -> encodable (JObj (stamped e o)) = true.
Proof.
  intros Ho. unfold stamped.
  repeat apply encodable_set; try reflexivity; assumption.
Qed.

Lemma forallb_filter {A} (P f : A -> bool) (l : list A) :
  forallb P l = true -> forallb P (filter f l) = true.
Proof.
  intros H. apply forallb_forall. intros x Hx.
  apply filter_In in Hx as [Hx _].
  rewrite forallb_forall in H. now apply H.
Qed.

Lemma encodable_ledger (e : env) (o : list (string * json))
    (f : json -> bool) (entries : list json) :
  forallb encodable entries = true ->
  encodable (JObj o) = true ->
  forallb encodable (filter f entries ++ [JObj (stamped e o)]) = true.
Proof.
  intros He Ho. rewrite forallb_app, forallb_filter by assumption.
  cbn [forallb andb]. now rewrite encodable_stamped.
Qed.

Lemma save_installed_package_run (e : env) (w : world)
    (o : list (string * json)) (n : string) (entries : list json) :
  installed_entries w = Some entries ->
  forallb has_name_field entries = true ->
  field "name" o = Some (JStr n) ->
  forallb encodable entries = true ->
  encodable (JObj o) = true ->
  save_installed_package e (JObj o) w =
    (Ok (JObj (stamped e o)),
     write_file installed_file
       (JArr (filter (fun p => negb (is_named n p)) entries
              ++ [JObj (stamped e o)])) w).
Proof.
  intros He Hwf Hn Hee Heo.
  assert (Hread : get_installed_packages w = (Ok (JArr entries), w)).
  { unfold installed_entries in He.
    destruct (installed w) as [| |[| | | |l|]] eqn:Hi; try discriminate;
      injection He as <-.
    - now apply get_installed_packages_missing.
    - now apply get_installed_packages_holds. }
  unfold save_installed_package. unfold bind at 1. rewrite Hread.
  unfold bind, lift, ret, json_dump_utf8. cbn [py_iter stamp setitem].
  rewrite (filter_r_pure (other_name (JObj o))
             (fun p => negb (is_named n p))).
  - rewrite stamp_object. cbv beta iota.
    now rewrite encodable_list, (encodable_ledger e o _ entries Hee Heo).
  - intros p Hp. apply other_name_pure; [assumption|].
    rewrite forallb_forall in Hwf. now apply Hwf.
Qed.


Lemma filter_out_twice {A} (f : A -> bool) (l : list A) :
  filter (fun x => negb (f x)) (filter (fun x => negb (f x)) l) =
  filter (fun x => negb (f x)) l.
Proof.
  induction l as [|x l IH]; simpl; [reflexivity|].
  destruct (f x) eqn:E; simpl; [assumption|]. now rewrite E, IH.
Qed.

Lemma stamped_is_named (e : env) (o : list (string * json)) (n : string) :
  field "name" o = Some (JStr n) -> is_named n (JObj (stamped e o)) = true.
Proof.
  intros H. unfold is_named, subscript.
  rewrite stamped_other by discriminate. rewrite H. apply str_eq_refl.
Qed.



(** Install, then list: one entry named [foo], stamped. *)
Example install_then_list :
  get_installed_packages
    (snd (save_installed_package (at_time 1700000000) (JObj foo_1) fresh_world))
  = (Ok (JArr [JObj [("name", JStr "foo"); ("version", JStr "1.0");
                     ("installed_at", JInt 1700000000);
                     ("installed_by", JStr "asmp");
                     ("client_version", JStr "0.1.0")]]),
     snd (save_installed_package (at_time 1700000000) (JObj foo_1) fresh_world)).
Proof. reflexivity. Qed.

(** ** Uninstalling *)

Lemma has_name_field_truthy (p : json) :
  has_name_field p = true -> truthy p = true.
Proof.
  unfold has_name_field, subscript.
  destruct p as [| | | | |[|kv o]]; try discriminate; reflexivity.
Qed.

Lemma first_named_run (name : string) (l : list json) :
  forallb has_name_field l = true ->
  exists p,
    first_named name l = Ok p /\
    truthy p = existsb (is_named name) l.
Proof.
  induction l as [|x l IH]; simpl; intros H.
  - now exists JNull.
  - apply andb_true_iff in H as [Hx Hl].
    pose proof (has_name_field_truthy x Hx) as Ht.
    unfold has_name_field in Hx. unfold is_named at 1.
    destruct (subscript x "name") as [n|]; [|discriminate]. simpl.
    destruct (py_eq n (JStr name)); simpl.
    + now exists x.
    + now apply IH.
Qed.

Lemma not_named_pure (name : string) (p : json) :
  has_name_field p = true ->
  not_named name p = Ok (negb (is_named name p)).
Proof.
  unfold not_named, has_name_field, is_named.
  now destruct (subscript p "name").
Qed.



(** ** Installing *)

Lemma same_ledger_refl (w : world) : same_ledger w w.
Proof. now split. Qed.

Lemma same_ledger_trans {w1 w2 w3 : world} :
  same_ledger w1 w2 -> same_ledger w2 w3 -> same_ledger w1 w3.
Proof. unfold same_ledger. intros [] []. split; congruence. Qed.

Create HintDb ledger.
#[local] Hint Resolve same_ledger_refl : ledger.

Lemma quiet_ret {A} (a : A) : quiet (ret a).
Proof. intros w. apply same_ledger_refl. Qed.

Lemma quiet_lift {A} (r : result A) : quiet (lift r).
Proof. intros w. apply same_ledger_refl. Qed.

Lemma quiet_raise {A} (ex : exn) : quiet (@raise A ex).
Proof. intros w. apply same_ledger_refl. Qed.

Lemma quiet_bind {A B} (m : M A) (k : A -> M B) :
  quiet m -> (forall a, quiet (k a)) -> quiet (bind m k).
Proof.
  intros Hm Hk w. unfold bind. specialize (Hm w).
  destruct (m w) as [[a|ex] w']; simpl in *; [|assumption].
  exact (same_ledger_trans Hm (Hk a w')).
Qed.

Lemma quiet_try_except {A} (m : M A) (h : exn -> M A) :
  quiet m -> (forall ex, quiet (h ex)) -> quiet (try_except m h).
Proof.
  intros Hm Hh w. unfold try_except. specialize (Hm w).
  destruct (m w) as [[a|ex] w']; simpl in *; [assumption|].
  exact (same_ledger_trans Hm (Hh ex w')).
Qed.

Lemma quiet_post (e : env) (r : request) : quiet (post e r).
Proof. intros w. now split. Qed.

#[local] Hint Resolve quiet_ret quiet_lift quiet_raise quiet_post : ledger.

Lemma quiet_make_request (e : env) (self : ASMPClient) (endpoint : string)
    (data : list (string * json)) :
  quiet (make_request e self endpoint data).
Proof.
  unfold make_request. apply quiet_bind; [auto with ledger|]. intros u.
  apply quiet_try_except; [auto with ledger|].
  intros []; auto with ledger.
Qed.

Lemma quiet_get_package_info_remote (e : env) (self : ASMPClient)
    (package_name : string) (version : json) :
  quiet (get_package_info_remote e self package_name version).
Proof.
  unfold get_package_info_remote.
  apply quiet_bind; [apply quiet_make_request|]. intros response.
  apply quiet_bind; [auto with ledger|]. intros [|]; auto with ledger.
Qed.

Lemma print_ok (vs : list json) :
  forallb printable vs = true -> print vs = Ok tt.
Proof. intros H. unfold print. now rewrite H. Qed.

Lemma py_iter_encodable (j : json) (l : list json) :
  encodable j = true -> py_iter j = Ok l -> forallb encodable l = true.
Proof.
  destruct j as [| | |s|items|o]; simpl; try discriminate.
  - intros H [= <-]. apply utf8_chars in H.
    rewrite forallb_forall in H. apply forallb_forall.
    intros x Hx. apply in_map_iff in Hx as (g & <- & Hg). now apply H.
  - now intros H [= <-].
  - intros H [= <-]. rewrite forallb_forall in H. apply forallb_forall.
    intros x Hx. apply in_map_iff in Hx as (kv & <- & Hkv).
    specialize (H kv Hkv). now apply andb_prop in H as [H _].
Qed.

Lemma filter_r_incl (f : json -> result bool) (l kept : list json) :
  filter_r f l = Ok kept -> forall p, In p kept -> In p l.
Proof.
  revert kept. induction l as [|x l IH]; intros kept; simpl.
  - intros [= <-] p [].
  - destruct (f x) as [b|]; [|discriminate]. simpl.
    destruct (filter_r f l) as [r|]; [|discriminate]. simpl.
    intros [= <-] p Hp. destruct b.
    + destruct Hp as [->|Hp]; [now left | right; now apply (IH r)].
    + right. now apply (IH r).
Qed.

Lemma get_installed_packages_encodable (w w' : world) (j : json) :
  encoded (installed w) = true ->
  get_installed_packages w = (Ok j, w') -> encodable j = true /\ w' = w.
Proof.
  intros He. unfold get_installed_packages. run.
  destruct (installed w) as [| |x]; simpl; intros [= <- <-]; auto.
Qed.

(** On a ledger and a record that UTF-8 encodes, [save_installed_package]
    either raises with nothing written, or returns the stamped record. *)
Lemma save_installed_package_outcome (e : env) (o : list (string * json))
    (w : world) :
  encoded (installed w) = true ->
  encodable (JObj o) = true ->
  match save_installed_package e (JObj o) w with
  | (Ok p, _) => p = JObj (stamped e o)
  | (Raise _, w') => w' = w
  end.
Proof.
  intros Hl Ho. unfold save_installed_package. unfold bind at 1.
  pose proof (get_installed_packages_reads_only w) as Hw.
  pose proof (get_installed_packages_encodable w) as Hj.
  destruct (get_installed_packages w) as [[j|ex] w0]; simpl in Hw; subst w0;
    [|reflexivity].
  destruct (Hj w j Hl eq_refl) as [Hje _]. clear Hj.
  unfold bind, lift, ret, json_dump_utf8.
  destruct (py_iter j) as [l|ex] eqn:Hi; [|reflexivity].
  destruct (filter_r (other_name (JObj o)) l) as [kept|ex] eqn:Hk;
    [|reflexivity].
  rewrite stamp_object. cbv beta iota.
  rewrite encodable_list, forallb_app. cbn [forallb].
  rewrite encodable_stamped by assumption.
  assert (Hkept : forallb encodable kept = true).
  { apply forallb_forall. intros p Hp.
    apply (encodable_In l); [exact (py_iter_encodable j l Hje Hi)|].
    exact (filter_r_incl _ _ _ Hk p Hp). }
  now rewrite Hkept.
Qed.

Lemma subscript_object {p v : json} {k : string} :
  subscript p k = Ok v -> exists o, p = JObj o /\ field k o = Some v.
Proof.
  destruct p as [| | | | |o]; try discriminate. simpl.
  destruct (field k o) as [x|] eqn:E; [|discriminate].
  intros [= ->]. eauto.
Qed.

(** With a record that has a name and a version, when the record and the
    ledger are text that UTF-8 encodes, the steps of the download either
    end with [True] or raise before the ledger is written. *)
Lemma download_steps_outcome (e : env) {package_info n v : json} (w : world) :
  subscript package_info "name" = Ok n ->
  subscript package_info "version" = Ok v ->
  encodable package_info = true ->
  encoded (installed w) = true ->
  match download_steps e package_info w with
  | (Ok b, _) => b = true
  | (Raise _, w') => w' = w
  end.
Proof.
  intros Hn Hv He Hl.
  destruct (subscript_object Hn) as (o & -> & Hno).
  destruct (subscript_object Hv) as (o' & [= <-] & Hvo).
  unfold download_steps. unfold bind at 1. unfold lift at 1.
  destruct (dict_get (JObj o) "dependencies" (JArr [])) as [deps|ex];
    [|reflexivity].
  unfold bind at 1. unfold lift at 1.
  destruct (if truthy deps
            then dependencies <~ py_iter deps ;;
                 for_each (fun dep => print [dep]) dependencies
            else Ok tt) as [l|ex]; [|reflexivity].
  unfold bind at 1.
  pose proof (save_installed_package_outcome e o w Hl He) as Hs.
  destruct (save_installed_package e (JObj o) w) as [[p|ex] w']; [|assumption].
  subst p. unfold bind, lift, ret, subscript.
  rewrite !stamped_other by discriminate. rewrite Hno, Hvo.
  assert (Hpn : printable n = true)
    by exact (encodable_printable _ (encodable_field o _ _ He Hno)).
  assert (Hpv : printable v = true)
    by exact (encodable_printable _ (encodable_field o _ _ He Hvo)).
  rewrite !print_ok; [reflexivity| |]; cbn [forallb]; now rewrite ?Hpn, ?Hpv.
Qed.

(** Then [download_and_install] writes the ledger only when it returns
    [True], and returns [False] when a step raises. *)
Lemma download_and_install_outcome (e : env) {package_info n v : json}
    (du script : json) (w : world) :
  subscript package_info "name" = Ok n ->
  subscript package_info "version" = Ok v ->
  encodable package_info = true ->
  encoded (installed w) = true ->
  (fst (download_and_install e package_info du script w) <> Ok true ->
   same_ledger w (snd (download_and_install e package_info du script w))) /\
  (forall ex, fst (download_steps e package_info w) = Raise ex ->
   download_and_install e package_info du script w = (Ok false, w)).
Proof.
  intros Hn Hv He Hl. unfold download_and_install, try_except.
  pose proof (download_steps_outcome e w Hn Hv He Hl) as Hs.
  destruct (download_steps e package_info w) as [[b|ex] w']; simpl.
  - subst b. split; [congruence | discriminate].
  - subst w'. split; [intros _; apply same_ledger_refl | reflexivity].
Qed.

Lemma announced_version_fields {version package_info v : json} :
  announced_version version package_info = Ok v ->
  exists n v', subscript package_info "name" = Ok n /\
               subscript package_info "version" = Ok v'.
Proof.
  unfold announced_version.
  destruct (subscript package_info "name") as [n|]; [|discriminate].
  destruct (subscript package_info "version") as [v'|]; [|discriminate].
  eauto.
Qed.

Lemma succeeded_object {response : json} :
  succeeded response = Ok true -> exists o, response = JObj o.
Proof.
  unfold succeeded.
  destruct response as [| | | | |o]; [| | | | |eauto];
    destruct (truthy _); simpl; discriminate.
Qed.

Lemma install_after_info {e : env} {self : ASMPClient} {package_name : string}
    {version package_info : json} {w w1 : world} :
  get_package_info_remote e self package_name version w = (Ok package_info, w1) ->
  install_package_remote e self package_name version w =
    (if negb (truthy package_info) then ret false
     else
       v <- lift (announced_version version package_info) ;;
       response <- make_request e self "/api/packages/download"
                     (download_data package_name v) ;;
       ok <- lift (succeeded response) ;;
       if ok then
         download_url <- lift (dict_get response "download_url" JNull) ;;
         install_script <- lift (dict_get response "install_script" JNull) ;;
         download_and_install e package_info download_url install_script
       else ret false) w1.
Proof.
  intros H. unfold install_package_remote. unfold bind at 1. now rewrite H.
Qed.

Lemma get_package_info_remote_failed (e : env) (self : ASMPClient)
    (package_name : string) (version : json) (u : url) (w : world) :
  urljoin (base_url self) "/api/packages/info" = Ok u ->
  remote_failed (net e (request_of e u (info_data package_name version))) = true ->
  get_package_info_remote e self package_name version w =
    (Ok JNull, record_post (request_of e u (info_data package_name version)) w).
Proof.
  intros Hu Hfail.
  destruct (failed_not_succeeded _ Hfail) as (response & Hr & Hs & _).
  unfold get_package_info_remote. unfold bind at 1.
  rewrite (make_request_run e self _ _ u w Hu), Hr.
  unfold bind, lift. now rewrite Hs.
Qed.

(** What the server says about a package is text that UTF-8 encodes:
    then so is the record that [get_package_info_remote] returns. *)
Lemma get_package_info_remote_encodable (e : env) (self : ASMPClient)
    (package_name : string) (version : json) (w w1 : world)
    (package_info : json) :
  well_encoded (answer e self "/api/packages/info"
                  (info_data package_name version)) = true ->
  get_package_info_remote e self package_name version w
    = (Ok package_info, w1) ->
  encodable package_info = true.
Proof.
  unfold answer, get_package_info_remote. intros Ha. unfold bind at 1.
  destruct (urljoin (base_url self) "/api/packages/info") as [u|ex] eqn:Hu.
  - rewrite (make_request_run e self _ _ u w Hu). simpl in Ha.
    destruct (net e (request_of e u (info_data package_name version)))
      as [response|[]]; simpl; try discriminate;
      try (intros [= <- _]; reflexivity).
    unfold bind, lift, ret, succeeded.
    destruct (truthy response); [|now intros [= <- _]].
    destruct response as [| | | | |o]; simpl; try discriminate.
    destruct (field "success" o) as [s|]; simpl.
    + destruct (truthy s); [|now intros [= <- _]].
      destruct (field "package" o) as [p|] eqn:Hp; intros [= <- _];
        [exact (encodable_field o _ _ Ha Hp) | reflexivity].
    + now intros [= <- _].
  - unfold make_request, bind, lift. rewrite Hu. discriminate.
Qed.

Lemma app_one_neq {A} (l : list A) (x : A) : l ++ [x] <> l.
Proof.
  intros H. apply (f_equal (@List.length A)) in H.
  rewrite length_app in H. simpl in H. lia.
Qed.

(** A step of the download that has not opened the ledger for writing
    has changed nothing. *)
Lemma save_installed_package_unwritten (e : env) (package_info : json)
    (w : world) :
  writes (snd (save_installed_package e package_info w)) = writes w ->
  snd (save_installed_package e package_info w) = w.
Proof.
  unfold save_installed_package, bind, lift, ret, json_dump_utf8.
  pose proof (get_installed_packages_reads_only w) as Hw.
  destruct (get_installed_packages w) as [[j|ex] w0]; simpl in Hw; subst w0;
    [|reflexivity].
  destruct (py_iter j) as [l|ex]; [|reflexivity].
  destruct (filter_r (other_name package_info) l) as [kept|ex]; [|reflexivity].
  destruct (stamp e package_info) as [p|ex]; [|reflexivity].
  destruct (encodable (JArr (kept ++ [p]))); simpl; intros H;
    now apply app_one_neq in H.
Qed.

Lemma download_steps_unwritten (e : env) (package_info : json) (w : world) :
  writes (snd (download_steps e package_info w)) = writes w ->
  snd (download_steps e package_info w) = w.
Proof.
  unfold download_steps, bind, lift, ret.
  destruct (dict_get package_info "dependencies" (JArr [])) as [deps|ex];
    [|reflexivity].
  destruct (if truthy deps
            then dependencies <~ py_iter deps ;;
                 for_each (fun dep => print [dep]) dependencies
            else Ok tt) as [l|ex]; [|reflexivity].
  pose proof (save_installed_package_unwritten e package_info w) as Hs.
  destruct (save_installed_package e package_info w) as [[p|ex] w'];
    simpl in Hs; [|exact Hs].
  destruct (subscript p "name") as [n|ex]; [|exact Hs].
  destruct (subscript p "version") as [v|ex]; [|exact Hs].
  destruct (print [n; v]); [|exact Hs].
  destruct (print [n]); exact Hs.
Qed.

(** C7. [install_package_remote] returns [False], with the ledger file as
    it was and not written, when the package information cannot be
    fetched, when it names no package, when the download request fails,
    and when a step of [download_and_install] raises before the ledger
    has been opened for writing.  When what the server says about the
    package and the ledger are text that UTF-8 encodes, as the
    specification has the files, the ledger is written only when [True]
    is returned: whenever the call returns [False] or raises, the ledger
    is as it was. *)
Theorem install_failure_leaves_ledger (e : env) (self : ASMPClient)
    (package_name : string) (version : json) (w : world) :
  let r := install_package_remote e self package_name version w in
  (forall u,
     urljoin (base_url self) "/api/packages/info" = Ok u ->
     remote_failed
       (net e (request_of e u (info_data package_name version))) = true ->
     fst r = Ok false /\ same_ledger w (snd r)) /\
  (forall package_info w1,
     get_package_info_remote e self package_name version w
       = (Ok package_info, w1) ->
     truthy package_info = false ->
     fst r = Ok false /\ same_ledger w (snd r)) /\
  (forall package_info w1 v u,
     get_package_info_remote e self package_name version w
       = (Ok package_info, w1) ->
     truthy package_info = true ->
     announced_version version package_info = Ok v ->
     urljoin (base_url self) "/api/packages/download" = Ok u ->
     remote_failed
       (net e (request_of e u (download_data package_name v))) = true ->
     fst r = Ok false /\ same_ledger w (snd r)) /\
  (forall package_info w1 v response w2 ex,
     get_package_info_remote e self package_name version w
       = (Ok package_info, w1) ->
     truthy package_info = true ->
     announced_version version package_info = Ok v ->
     make_request e self "/api/packages/download"
       (download_data package_name v) w1 = (Ok response, w2) ->
     succeeded response = Ok true ->
     fst (download_steps e package_info w2) = Raise ex ->
     writes (snd (download_steps e package_info w2)) = writes w2 ->
     fst r = Ok false /\ same_ledger w (snd r)) /\
  (well_encoded (answer e self "/api/packages/info"
                   (info_data package_name version)) = true ->
   encoded (installed w) = true ->
   fst r <> Ok true -> same_ledger w (snd r)).
Proof.
  cbv zeta.
  pose proof (quiet_get_package_info_remote e self package_name version w)
    as Hq1.
  split; [|split; [|split; [|split]]].
  - intros u Hu Hfail.
    rewrite (install_after_info
               (get_package_info_remote_failed e self package_name version u w
                  Hu Hfail)).
    split; [reflexivity | now split].
  - intros package_info w1 Hinfo Ht.
    rewrite Hinfo in Hq1. rewrite (install_after_info Hinfo), Ht.
    split; [reflexivity | exact Hq1].
  - intros package_info w1 v u Hinfo Ht Hv Hu Hfail.
    rewrite Hinfo in Hq1.
    destruct (failed_not_succeeded _ Hfail) as (response & Hr & Hs & _).
    rewrite (install_after_info Hinfo), Ht. cbn [negb].
    unfold bind, lift. rewrite Hv. cbv beta iota.
    rewrite (make_request_run e self _ _ u w1 Hu), Hr. cbv beta iota.
    rewrite Hs. cbv beta iota.
    split; [reflexivity|]. simpl in *.
    destruct Hq1 as [Hi Hw]. now split.
  - intros package_info w1 v response w2 ex Hinfo Ht Hv Hreq Hs Hsteps Hwr.
    rewrite Hinfo in Hq1. simpl in Hq1.
    pose proof (quiet_make_request e self "/api/packages/download"
                  (download_data package_name v) w1) as Hq2.
    rewrite Hreq in Hq2. simpl in Hq2.
    pose proof (same_ledger_trans Hq1 Hq2) as Hq.
    pose proof (download_steps_unwritten e package_info w2 Hwr) as Hsame.
    destruct (succeeded_object Hs) as [o ->].
    rewrite (install_after_info Hinfo), Ht. cbn [negb].
    unfold bind, lift. rewrite Hv. cbv beta iota.
    rewrite Hreq. cbv beta iota. rewrite Hs. cbv beta iota.
    unfold dict_get, download_and_install, try_except.
    destruct (field "download_url" o), (field "install_script" o);
      destruct (download_steps e package_info w2) as [[b|ex'] w3];
      simpl in *; try discriminate; subst w3;
      (split; [reflexivity | exact Hq]).
  - intros Ha Hl.
    destruct (get_package_info_remote e self package_name version w)
      as [[package_info|ex] w1] eqn:Hinfo; simpl in Hq1.
    2: { unfold install_package_remote, bind. rewrite Hinfo. intros _.
         cbn [snd]. exact Hq1. }
    pose proof (get_package_info_remote_encodable e self package_name version
                  w w1 package_info Ha Hinfo) as He.
    rewrite (install_after_info Hinfo).
    destruct (negb (truthy package_info)); [intros _; exact Hq1|].
    unfold bind, lift.
    destruct (announced_version version package_info) as [v|ex] eqn:Hv;
      [|intros _; exact Hq1].
    destruct (announced_version_fields Hv) as (n & v' & Hn & Hv').
    pose proof (quiet_make_request e self "/api/packages/download"
                  (download_data package_name v) w1) as Hq2.
    destruct (make_request e self "/api/packages/download"
                (download_data package_name v) w1) as [[response|ex] w2];
      simpl in Hq2;
      [|intros _; exact (same_ledger_trans Hq1 Hq2)].
    pose proof (same_ledger_trans Hq1 Hq2) as Hq.
    destruct (succeeded response) as [[|]|ex]; try (intros _; exact Hq).
    destruct (dict_get response "download_url" JNull) as [du|ex];
      [|intros _; exact Hq].
    destruct (dict_get response "install_script" JNull) as [script|ex];
      [|intros _; exact Hq].
    assert (Hl2 : encoded (installed w2) = true)
      by (destruct Hq as [Hi _]; now rewrite Hi).
    intros H.
    exact (same_ledger_trans Hq
             (proj1 (download_and_install_outcome e du script w2 Hn Hv' He Hl2)
                H)).
Qed.

(** With both requests served and a readable ledger the install goes
    through and replaces the entry of [foo]. *)
Example install_succeeds :
  fst (install_package_remote with_download default_client "foo" JNull ledger_foo)
    = Ok true /\
  installed (snd (install_package_remote with_download default_client "foo"
                    JNull ledger_foo))
    = Holds (JArr [JObj (stamped with_download foo_2)]).
Proof. split; reflexivity. Qed.

(** The failures, each at a concrete input: no server, no download, a
    ledger that cannot be read once the download has been granted, and
    the last one again as an install that did not return [True]. *)
Lemma install_failure_leaves_ledger_witness :
  (fst (install_package_remote offline default_client "foo" JNull ledger_foo)
     = Ok false /\
   same_ledger ledger_foo
     (snd (install_package_remote offline default_client "foo" JNull
             ledger_foo))) /\
  (fst (install_package_remote no_download default_client "foo" JNull ledger_foo)
     = Ok false /\
   same_ledger ledger_foo
     (snd (install_package_remote no_download default_client "foo" JNull
             ledger_foo))) /\
  (fst (install_package_remote with_download default_client "foo" JNull
          broken_ledger) = Ok false /\
   same_ledger broken_ledger
     (snd (install_package_remote with_download default_client "foo" JNull
             broken_ledger))) /\
  same_ledger broken_ledger
    (snd (install_package_remote with_download default_client "foo" JNull
            broken_ledger)).
Proof.
  split; [|split; [|split]].
  - apply (proj1 (install_failure_leaves_ledger offline default_client
                    "foo" JNull ledger_foo)
             {| url_base := JStr "https://api.artstudia.com";
                url_path := "/api/packages/info" |});
      reflexivity.
  - apply (proj1 (proj2 (proj2
             (install_failure_leaves_ledger no_download default_client
                "foo" JNull ledger_foo)))
             (JObj foo_2)
             (snd (get_package_info_remote no_download default_client "foo"
                     JNull ledger_foo))
             (JStr "2.0")
             {| url_base := JStr "https://api.artstudia.com";
                url_path := "/api/packages/download" |});
      reflexivity.
  - apply (proj1 (proj2 (proj2 (proj2
             (install_failure_leaves_ledger with_download default_client
                "foo" JNull broken_ledger))))
             (JObj foo_2)
             (snd (get_package_info_remote with_download default_client "foo"
                     JNull broken_ledger))
             (JStr "2.0")
             (JObj [("success", JBool true);
                    ("download_url", JStr "https://api.artstudia.com/foo.zip")])
             (snd (make_request with_download default_client
                     "/api/packages/download" (download_data "foo" (JStr "2.0"))
                     (snd (get_package_info_remote with_download default_client
                             "foo" JNull broken_ledger))))
             JSONDecodeError);
      reflexivity.
  - apply (proj2 (proj2 (proj2 (proj2
             (install_failure_leaves_ledger with_download default_client
                "foo" JNull broken_ledger)))));
      [reflexivity | reflexivity | discriminate].
Defined.

(** Without the proviso on the text, a failed install does touch the
    ledger: the record with the surrogate is refused halfway through the
    write, the call returns [False], and the ledger file is left cut
    off. *)
Example surrogate_record_cuts_the_ledger :
  fst (install_package_remote odd_download default_client "foo" JNull
         ledger_foo) = Ok false /\
  installed (snd (install_package_remote odd_download default_client "foo"
                    JNull ledger_foo)) = Garbled.
Proof. vm_compute. split; reflexivity. Qed.

(** ** The timeout of the requests *)

Lemma timed_silent {A} (m : M A) :
  (forall w, posted (snd (m w)) = posted w) -> timed m.
Proof.
  intros H w. exists []. rewrite app_nil_r. auto.
Qed.

Lemma timed_ret {A} (a : A) : timed (ret a).
Proof. now apply timed_silent. Qed.

Lemma timed_lift {A} (r : result A) : timed (lift r).
Proof. now apply timed_silent. Qed.

Lemma timed_raise {A} (ex : exn) : timed (@raise A ex).
Proof. now apply timed_silent. Qed.

Lemma timed_file_exists (p : path) : timed (file_exists p).
Proof. now apply timed_silent. Qed.

Lemma timed_json_load (p : path) : timed (json_load p).
Proof.
  apply timed_silent. intros w. unfold json_load.
  now destruct (read_file p w).
Qed.

Lemma timed_json_dump (p : path) (j : json) : timed (json_dump p j).
Proof. apply timed_silent. intros w. now destruct p. Qed.

Lemma timed_json_dump_utf8 (p : path) (j : json) : timed (json_dump_utf8 p j).
Proof.
  apply timed_silent. intros w. unfold json_dump_utf8.
  now destruct (encodable j), p.
Qed.

Lemma timed_bind {A B} (m : M A) (k : A -> M B) :
  timed m -> (forall a, timed (k a)) -> timed (bind m k).
Proof.
  intros Hm Hk w. unfold bind. destruct (Hm w) as (rs & Hrs & Hall).
  destruct (m w) as [[a|ex] w']; simpl in *; [|eauto].
  destruct (Hk a w') as (rs' & Hrs' & Hall').
  exists (rs ++ rs'). split.
  - now rewrite Hrs', Hrs, app_assoc.
  - apply Forall_app. auto.
Qed.

Lemma timed_try_except {A} (m : M A) (h : exn -> M A) :
  timed m -> (forall ex, timed (h ex)) -> timed (try_except m h).
Proof.
  intros Hm Hh w. unfold try_except. destruct (Hm w) as (rs & Hrs & Hall).
  destruct (m w) as [[a|ex] w']; simpl in *; [eauto|].
  destruct (Hh ex w') as (rs' & Hrs' & Hall').
  exists (rs ++ rs'). split.
  - now rewrite Hrs', Hrs, app_assoc.
  - apply Forall_app. auto.
Qed.

Lemma timed_post (e : env) (r : request) :
  req_timeout r = 30 -> timed (post e r).
Proof.
  intros H w. exists [r]. split; [reflexivity|]. now constructor.
Qed.

Create HintDb timing.
#[local] Hint Resolve timed_ret timed_lift timed_raise timed_file_exists
  timed_json_load timed_json_dump timed_json_dump_utf8 : timing.

(** Walks through a command made of binds, handlers and tests. *)
Ltac timing :=
  repeat first
    [ solve [auto with timing]
    | apply timed_bind; [|intros ?]
    | apply timed_try_except; [|intros ?]
    | match goal with
      | |- timed (if ?b then _ else _) => destruct b
      | |- timed (match ?x with _ => _ end) => destruct x
      end ].

Lemma timed_make_request (e : env) (self : ASMPClient) (endpoint : string)
    (data : list (string * json)) :
  timed (make_request e self endpoint data).
Proof.
  unfold make_request. timing. now apply timed_post.
Qed.

Lemma timed_search_local (query : string) : timed (search_local query).
Proof. unfold search_local. timing. Qed.

Lemma timed_update_local_cache (e : env) (pkgs : json) :
  timed (update_local_cache e pkgs).
Proof. unfold update_local_cache. timing. Qed.

Lemma timed_get_installed_packages : timed get_installed_packages.
Proof. unfold get_installed_packages. timing. Qed.

#[local] Hint Resolve timed_make_request timed_search_local
  timed_update_local_cache timed_get_installed_packages : timing.

Lemma timed_search_remote (e : env) (self : ASMPClient) (query : string) :
  timed (search_remote e self query).
Proof. unfold search_remote. timing. Qed.

Lemma timed_get_package_info_remote (e : env) (self : ASMPClient)
    (package_name : string) (version : json) :
  timed (get_package_info_remote e self package_name version).
Proof. unfold get_package_info_remote. timing. Qed.

Lemma timed_save_installed_package (e : env) (package_info : json) :
  timed (save_installed_package e package_info).
Proof. unfold save_installed_package. timing. Qed.

#[local] Hint Resolve timed_get_package_info_remote
  timed_save_installed_package : timing.

Lemma timed_install_package_remote (e : env) (self : ASMPClient)
    (package_name : string) (version : json) :
  timed (install_package_remote e self package_name version).
Proof.
  unfold install_package_remote, download_and_install, download_steps. timing.
Qed.

Lemma timed_server_status (e : env) (self : ASMPClient) :
  timed (server_status e self).
Proof. unfold server_status. timing. Qed.

Lemma timed_init (e : env) (base : json) : timed (__init__ e base).
Proof. unfold __init__, init_config. timing. Qed.

(** C4, as the code has it.  Every request of the client is posted with
    a timeout of 30 seconds, whatever the configuration file holds: no
    method reads its [timeout].  The configuration files that the client
    writes itself, on a first run and on [set-server], carry that same
    value 30. *)
Theorem requests_time_out_after_30 (e : env) (self : ASMPClient) :
  (forall endpoint data, timed (make_request e self endpoint data)) /\
  (forall query, timed (search_remote e self query)) /\
  (forall package_name version,
     timed (get_package_info_remote e self package_name version)) /\
  (forall package_name version,
     timed (install_package_remote e self package_name version)) /\
  timed (server_status e self) /\
  (forall query, timed (main_search e query)) /\
  (forall w, config w = Missing ->
     configured_timeout (snd (init_config e self w)) = Some (JInt 30)) /\
  (forall new_url w,
     configured_timeout (snd (update_server_url new_url w)) = Some (JInt 30)).
Proof.
  repeat match goal with |- _ /\ _ => split end.
  - intros. apply timed_make_request.
  - intros. apply timed_search_remote.
  - intros. apply timed_get_package_info_remote.
  - intros. apply timed_install_package_remote.
  - apply timed_server_status.
  - intros. unfold main_search. apply timed_bind; [apply timed_init|].
    intros. apply timed_search_remote.
  - intros w Hc. unfold init_config. run. rewrite Hc. simpl.
    destruct (packages w), (installed w); reflexivity.
  - reflexivity.
Qed.

(** C4, as the claim states it, fails on [patient_config], whose
    configuration file sets 60 seconds: the request of a search still
    carries 30. *)
Lemma timeout_ignores_configuration :
  let w := snd (main_search offline "gui" patient_config) in
  configured_timeout w = Some (JInt 60) /\
  map req_timeout (posted w) = [30] /\
  ~ Forall (fun r => configured_timeout w = Some (JInt (req_timeout r)))
      (posted w).
Proof.
  cbv zeta. split; [reflexivity|]. split; [reflexivity|].
  intros H. vm_compute in H.
  inversion H as [|r l Hr Hl]. discriminate Hr.
Qed.

Lemma requests_time_out_after_30_witness :
  configured_timeout (snd (init_config offline default_client fresh_world)) =
    Some (JInt 30) /\
  timed (main_search offline "gui").
Proof.
  destruct (requests_time_out_after_30 offline default_client)
    as (_ & _ & _ & _ & _ & Hsearch & Hinit & _).
  split; [exact (Hinit fresh_world eq_refl) | exact (Hsearch "gui")].
Defined.

(** * Further properties of the client *)

(** ** Frames: what a command leaves alone *)

Section Frames.
Variable R : world -> world -> Prop.
Hypothesis R_refl : forall w, R w w.
Hypothesis R_trans : forall a b c, R a b -> R b c -> R a c.

Lemma keeps_ret {A} (a : A) : keeps R (ret a).
Proof. intros w. apply R_refl. Qed.

Lemma keeps_lift {A} (r : result A) : keeps R (lift r).
Proof. intros w. apply R_refl. Qed.

Lemma keeps_raise {A} (ex : exn) : keeps R (@raise A ex).
Proof. intros w. apply R_refl. Qed.

Lemma keeps_file_exists (p : path) : keeps R (file_exists p).
Proof. intros w. apply R_refl. Qed.

Lemma keeps_json_load (p : path) : keeps R (json_load p).
Proof.
  intros w. unfold json_load. destruct (read_file p w); apply R_refl.
Qed.

Lemma keeps_bind {A B} (m : M A) (k : A -> M B) :
  keeps R m -> (forall a, keeps R (k a)) -> keeps R (bind m k).
Proof.
  intros Hm Hk w. unfold bind. specialize (Hm w).
  destruct (m w) as [[a|ex] w']; simpl in *; [|assumption].
  exact (R_trans _ _ _ Hm (Hk a w')).
Qed.

Lemma keeps_try_except {A} (m : M A) (h : exn -> M A) :
  keeps R m -> (forall ex, keeps R (h ex)) -> keeps R (try_except m h).
Proof.
  intros Hm Hh w. unfold try_except. specialize (Hm w).
  destruct (m w) as [[a|ex] w']; simpl in *; [assumption|].
  exact (R_trans _ _ _ Hm (Hh ex w')).
Qed.
End Frames.

Lemma keeps_weaken (R R' : world -> world -> Prop) {A} (m : M A) :
  (forall w w', R w w' -> R' w w') -> keeps R m -> keeps R' m.
Proof. intros H Hm w. apply H, Hm. Qed.

Lemma same_file_refl (p : path) (w : world) : same_file p w w.
Proof. reflexivity. Qed.

Lemma same_file_trans (p : path) (a b c : world) :
  same_file p a b -> same_file p b c -> same_file p a c.
Proof. unfold same_file. congruence. Qed.

Lemma kept_refl (p : path) (w : world) : kept p w w.
Proof. intros _. reflexivity. Qed.

Lemma kept_trans (p : path) (a b c : world) :
  kept p a b -> kept p b c -> kept p a c.
Proof.
  unfold kept. intros Hab Hbc Ha.
  rewrite <- (Hab Ha). apply Hbc. rewrite (Hab Ha). exact Ha.
Qed.

Lemma same_file_kept (p : path) (w w' : world) :
  same_file p w w' -> kept p w w'.
Proof. intros H _. exact H. Qed.

Lemma no_post_refl (w : world) : no_post w w.
Proof. reflexivity. Qed.

Lemma no_post_trans (a b c : world) :
  no_post a b -> no_post b c -> no_post a c.
Proof. unfold no_post. congruence. Qed.

Lemma same_file_post (p : path) (e : env) (r : request) :
  keeps (same_file p) (post e r).
Proof. intros w. now destruct p. Qed.

Lemma same_file_json_dump (p q : path) (j : json) :
  p <> q -> keeps (same_file p) (json_dump q j).
Proof. intros H w. destruct p, q; try reflexivity; congruence. Qed.

Lemma no_post_json_dump (q : path) (j : json) : keeps no_post (json_dump q j).
Proof. intros w. now destruct q. Qed.

Lemma same_file_json_dump_utf8 (p q : path) (j : json) :
  p <> q -> keeps (same_file p) (json_dump_utf8 q j).
Proof.
  intros H w. unfold json_dump_utf8.
  destruct (encodable j), p, q; try reflexivity; congruence.
Qed.

Lemma no_post_json_dump_utf8 (q : path) (j : json) :
  keeps no_post (json_dump_utf8 q j).
Proof. intros w. unfold json_dump_utf8. now destruct (encodable j), q. Qed.

(** Walks through a command for a reflexive and transitive frame. *)
Ltac framing refl trans :=
  repeat first
    [ apply (keeps_ret _ refl)
    | apply (keeps_lift _ refl)
    | apply (keeps_raise _ refl)
    | apply (keeps_file_exists _ refl)
    | apply (keeps_json_load _ refl)
    | apply same_file_post
    | apply same_file_json_dump; first [discriminate | assumption]
    | apply no_post_json_dump
    | apply same_file_json_dump_utf8; first [discriminate | assumption]
    | apply no_post_json_dump_utf8
    | assumption
    | apply (keeps_bind _ trans); [|intros ?]
    | apply (keeps_try_except _ trans); [|intros ?]
    | match goal with
      | |- keeps _ (if ?b then _ else _) => destruct b
      | |- keeps _ (match ?x with _ => _ end) => destruct x
      end ].

Ltac same_file_frame p :=
  framing (same_file_refl p) (same_file_trans p).

Ltac no_post_frame :=
  framing no_post_refl no_post_trans.

Lemma same_file_make_request (p : path) (e : env) (self : ASMPClient)
    (endpoint : string) (data : list (string * json)) :
  keeps (same_file p) (make_request e self endpoint data).
Proof. unfold make_request. same_file_frame p. Qed.

Lemma same_file_search_local (p : path) (query : string) :
  keeps (same_file p) (search_local query).
Proof. unfold search_local. same_file_frame p. Qed.

Lemma same_file_get_installed_packages (p : path) :
  keeps (same_file p) get_installed_packages.
Proof. unfold get_installed_packages. same_file_frame p. Qed.

Lemma same_file_update_local_cache (p : path) (e : env) (pkgs : json) :
  p <> packages_file -> keeps (same_file p) (update_local_cache e pkgs).
Proof.
  intros Hp. unfold update_local_cache. same_file_frame p.
Qed.

Lemma same_file_search_remote (p : path) (e : env) (self : ASMPClient)
    (query : string) :
  p <> packages_file -> keeps (same_file p) (search_remote e self query).
Proof.
  intros Hp. unfold search_remote.
  same_file_frame p.
Qed.

Lemma same_file_get_package_info_remote (p : path) (e : env)
    (self : ASMPClient) (package_name : string) (version : json) :
  keeps (same_file p) (get_package_info_remote e self package_name version).
Proof.
  unfold get_package_info_remote.
  same_file_frame p.
Qed.

Lemma same_file_server_status (p : path) (e : env) (self : ASMPClient) :
  keeps (same_file p) (server_status e self).
Proof.
  unfold server_status.
  same_file_frame p.
Qed.

Lemma same_file_save_installed_package (p : path) (e : env)
    (package_info : json) :
  p <> installed_file ->
  keeps (same_file p) (save_installed_package e package_info).
Proof.
  intros Hp. unfold save_installed_package.
  same_file_frame p.
Qed.

Lemma same_file_install_package_remote (p : path) (e : env)
    (self : ASMPClient) (package_name : string) (version : json) :
  p <> installed_file ->
  keeps (same_file p) (install_package_remote e self package_name version).
Proof.
  intros Hp.
  unfold install_package_remote, download_and_install, download_steps.
  same_file_frame p.
Qed.

Lemma same_file_uninstall (p : path) (package_name : string) :
  p <> installed_file -> keeps (same_file p) (uninstall package_name).
Proof.
  intros Hp. unfold uninstall.
  same_file_frame p.
Qed.

Lemma same_file_update_server_url (p : path) (new_url : string) :
  p <> config_file -> keeps (same_file p) (update_server_url new_url).
Proof.
  intros Hp. unfold update_server_url. same_file_frame p.
Qed.

Lemma same_file_show_config (p : path) : keeps (same_file p) show_config.
Proof. unfold show_config. same_file_frame p. Qed.

(** [init_config], file by file. *)
Lemma init_config_run (e : env) (self : ASMPClient) (w : world) :
  init_config e self w =
    match config w with
    | Missing =>
        (Ok self,
         seeded e (write_file config_file (default_config (base_url self)) w))
    | Garbled => (Raise JSONDecodeError, w)
    | Holds j =>
        match dict_get j "server_url" (base_url self) with
        | Ok server_url => (Ok {| base_url := server_url |}, seeded e w)
        | Raise ex => (Raise ex, w)
        end
    end.
Proof.
  unfold init_config, seeded. run.
  destruct (config w) as [| |j] eqn:Hc; repeat (rewrite ?Hc; simpl);
    try reflexivity.
  - destruct (packages w) eqn:Hp; simpl; destruct (installed w) eqn:Hi;
      simpl; rewrite ?Hc, ?Hp, ?Hi; reflexivity.
  - destruct (dict_get j "server_url" (base_url self)); simpl;
      [|reflexivity].
    destruct (packages w) eqn:Hp; simpl; destruct (installed w) eqn:Hi;
      simpl; rewrite ?Hc, ?Hp, ?Hi; reflexivity.
Qed.

Lemma kept_seeded (p : path) (e : env) (w : world) : kept p w (seeded e w).
Proof.
  unfold kept, seeded.
  destruct p; simpl;
    destruct (packages w) eqn:Hp; simpl;
    destruct (installed w) eqn:Hi; simpl; rewrite ?Hp, ?Hi; congruence.
Qed.

(** [init_config] creates the files that are missing and never rewrites
    one that is there. *)
Lemma kept_init_config (p : path) (e : env) (self : ASMPClient) :
  keeps (kept p) (init_config e self).
Proof.
  intros w. rewrite init_config_run.
  destruct (config w) as [| |j] eqn:Hc; simpl.
  - apply (kept_trans p _ (write_file config_file
                             (default_config (base_url self)) w));
      [|apply kept_seeded].
    unfold kept. destruct p; simpl; congruence.
  - apply kept_refl.
  - destruct (dict_get j "server_url" (base_url self)); simpl;
      [apply kept_seeded | apply kept_refl].
Qed.

(** X1. Whatever the subcommand and whatever the server answers, [main]
    changes at most one of the files that exist: [search] the cache,
    [install] and [uninstall] the ledger, [set-server] the configuration.
    Every other existing file holds afterwards what it held, also when
    the command raises. *)
Theorem command_changes_one_file (e : env) (cmd : command) (p : path)
    (w : world) :
  writes_to cmd <> Some p ->
  read_file p w <> Missing ->
  read_file p (snd (main e (Some cmd) w)) = read_file p w.
Proof.
  intros Hcmd. change (kept p w (snd (main e (Some cmd) w))).
  revert w. change (keeps (kept p) (main e (Some cmd))).
  unfold main, __init__.
  apply (keeps_bind _ (kept_trans p)); [apply kept_init_config|].
  intros asmp. apply (keeps_weaken (same_file p)); [apply same_file_kept|].
  destruct cmd; simpl in Hcmd.
  - apply (keeps_bind _ (same_file_trans p)).
    + apply same_file_install_package_remote. congruence.
    + intros. apply (keeps_ret _ (same_file_refl p)).
  - apply (keeps_bind _ (same_file_trans p)).
    + apply same_file_uninstall. congruence.
    + intros. apply (keeps_ret _ (same_file_refl p)).
  - apply (keeps_bind _ (same_file_trans p)).
    + apply same_file_search_remote. congruence.
    + intros. apply (keeps_lift _ (same_file_refl p)).
  - apply (keeps_bind _ (same_file_trans p)).
    + apply same_file_get_installed_packages.
    + intros. apply (keeps_lift _ (same_file_refl p)).
  - apply (keeps_bind _ (same_file_trans p)).
    + apply same_file_get_package_info_remote.
    + intros a. destruct (truthy a).
      * apply (keeps_lift _ (same_file_refl p)).
      * apply (keeps_ret _ (same_file_refl p)).
  - apply (keeps_bind _ (same_file_trans p)).
    + apply same_file_server_status.
    + intros. apply (keeps_ret _ (same_file_refl p)).
  - apply same_file_show_config.
  - apply (keeps_bind _ (same_file_trans p)).
    + apply same_file_update_server_url. congruence.
    + intros. apply (keeps_ret _ (same_file_refl p)).
  - apply (keeps_ret _ (same_file_refl p)).
Qed.

(** ** The configuration file *)

(** X2. A configuration file that is there but is not a JSON object
    stops every subcommand, [set-server] included: [main] raises while it
    builds the client, before the branch of the subcommand runs, and
    nothing is written or posted. *)
Theorem broken_config_stops_every_command (e : env) (cmd : command)
    (w : world) (ex : exn) :
  config_error (config w) = Some ex ->
  main e (Some cmd) w = (Raise ex, w).
Proof.
  intros H. unfold main, __init__, bind. rewrite init_config_run.
  destruct (config w) as [| |[| | | | |o]]; simpl in H; try discriminate;
    injection H as <-; reflexivity.
Qed.

(** X3. The server URL that [update_server_url] writes is the one the
    next client starts with, whatever default that client is built with;
    and so is the URL that a first run writes. *)
Theorem server_url_is_read_back (e e' : env) (self self' : ASMPClient)
    (new_url : string) (w : world) :
  fst (init_config e' self' (snd (update_server_url new_url w)))
    = Ok {| base_url := JStr new_url |} /\
  (config w = Missing ->
   fst (init_config e' self' (snd (init_config e self w))) = Ok self).
Proof.
  split.
  - rewrite init_config_run. reflexivity.
  - intros Hc. rewrite (init_config_run e self w), Hc. cbn [snd].
    rewrite init_config_run.
    assert (Hcfg : config (seeded e (write_file config_file
                             (default_config (base_url self)) w))
                   = Holds (default_config (base_url self))).
    { unfold seeded. simpl.
      destruct (packages w); simpl; destruct (installed w); reflexivity. }
    rewrite Hcfg. simpl. now destruct self.
Qed.

(** ** More on the merge *)

Lemma put_packages_nameless (d : pydict) (l : list json) (p : json) :
  In p l -> has_name p = false -> exists ex, put_packages d l = Raise ex.
Proof.
  revert d. induction l as [|x l IH]; intros d Hin Hp; [destruct Hin|].
  simpl. rewrite put_package_key.
  destruct (name_key x) as [k|ex] eqn:Hk; simpl; [|eauto].
  destruct Hin as [->|Hin]; [|now apply IH].
  unfold has_name in Hp. rewrite Hk in Hp. discriminate.
Qed.

Lemma merged_nameless_incoming (e : env) (j : json) (l : list json) (p : json) :
  In p l -> has_name p = false -> exists ex, merged e j (JArr l) = Raise ex.
Proof.
  intros Hin Hp. unfold merged.
  destruct (dict_get j "packages" (JArr [])) as [pk|]; simpl; [|eauto].
  destruct (py_iter pk) as [old|]; simpl; [|eauto].
  destruct (put_packages [] old) as [d0|]; simpl; [|eauto].
  destruct (put_packages_nameless d0 l p Hin Hp) as [ex ->]. simpl. eauto.
Qed.

Lemma merged_nameless_cached (e : env) (o : list (string * json))
    (old : list json) (pkgs p : json) :
  field "packages" o = Some (JArr old) ->
  In p old -> has_name p = false ->
  exists ex, merged e (JObj o) pkgs = Raise ex.
Proof.
  intros Hf Hin Hp. unfold merged, dict_get. rewrite Hf. simpl.
  destruct (put_packages_nameless [] old p Hin Hp) as [ex ->]. simpl. eauto.
Qed.

Lemma restamped_encodable (e : env) (o : list (string * json)) (d : pydict) :
  encodable (JObj (restamped e o d)) = true ->
  forallb encodable (assoc_values d) = true.
Proof.
  intros H.
  exact (encodable_field _ "packages" _ H (restamped_packages e o d)).
Qed.

(** X4. [update_local_cache] never raises.  A record without a usable
    name, incoming or cached, stops it before the cache file is opened:
    nothing is written.  A record that UTF-8 refuses stops it after: when
    every record has a name and one that the merge keeps (the last of its
    name among the incoming ones) holds a surrogate, the cache file is
    left cut off, and [search_local] finds nothing in it any more,
    whatever the query. *)
Theorem merge_failures (e : env) (pkgs : json) (w : world) :
  fst (update_local_cache e pkgs w) = Ok tt /\
  (forall l p, pkgs = JArr l -> In p l -> has_name p = false ->
               snd (update_local_cache e pkgs w) = w) /\
  (forall old p, cache_records w = Some old -> In p old ->
                 has_name p = false ->
                 snd (update_local_cache e pkgs w) = w) /\
  (forall old l k p,
     cache_records w = Some old -> pkgs = JArr l ->
     forallb has_name old = true -> forallb has_name l = true ->
     last_named k l = Some p -> encodable p = false ->
     packages (snd (update_local_cache e pkgs w)) = Garbled /\
     forall query,
       fst (search_local query (snd (update_local_cache e pkgs w))) = Ok []).
Proof.
  rewrite update_local_cache_run. simpl. split; [reflexivity|]. split; [|split].
  - intros l p -> Hin Hp. destruct (packages w) as [| |j]; try reflexivity.
    now destruct (merged_nameless_incoming e j l p Hin Hp) as [ex ->].
  - intros old p Hc Hin Hp. unfold cache_records in Hc.
    destruct (packages w) as [| |[| | | | |o]]; try discriminate.
    destruct (field "packages" o) as [[| | | |l|]|] eqn:Hf; try discriminate.
    injection Hc as ->.
    now destruct (merged_nameless_cached e o old pkgs p Hf Hin Hp) as [ex ->].
  - intros old l k p Hc -> Hold Hinc Hlast Hp. unfold cache_records in Hc.
    destruct (packages w) as [| |[| | | | |o]] eqn:Hpk; try discriminate.
    destruct (field "packages" o) as [[| | | |l'|]|] eqn:Hf; try discriminate.
    injection Hc as ->.
    destruct (put_packages_total [] old Hold) as [d0 H0].
    destruct (put_packages_total d0 l Hinc) as [d1 H1].
    rewrite (merged_records e o _ _ _ _ Hf H0 H1).
    assert (He : encodable (JObj (restamped e o d1)) = false).
    { destruct (encodable (JObj (restamped e o d1))) eqn:He; [|reflexivity].
      apply restamped_encodable in He.
      assert (Hin : In p (assoc_values d1)).
      { pose proof (put_packages_get _ _ _ k H1) as Hget.
        rewrite Hlast in Hget.
        apply (assoc_get_In key_eqb key_eqb_eq) in Hget.
        unfold assoc_values. apply in_map_iff. now exists (k, p). }
      rewrite (encodable_In _ p He Hin) in Hp. discriminate. }
    rewrite He. split; [reflexivity|]. intros query.
    unfold search_local. run. reflexivity.
Qed.

Lemma merge_failures_witness :
  packages (snd (update_local_cache offline (JArr [x_odd]) cache_x)) = Garbled.
Proof.
  apply (proj1 (proj2 (proj2 (proj2
           (merge_failures offline (JArr [x_odd]) cache_x)))
           [x_1; y_1] [x_odd] (KStr "x") x_odd
           eq_refl eq_refl eq_refl eq_refl eq_refl eq_refl)).
Defined.

Lemma put_packages_keys (d d' : pydict) (l : list json) :
  put_packages d l = Ok d' ->
  exists ks,
    assoc_keys d' = assoc_keys d ++ ks /\
    forall k, In k ks ->
      ~ In k (assoc_keys d) /\ In (Ok k) (map name_key l).
Proof.
  revert d. induction l as [|p l IH]; intros d H; simpl in H.
  - injection H as <-. exists []. rewrite app_nil_r. split; [reflexivity|].
    intros k [].
  - rewrite put_package_key in H.
    destruct (name_key p) as [kp|] eqn:Hk; [|discriminate]. simpl in H.
    destruct (IH _ H) as (ks & Hks & Hfresh).
    rewrite (assoc_keys_set key_eqb key_eqb_eq) in Hks, Hfresh.
    destruct (existsb (key_eqb kp) (assoc_keys d)) eqn:E.
    + exists ks. split; [assumption|]. intros k Hin.
      destruct (Hfresh k Hin) as [H1 H2]. split; [assumption|].
      simpl. now right.
    + exists (kp :: ks). split.
      * now rewrite Hks, <- app_assoc.
      * intros k [<-|Hin].
        -- split; [|simpl; now left].
           intros Hin. apply (existsb_eqb_In key_eqb key_eqb_eq) in Hin.
           congruence.
        -- destruct (Hfresh k Hin) as [H1 H2]. split.
           ++ intros Hd. apply H1. apply in_or_app. now left.
           ++ simpl. now right.
Qed.

Lemma put_packages_new_names (acc d : pydict) (l : list json) :
  put_packages acc l = Ok d ->
  NoDup (map (@Ok key) (assoc_keys acc) ++ map name_key l) ->
  map (@Ok key) (assoc_keys d) = map (@Ok key) (assoc_keys acc) ++ map name_key l.
Proof.
  revert acc. induction l as [|p l IH]; intros acc H Hnd; simpl in H.
  - injection H as <-. simpl. now rewrite app_nil_r.
  - rewrite put_package_key in H.
    destruct (name_key p) as [k|] eqn:Hk; [|discriminate]. simpl in H.
    simpl in Hnd. rewrite Hk in Hnd.
    assert (Hfresh : ~ In k (assoc_keys acc)).
    { intros Hin. apply NoDup_remove_2 in Hnd. apply Hnd.
      apply in_or_app. left. now apply in_map. }
    rewrite (assoc_set_absent key_eqb key_eqb_eq _ _ _ Hfresh) in H.
    rewrite (IH _ H).
    + unfold assoc_keys. rewrite !map_app. simpl. rewrite Hk.
      now rewrite <- app_assoc.
    + unfold assoc_keys. rewrite !map_app. simpl. rewrite <- app_assoc.
      exact Hnd.
Qed.

Lemma put_packages_appends (d d' : pydict) (l : list json) :
  put_packages d l = Ok d' ->
  assoc_keys d' = assoc_keys d ++ new_names (assoc_keys d) (map key_of l).
Proof.
  revert d. induction l as [|p l IH]; intros d H; simpl in H.
  - injection H as <-. simpl. now rewrite app_nil_r.
  - rewrite put_package_key in H. cbn [map new_names].
    destruct (name_key p) as [k|] eqn:Hk; [|discriminate]. simpl in H.
    replace (key_of p) with k by (unfold key_of; now rewrite Hk).
    rewrite (IH _ H), (assoc_keys_set key_eqb key_eqb_eq).
    destruct (existsb (key_eqb k) (assoc_keys d)).
    + reflexivity.
    + now rewrite <- app_assoc.
Qed.

Lemma named_keys (l : list json) :
  forallb has_name l = true -> map name_key l = map (@Ok key) (map key_of l).
Proof.
  induction l as [|p l IH]; [reflexivity|]. simpl. intros H.
  apply andb_prop in H as [Hp Hl]. rewrite (IH Hl). f_equal.
  unfold has_name in Hp. unfold key_of.
  now destruct (name_key p).
Qed.

Lemma map_Ok_inj (a b : list key) : map (@Ok key) a = map (@Ok key) b -> a = b.
Proof.
  revert b. induction a as [|x a IH]; intros [|y b]; simpl; try discriminate;
    [reflexivity|].
  intros [= -> H]. f_equal. now apply IH.
Qed.

(** X5. A merge of records that UTF-8 encodes keeps the name of every
    cached record at its place in the list, the replaced ones included,
    and appends the names that are new to the cache after all the old
    ones, each once, in the order in which they first come in. *)
Theorem merge_keeps_positions (e : env) (w : world) (old incoming : list json) :
  cache_records w = Some old ->
  forallb has_name old = true ->
  forallb has_name incoming = true ->
  NoDup (map name_key old) ->
  encoded (packages w) = true ->
  forallb encodable incoming = true ->
  exists new,
    cache_records (snd (update_local_cache e (JArr incoming) w)) = Some new /\
    map name_key new =
      map name_key old ++
      map (@Ok key) (new_names (map key_of old) (map key_of incoming)).
Proof.
  unfold cache_records at 1. intros Hc Hold Hinc Hnd Henc Hienc.
  destruct (packages w) as [| |[| | | | |o]] eqn:Hp; try discriminate.
  destruct (field "packages" o) as [[| | | |l|]|] eqn:Hf; try discriminate.
  injection Hc as ->.
  destruct (put_packages_total [] old Hold) as [d0 H0].
  destruct (put_packages_total d0 incoming Hinc) as [d1 H1].
  assert (Hk1 : keyed d1).
  { apply (put_packages_keyed _ _ _ H1), (put_packages_keyed _ _ _ H0).
    intros ? ? []. }
  pose proof (put_packages_new_names [] d0 old H0 Hnd) as Hnames. simpl in Hnames.
  assert (Hk0 : assoc_keys d0 = map key_of old).
  { apply map_Ok_inj. now rewrite Hnames, named_keys. }
  exists (assoc_values d1).
  rewrite (update_local_cache_writes e w o old incoming d0 d1 Hp Hf H0 H1
             Henc Hienc).
  unfold cache_records. simpl. rewrite restamped_packages.
  split; [reflexivity|].
  now rewrite (keyed_names _ Hk1), (put_packages_appends _ _ _ H1), map_app,
    Hnames, Hk0.
Qed.

Lemma merge_keeps_positions_witness :
  exists new,
    cache_records (snd (update_local_cache offline
                          (JArr [JObj [("name", JStr "z")]; x_2;
                                 JObj [("name", JStr "z")]]) cache_x))
      = Some new /\
    map name_key new = [Ok (KStr "x"); Ok (KStr "y"); Ok (KStr "z")].
Proof.
  apply (merge_keeps_positions offline cache_x [x_1; y_1]
           [JObj [("name", JStr "z")]; x_2; JObj [("name", JStr "z")]]);
    try reflexivity.
  repeat constructor; simpl; intuition discriminate.
Defined.

Lemma restamped_stamps (e : env) (o : list (string * json)) (d : pydict) :
  field "last_updated" (restamped e o d) = Some (JInt (now e)) /\
  field "client_version" (restamped e o d) = Some (JStr __version__) /\
  forall k, k <> "packages" -> k <> "last_updated" -> k <> "client_version" ->
            field k (restamped e o d) = field k o.
Proof.
  unfold field, restamped. repeat split.
  - rewrite (assoc_get_set_other String.eqb String.eqb_eq) by discriminate.
    apply (assoc_get_set_same String.eqb String.eqb_eq).
  - apply (assoc_get_set_same String.eqb String.eqb_eq).
  - intros k H1 H2 H3.
    rewrite (assoc_get_set_other String.eqb String.eqb_eq "client_version" k)
      by congruence.
    rewrite (assoc_get_set_other String.eqb String.eqb_eq "last_updated" k)
      by congruence.
    apply (assoc_get_set_other String.eqb String.eqb_eq). congruence.
Qed.

(** X6. A merge of named records that UTF-8 encodes stamps the cache
    file with the clock ([last_updated]) and the version of the client,
    and leaves every other field of the file, apart from [packages], as
    it was. *)
Theorem merge_stamps_the_cache (e : env) (w : world) (old incoming : list json) :
  cache_records w = Some old ->
  forallb has_name old = true ->
  forallb has_name incoming = true ->
  encoded (packages w) = true ->
  forallb encodable incoming = true ->
  let w' := snd (update_local_cache e (JArr incoming) w) in
  cache_field "last_updated" w' = Some (JInt (now e)) /\
  cache_field "client_version" w' = Some (JStr __version__) /\
  forall k, k <> "packages" -> k <> "last_updated" -> k <> "client_version" ->
            cache_field k w' = cache_field k w.
Proof.
  unfold cache_records at 1. intros Hc Hold Hinc Henc Hienc.
  destruct (packages w) as [| |[| | | | |o]] eqn:Hp; try discriminate.
  destruct (field "packages" o) as [[| | | |l|]|] eqn:Hf; try discriminate.
  injection Hc as ->.
  destruct (put_packages_total [] old Hold) as [d0 H0].
  destruct (put_packages_total d0 incoming Hinc) as [d1 H1].
  cbv zeta.
  rewrite (update_local_cache_writes e w o old incoming d0 d1 Hp Hf H0 H1
             Henc Hienc).
  unfold cache_field. simpl. rewrite Hp.
  apply restamped_stamps.
Qed.

Lemma merge_stamps_the_cache_witness :
  cache_field "last_updated"
    (snd (update_local_cache (at_time 1700000000) (JArr [x_2]) cache_x))
    = Some (JInt 1700000000).
Proof.
  exact (proj1 (merge_stamps_the_cache (at_time 1700000000) cache_x
                  [x_1; y_1] [x_2] eq_refl eq_refl eq_refl eq_refl eq_refl)).
Defined.

(** ** More on the search *)

Lemma search_local_records (query : string) (w : world) (l : list json) :
  cache_records w = Some l ->
  search_local query w =
    (match filter_r (matches query) l with
     | Ok found => Ok found
     | Raise _ => Ok []
     end, w).
Proof.
  unfold cache_records. intros Hc.
  destruct (packages w) as [| |[| | | | |o]] eqn:Hp; try discriminate.
  destruct (field "packages" o) as [[| | | |l'|]|] eqn:Hf; try discriminate.
  injection Hc as ->.
  unfold search_local. run. rewrite Hp. simpl. rewrite Hf. simpl.
  now destruct (filter_r (matches query) l).
Qed.

Lemma filter_r_raises (test : json -> result bool) (l : list json)
    (p : json) (ex : exn) :
  In p l -> test p = Raise ex -> exists ex', filter_r test l = Raise ex'.
Proof.
  induction l as [|x l IH]; intros Hin Hp; [destruct Hin|]. simpl.
  destruct (test x) as [b|ex0] eqn:Hx; simpl; [|eauto].
  destruct Hin as [->|Hin]; [congruence|].
  destruct (IH Hin Hp) as [ex' ->]. simpl. eauto.
Qed.

Lemma matches_nameless (query : string) (p : json) :
  name_of p = None -> exists ex, matches query p = Raise ex.
Proof.
  unfold name_of, matches, subscript.
  destruct p as [| | | | |o]; simpl; eauto.
  destruct (field "name" o) as [[| | |n| |]|]; simpl; eauto. discriminate.
Qed.

(** X7. One cached record without a string name hides the whole cache
    from the local search: whatever the query, and whatever the other
    records are, [search_local] returns the empty list. *)
Theorem nameless_record_hides_the_cache (query : string) (w : world)
    (l : list json) (p : json) :
  cache_records w = Some l ->
  In p l ->
  name_of p = None ->
  search_local query w = (Ok [], w).
Proof.
  intros Hc Hin Hp. rewrite (search_local_records query w l Hc).
  destruct (matches_nameless query p Hp) as [ex Hex].
  now destruct (filter_r_raises (matches query) l p ex Hin Hex) as [ex' ->].
Qed.

Lemma nameless_record_hides_the_cache_witness :
  search_local "artutils" cache_with_nameless = (Ok [], cache_with_nameless).
Proof.
  apply (nameless_record_hides_the_cache "artutils" cache_with_nameless
           [artutils; JObj [("version", JStr "1.0")]]
           (JObj [("version", JStr "1.0")]));
    [reflexivity | right; left; reflexivity | reflexivity].
Defined.

Lemma str_in_empty (s : string) : str_in "" s = true.
Proof. now destruct s. Qed.

Lemma filter_all {A} (f : A -> bool) (l : list A) :
  (forall x, In x l -> f x = true) -> filter f l = l.
Proof.
  induction l as [|x l IH]; intros H; simpl; [reflexivity|].
  rewrite (H x (or_introl eq_refl)), IH; [reflexivity|].
  intros y Hy. apply H. now right.
Qed.

Lemma record_hit_empty (p : json) : well_formed p = true -> record_hit "" p = true.
Proof.
  unfold well_formed, record_hit, hit.
  destruct (name_of p), (description_of p), (tags_of p); try discriminate.
  intros _. simpl. now rewrite str_in_empty.
Qed.

(** X8. The empty query matches everything: on a cache of well-formed
    records [search_local] returns the whole list, in its order. *)
Theorem empty_query_lists_the_cache (w : world) (l : list json) :
  cache_records w = Some l ->
  forallb well_formed l = true ->
  search_local "" w = (Ok l, w).
Proof.
  intros Hc Hwf. rewrite (search_local_records "" w l Hc).
  rewrite forallb_forall in Hwf.
  rewrite (filter_r_pure (matches "") (record_hit ""))
    by (intros x Hx; apply matches_well_formed; now apply Hwf).
  rewrite filter_all; [reflexivity|].
  intros x Hx. apply record_hit_empty. now apply Hwf.
Qed.

Lemma empty_query_lists_the_cache_witness :
  search_local "" example_cache =
    (Ok [JObj [("name", JStr "artutils"); ("tags", JArr [JStr "helpers"])];
         JObj [("name", JStr "other")]],
     example_cache).
Proof.
  exact (empty_query_lists_the_cache example_cache _ eq_refl eq_refl).
Defined.

Lemma filter_r_ext (f g : json -> result bool) (l : list json) :
  (forall x, f x = g x) -> filter_r f l = filter_r g l.
Proof.
  intros H. induction l as [|x l IH]; simpl; [reflexivity|].
  now rewrite H, IH.
Qed.

(** X9. The local search does not see the case of the query: two
    queries with the same lowercase form, and so a query and its own
    lowercase form, give the same answer on every cache file, readable or
    not. *)
Theorem search_local_ignores_case (q1 q2 : string) (w : world) :
  (lower q1 = lower q2 -> search_local q1 w = search_local q2 w) /\
  search_local (lower q1) w = search_local q1 w.
Proof.
  assert (H : forall a b, lower a = lower b ->
                          search_local a w = search_local b w).
  { intros a b Hab. unfold search_local, try_except, bind, lift.
    destruct (json_load packages_file w) as [[j|ex] w']; [|reflexivity].
    destruct (dict_get j "packages" (JArr [])) as [pk|]; [|reflexivity].
    destruct (py_iter pk) as [l|]; [|reflexivity].
    rewrite (filter_r_ext (matches a) (matches b)); [reflexivity|].
    intros x. unfold matches. now rewrite Hab. }
  split; [apply H|]. apply H, lower_idempotent.
Qed.

Lemma search_local_ignores_case_witness :
  search_local "ПРИВЕТ" cache_abroad = search_local "Привет" cache_abroad.
Proof.
  exact (proj1 (search_local_ignores_case "ПРИВЕТ" "Привет" cache_abroad)
           eq_refl).
Defined.

Lemma received_success (answer : result json) (o : list (string * json))
    (s : json) :
  answer = Ok (JObj o) -> field "success" o = Some s -> truthy s = true ->
  received answer = Ok (JObj o) /\ succeeded (JObj o) = Ok true.
Proof.
  intros -> Hf Hs. split; [reflexivity|].
  unfold succeeded, dict_get. rewrite Hf.
  assert (Ht : truthy (JObj o) = true).
  { destruct o; [discriminate Hf | reflexivity]. }
  rewrite Ht. simpl. now rewrite Hs.
Qed.

(** X10. When the server answers an object with a true [success],
    [search_remote] returns what stands under [packages] in the answer
    (the empty list when nothing does), as it is: it does not filter it by
    the query, and it returns it whether or not the cache could take the
    merge.  The state afterwards is that of [update_local_cache]. *)
Theorem search_returns_the_server_list (e : env) (self : ASMPClient)
    (query : string) (w : world) (u : url) (o : list (string * json))
    (s : json) :
  urljoin (base_url self) "/api/packages/search" = Ok u ->
  net e (request_of e u (search_data query)) = Ok (JObj o) ->
  field "success" o = Some s ->
  truthy s = true ->
  let pkgs := match field "packages" o with
              | Some v => v
              | None => JArr []
              end in
  search_remote e self query w =
    (Ok pkgs,
     snd (update_local_cache e pkgs
            (record_post (request_of e u (search_data query)) w))).
Proof.
  intros Hu Hnet Hf Hs. cbv zeta.
  destruct (received_success _ o s Hnet Hf Hs) as [Hr Hok].
  unfold search_remote. unfold bind at 1.
  rewrite (make_request_run e self _ (search_data query) u w Hu), Hr.
  unfold bind at 1. unfold lift at 1. rewrite Hok.
  unfold bind at 1. unfold lift at 1. unfold dict_get.
  set (pkgs := match field "packages" o with Some v => v | None => JArr [] end).
  replace (match field "packages" o with
           | Some x => Ok x
           | None => Ok (JArr [])
           end) with (Ok pkgs) by (unfold pkgs; now destruct (field "packages" o)).
  unfold bind, ret. rewrite update_local_cache_run. reflexivity.
Qed.

Lemma put_packages_get_In (d d' : pydict) (l : list json) (k : key) (p : json) :
  put_packages d l = Ok d' -> last_named k l = Some p -> In p (assoc_values d').
Proof.
  intros H Hl.
  assert (Hget : assoc_get key_eqb k d' = Some p)
    by now rewrite (put_packages_get _ _ _ k H), Hl.
  apply (assoc_get_In key_eqb key_eqb_eq) in Hget.
  unfold assoc_values. apply in_map_iff. now exists (k, p).
Qed.

Lemma well_formed_has_name (p : json) : well_formed p = true -> has_name p = true.
Proof.
  unfold well_formed, has_name, name_of, name_key, subscript.
  destruct p as [| | | | |o]; try discriminate.
  destruct (field "name" o) as [[| | |n| |]|]; try discriminate. reflexivity.
Qed.

Lemma forallb_impl {A} (f g : A -> bool) (l : list A) :
  (forall x, f x = true -> g x = true) ->
  forallb f l = true -> forallb g l = true.
Proof.
  intros H. rewrite !forallb_forall. auto.
Qed.

(** X11. What a merge has taken is found offline: after
    [update_local_cache] on well-formed records that UTF-8 encodes,
    [search_local] returns every incoming record that the query hits,
    provided it is the last incoming record of its name. *)
Theorem merged_records_are_found (e : env) (w : world)
    (old incoming : list json) (query : string) (p : json) (k : key) :
  cache_records w = Some old ->
  forallb well_formed old = true ->
  forallb well_formed incoming = true ->
  encoded (packages w) = true ->
  forallb encodable incoming = true ->
  last_named k incoming = Some p ->
  record_hit query p = true ->
  exists found,
    fst (search_local query
           (snd (update_local_cache e (JArr incoming) w))) = Ok found /\
    In p found.
Proof.
  unfold cache_records at 1. intros Hc Hold Hinc Henc Hienc Hlast Hhit.
  destruct (packages w) as [| |[| | | | |o]] eqn:Hp; try discriminate.
  destruct (field "packages" o) as [[| | | |l|]|] eqn:Hf; try discriminate.
  injection Hc as ->.
  destruct (put_packages_total [] old
              (forallb_impl _ _ _ well_formed_has_name Hold)) as [d0 H0].
  destruct (put_packages_total d0 incoming
              (forallb_impl _ _ _ well_formed_has_name Hinc)) as [d1 H1].
  assert (Hcache : cache_records (snd (update_local_cache e (JArr incoming) w))
                   = Some (assoc_values d1)).
  { rewrite (update_local_cache_writes e w o old incoming d0 d1 Hp Hf H0 H1
               Henc Hienc).
    unfold cache_records. simpl. now rewrite restamped_packages. }
  assert (Hwf : forall x, In x (assoc_values d1) -> well_formed x = true).
  { intros x Hx. unfold assoc_values in Hx.
    apply in_map_iff in Hx as ([k' v] & <- & Hin). simpl.
    rewrite forallb_forall in Hold, Hinc.
    destruct (put_packages_In _ _ _ _ _ H1 Hin) as [Hd|Hl]; [|now apply Hinc].
    destruct (put_packages_In _ _ _ _ _ H0 Hd) as [[]|Hl]. now apply Hold. }
  rewrite (search_local_records query _ _ Hcache).
  rewrite (filter_r_pure (matches query) (record_hit query))
    by (intros x Hx; apply matches_well_formed; now apply Hwf).
  eexists. split; [reflexivity|].
  apply filter_In. split; [|assumption].
  exact (put_packages_get_In _ _ _ k p H1 Hlast).
Qed.

(** ** More on the ledger *)

Lemma uninstall_run (w : world) (name : string) (entries : list json) :
  installed_entries w = Some entries ->
  forallb has_name_field entries = true ->
  uninstall name w =
    if existsb (is_named name) entries
    then (Ok true,
          write_file installed_file
            (JArr (filter (fun p => negb (is_named name p)) entries)) w)
    else (Ok false, w).
Proof.
  intros He Hwf.
  assert (Hread : get_installed_packages w = (Ok (JArr entries), w)).
  { unfold installed_entries in He.
    destruct (installed w) as [| |[| | | |l|]] eqn:Hi; try discriminate;
      injection He as <-.
    - now apply get_installed_packages_missing.
    - now apply get_installed_packages_holds. }
  destruct (first_named_run name entries Hwf) as (p & Hp & Ht).
  unfold uninstall. unfold bind at 1. rewrite Hread.
  unfold bind, lift, ret, json_dump. simpl. rewrite Hp, Ht.
  destruct (existsb (is_named name) entries); simpl; [|reflexivity].
  rewrite (filter_r_pure (not_named name) (fun p => negb (is_named name p)));
    [reflexivity|].
  intros q Hq. apply not_named_pure.
  rewrite forallb_forall in Hwf. now apply Hwf.
Qed.

Lemma has_entry_name_field (p : json) :
  has_entry_name p = true -> has_name_field p = true.
Proof.
  unfold has_entry_name, entry_name, has_name_field.
  now destruct (subscript p "name").
Qed.

Lemma is_named_entry_name (n : string) (p : json) :
  has_entry_name p = true ->
  is_named n p = true <-> entry_name p = Some n.
Proof.
  unfold has_entry_name, entry_name, is_named.
  destruct (subscript p "name") as [[| | |m| |]|]; try discriminate.
  intros _. simpl. rewrite String.eqb_eq. split; congruence.
Qed.

Lemma NoDup_map_filter {A B} (f : A -> B) (g : A -> bool) (l : list A) :
  NoDup (map f l) -> NoDup (map f (filter g l)).
Proof.
  induction l as [|x l IH]; simpl; intros H; [constructor|].
  inversion H as [|y m Hnotin Hnd]; subst.
  destruct (g x); simpl; [|now apply IH].
  constructor; [|now apply IH].
  intros Hin. apply Hnotin.
  apply in_map_iff in Hin as (z & Hz & Hin).
  apply filter_In in Hin as [Hin _].
  apply in_map_iff. now exists z.
Qed.

Lemma stamped_entry_name (e : env) (o : list (string * json)) (n : string) :
  field "name" o = Some (JStr n) -> entry_name (JObj (stamped e o)) = Some n.
Proof.
  intros H. unfold entry_name, subscript.
  rewrite stamped_other by discriminate. now rewrite H.
Qed.

(** X12. The ledger keeps its invariant: when its entries are text that
    UTF-8 encodes and carry string names, all different, they still are
    and do after [save_installed_package] of any such record with a
    string name and after any [uninstall]. *)
Theorem ledger_names_stay_unique (e : env) (w : world)
    (o : list (string * json)) (n name : string) (entries : list json) :
  installed_entries w = Some entries ->
  forallb has_entry_name entries = true ->
  NoDup (map entry_name entries) ->
  field "name" o = Some (JStr n) ->
  forallb encodable entries = true ->
  encodable (JObj o) = true ->
  (exists l,
     installed_entries (snd (save_installed_package e (JObj o) w)) = Some l /\
     forallb has_entry_name l = true /\
     NoDup (map entry_name l) /\
     forallb encodable l = true) /\
  (exists l,
     installed_entries (snd (uninstall name w)) = Some l /\
     forallb has_entry_name l = true /\
     NoDup (map entry_name l) /\
     forallb encodable l = true).
Proof.
  intros He Hwf Hnd Hn Hee Heo.
  pose proof (forallb_impl _ _ _ has_entry_name_field Hwf) as Hwf'.
  split.
  - rewrite (save_installed_package_run e w o n entries He Hwf' Hn Hee Heo).
    eexists. split; [reflexivity|]. split; [|split].
    + rewrite forallb_app. apply andb_true_iff. split.
      * now apply forallb_filter.
      * simpl. unfold has_entry_name.
        now rewrite (stamped_entry_name e o n Hn).
    + rewrite map_app. simpl. rewrite (stamped_entry_name e o n Hn).
      apply NoDup_app.
      * now apply NoDup_map_filter.
      * repeat constructor. intros [].
      * intros x Hx [<-|[]].
        apply in_map_iff in Hx as (p & Hp & Hin).
        apply filter_In in Hin as [Hin Hnot].
        rewrite forallb_forall in Hwf.
        apply (is_named_entry_name n p (Hwf p Hin)) in Hp.
        rewrite Hp in Hnot. discriminate.
    + now apply encodable_ledger.
  - rewrite (uninstall_run w name entries He Hwf').
    destruct (existsb (is_named name) entries).
    + eexists. split; [reflexivity|]. split; [|split].
      * now apply forallb_filter.
      * now apply NoDup_map_filter.
      * now apply forallb_filter.
    + exists entries. auto.
Qed.

Lemma ledger_names_stay_unique_witness :
  (exists l,
     installed_entries (snd (save_installed_package offline (JObj foo_2)
                               ledger_foo)) = Some l /\
     forallb has_entry_name l = true /\
     NoDup (map entry_name l) /\
     forallb encodable l = true) /\
  (exists l,
     installed_entries (snd (uninstall "foo" ledger_foo)) = Some l /\
     forallb has_entry_name l = true /\
     NoDup (map entry_name l) /\
     forallb encodable l = true).
Proof.
  apply (ledger_names_stay_unique offline ledger_foo foo_2 "foo" "foo"
           [JObj (stamped (at_time 1700000000) foo_1)]);
    try reflexivity.
  repeat constructor; simpl; intuition discriminate.
Defined.

(** X13. On a ledger and a record that UTF-8 encodes, installing and
    then uninstalling a name leaves the entries that did not carry it, in
    their order: the ledger as it was when the name was not installed
    before. *)
Theorem install_then_uninstall (e : env) (w : world)
    (o : list (string * json)) (n : string) (entries : list json) :
  installed_entries w = Some entries ->
  forallb has_name_field entries = true ->
  field "name" o = Some (JStr n) ->
  forallb encodable entries = true ->
  encodable (JObj o) = true ->
  let w1 := snd (save_installed_package e (JObj o) w) in
  fst (uninstall n w1) = Ok true /\
  installed (snd (uninstall n w1)) =
    Holds (JArr (filter (fun p => negb (is_named n p)) entries)) /\
  (existsb (is_named n) entries = false ->
   installed (snd (uninstall n w1)) = Holds (JArr entries)).
Proof.
  intros He Hwf Hn Hee Heo. cbv zeta.
  rewrite (save_installed_package_run e w o n entries He Hwf Hn Hee Heo).
  cbn [snd].
  set (kept := filter (fun p => negb (is_named n p)) entries).
  assert (Hwf1 : forallb has_name_field (kept ++ [JObj (stamped e o)]) = true).
  { rewrite forallb_app. apply andb_true_iff. split.
    - now apply forallb_filter.
    - simpl. unfold has_name_field, subscript.
      rewrite stamped_other by discriminate. now rewrite Hn. }
  rewrite (uninstall_run
             (write_file installed_file (JArr (kept ++ [JObj (stamped e o)])) w)
             n (kept ++ [JObj (stamped e o)]) eq_refl Hwf1).
  rewrite existsb_app. simpl. rewrite (stamped_is_named e o n Hn).
  cbn [orb]. rewrite orb_true_r. cbn [fst snd installed].
  rewrite filter_app. cbn [filter]. rewrite (stamped_is_named e o n Hn).
  cbn [negb]. rewrite app_nil_r. unfold kept.
  rewrite (filter_out_twice (is_named n)).
  split; [reflexivity|]. split; [reflexivity|].
  intros Hnone. f_equal. f_equal. apply filter_all.
  intros x Hx. apply negb_true_iff.
  destruct (is_named n x) eqn:E; [|reflexivity].
  assert (existsb (is_named n) entries = true)
    by (apply existsb_exists; eauto).
  congruence.
Qed.

Lemma install_then_uninstall_witness :
  installed (snd (uninstall "foo"
               (snd (save_installed_package offline (JObj foo_1) fresh_world))))
    = Holds (JArr []).
Proof.
  exact (proj2 (proj2 (install_then_uninstall offline fresh_world foo_1 "foo" []
                         eq_refl eq_refl eq_refl eq_refl eq_refl)) eq_refl).
Defined.



(** ** A successful install *)

Lemma get_package_info_remote_success (e : env) (self : ASMPClient)
    (package_name : string) (version : json) (u : url) (w : world)
    (r : list (string * json)) (s package_info : json) :
  urljoin (base_url self) "/api/packages/info" = Ok u ->
  net e (request_of e u (info_data package_name version)) = Ok (JObj r) ->
  field "success" r = Some s -> truthy s = true ->
  field "package" r = Some package_info ->
  get_package_info_remote e self package_name version w =
    (Ok package_info,
     record_post (request_of e u (info_data package_name version)) w).
Proof.
  intros Hu Hnet Hs Ht Hp.
  destruct (received_success _ r s Hnet Hs Ht) as [Hr Hok].
  unfold get_package_info_remote. unfold bind at 1.
  rewrite (make_request_run e self _ _ u w Hu), Hr.
  unfold bind, lift. rewrite Hok. unfold dict_get. now rewrite Hp.
Qed.

Lemma dict_get_object (o : list (string * json)) (k : string) (d : json) :
  dict_get (JObj o) k d =
    Ok (match field k o with Some x => x | None => d end).
Proof. unfold dict_get. now destruct (field k o). Qed.

Lemma for_each_print (l : list json) :
  forallb encodable l = true -> for_each (fun dep => print [dep]) l = Ok tt.
Proof.
  induction l as [|x l IH]; [reflexivity|]. simpl. intros H.
  apply andb_prop in H as [Hx Hl].
  rewrite print_ok by (cbn [forallb]; now rewrite encodable_printable).
  now apply IH.
Qed.

(** The record that [install_package_remote] has announced has
    dependencies that can be listed; when UTF-8 encodes the record, each
    of them can be printed. *)
Lemma announced_dependencies (version v : json) (o : list (string * json)) :
  announced_version version (JObj o) = Ok v ->
  encodable (JObj o) = true ->
  exists deps,
    dict_get (JObj o) "dependencies" (JArr []) = Ok deps /\
    (if truthy deps
     then dependencies <~ py_iter deps ;;
          for_each (fun dep => print [dep]) dependencies
     else Ok tt) = Ok tt.
Proof.
  unfold announced_version. rewrite !dict_get_object. intros H He.
  destruct (subscript (JObj o) "name") as [name|]; [|discriminate].
  destruct (subscript (JObj o) "version") as [found|]; [|discriminate].
  cbn [rbind] in H.
  destruct (print [name; found]); [|discriminate]. cbn [rbind] in H.
  destruct (print [_]); [|discriminate]. cbn [rbind] in H.
  destruct (print [_]); [|discriminate]. cbn [rbind] in H.
  assert (Hd : encodable (match field "dependencies" o with
                          | Some x => x
                          | None => JArr []
                          end) = true).
  { destruct (field "dependencies" o) as [x|] eqn:Hf; [|reflexivity].
    exact (encodable_field o _ _ He Hf). }
  revert H Hd.
  set (deps := match field "dependencies" o with
               | Some x => x
               | None => JArr []
               end).
  intros H Hd. exists deps. split; [reflexivity|].
  destruct (truthy deps); [|reflexivity].
  unfold str_join in H.
  destruct (py_iter deps) as [l|] eqn:Hl; [|discriminate]. cbn [rbind].
  apply for_each_print. exact (py_iter_encodable deps l Hd Hl).
Qed.

(** X15. When the server serves the package record and grants the
    download, whenever it is asked, and the record and the ledger are
    text that UTF-8 encodes, [install_package_remote] returns [True]
    after exactly two requests, and the ledger is the old one without
    the entries named like the record, followed by the server's record,
    stamped.  The entry carries the name and the version of the server's
    record, whatever name and version were asked for.  The two requests
    and the entry carry each its own reading of the clock. *)
Theorem install_records_the_server_record (e : env) (self : ASMPClient)
    (package_name : string) (version : json) (w : world) (u1 u2 : url)
    (r1 r2 o : list (string * json)) (s1 s2 v : json) (n : string)
    (entries : list json) :
  urljoin (base_url self) "/api/packages/info" = Ok u1 ->
  urljoin (base_url self) "/api/packages/download" = Ok u2 ->
  (forall t, net e (request_of (clock_at e t) u1
                      (info_data package_name version)) = Ok (JObj r1)) ->
  field "success" r1 = Some s1 -> truthy s1 = true ->
  field "package" r1 = Some (JObj o) ->
  field "name" o = Some (JStr n) ->
  announced_version version (JObj o) = Ok v ->
  (forall t, net e (request_of (clock_at e t) u2
                      (download_data package_name v)) = Ok (JObj r2)) ->
  field "success" r2 = Some s2 -> truthy s2 = true ->
  installed_entries w = Some entries ->
  forallb has_name_field entries = true ->
  forallb encodable entries = true ->
  encodable (JObj o) = true ->
  exists t1 t2 t3,
    install_package_remote e self package_name version w =
      (Ok true,
       write_file installed_file
         (JArr (filter (fun p => negb (is_named n p)) entries
                ++ [JObj (stamped (clock_at e t3) o)]))
         (record_post
            (request_of (clock_at e t2) u2 (download_data package_name v))
            (record_post
               (request_of (clock_at e t1) u1
                  (info_data package_name version)) w))).
Proof.
  intros Hu1 Hu2 Hnet1 Hs1 Ht1 Hpkg Hn Hv Hnet2 Hs2 Ht2 He Hwf Hee Heo.
  exists (now e), (now e), (now e).
  specialize (Hnet1 (now e)). specialize (Hnet2 (now e)).
  change (request_of (clock_at e (now e))) with (request_of e) in *.
  change (stamped (clock_at e (now e)) o) with (stamped e o).
  rewrite (install_after_info
             (get_package_info_remote_success e self package_name version
                u1 w r1 s1 (JObj o) Hu1 Hnet1 Hs1 Ht1 Hpkg)).
  assert (Hto : truthy (JObj o) = true)
    by (destruct o; [discriminate Hn | reflexivity]).
  rewrite Hto. cbn [negb].
  destruct (received_success _ r2 s2 Hnet2 Hs2 Ht2) as [Hr Hok].
  unfold bind at 1. unfold lift at 1. rewrite Hv.
  unfold bind at 1. rewrite (make_request_run e self _ _ u2 _ Hu2), Hr.
  unfold bind at 1. unfold lift at 1. rewrite Hok.
  set (w2 := record_post _ (record_post _ w)).
  assert (Hsteps : download_steps e (JObj o) w2 =
            (Ok true,
             write_file installed_file
               (JArr (filter (fun p => negb (is_named n p)) entries
                      ++ [JObj (stamped e o)])) w2)).
  { destruct (announced_dependencies version v o Hv Heo) as (deps & Hd & Hl).
    destruct (announced_version_fields Hv) as (n' & v' & Hn' & Hv').
    destruct (subscript_object Hn') as (o1 & [= <-] & Hno).
    destruct (subscript_object Hv') as (o2 & [= <-] & Hvo).
    unfold download_steps. unfold bind at 1. unfold lift at 1. rewrite Hd.
    unfold bind at 1. unfold lift at 1. rewrite Hl.
    unfold bind at 1.
    rewrite (save_installed_package_run e w2 o n entries He Hwf Hn Hee Heo).
    unfold bind, lift, ret, subscript.
    rewrite !stamped_other by discriminate. rewrite Hno, Hvo.
    assert (Hpn : printable n' = true)
      by exact (encodable_printable _ (encodable_field o _ _ Heo Hno)).
    assert (Hpv : printable v' = true)
      by exact (encodable_printable _ (encodable_field o _ _ Heo Hvo)).
    rewrite !print_ok; [reflexivity| |]; cbn [forallb]; now rewrite ?Hpn, ?Hpv. }
  unfold bind, lift, dict_get, download_and_install, try_except.
  destruct (field "download_url" r2), (field "install_script" r2);
    now rewrite Hsteps.
Qed.

Lemma install_records_the_server_record_witness :
  exists t1 t2 t3,
    install_package_remote with_download default_client "foo"
      (JStr "1.0") ledger_foo =
      (Ok true,
       write_file installed_file
         (JArr [JObj (stamped (clock_at with_download t3) foo_2)])
         (record_post
            (request_of (clock_at with_download t2)
               {| url_base := JStr "https://api.artstudia.com";
                  url_path := "/api/packages/download" |}
               (download_data "foo" (JStr "1.0")))
            (record_post
               (request_of (clock_at with_download t1)
                  {| url_base := JStr "https://api.artstudia.com";
                     url_path := "/api/packages/info" |}
                  (info_data "foo" (JStr "1.0")))
               ledger_foo))).
Proof.
  exact (install_records_the_server_record with_download default_client "foo"
           (JStr "1.0") ledger_foo _ _
           [("success", JBool true); ("package", JObj foo_2)]
           [("success", JBool true);
            ("download_url", JStr "https://api.artstudia.com/foo.zip")]
           foo_2 (JBool true) (JBool true) (JStr "1.0") "foo"
           [JObj (stamped (at_time 1700000000) foo_1)]
           eq_refl eq_refl (fun _ => eq_refl) eq_refl eq_refl eq_refl eq_refl
           eq_refl (fun _ => eq_refl) eq_refl eq_refl eq_refl eq_refl
           eq_refl eq_refl).
Defined.

(** ** Requests *)

Lemma no_post_init_config (e : env) (self : ASMPClient) :
  keeps no_post (init_config e self).
Proof. unfold init_config. no_post_frame. Qed.

Lemma no_post_search_local (query : string) : keeps no_post (search_local query).
Proof. unfold search_local. no_post_frame. Qed.

Lemma no_post_update_local_cache (e : env) (pkgs : json) :
  keeps no_post (update_local_cache e pkgs).
Proof. unfold update_local_cache. no_post_frame. Qed.

Lemma no_post_get_installed_packages : keeps no_post get_installed_packages.
Proof. unfold get_installed_packages. no_post_frame. Qed.

Lemma no_post_download_and_install (e : env) (package_info du script : json) :
  keeps no_post (download_and_install e package_info du script).
Proof.
  unfold download_and_install, download_steps, save_installed_package.
  no_post_frame.
Qed.

Lemma no_post_uninstall (package_name : string) :
  keeps no_post (uninstall package_name).
Proof. unfold uninstall. no_post_frame. Qed.

Lemma no_post_update_server_url (new_url : string) :
  keeps no_post (update_server_url new_url).
Proof. unfold update_server_url. no_post_frame. Qed.

Lemma no_post_show_config : keeps no_post show_config.
Proof. unfold show_config. no_post_frame. Qed.

Lemma posts_silent {A} (m : M A) (n : nat) : keeps no_post m -> posts n m.
Proof.
  intros H w. exists []. rewrite app_nil_r. split; [apply H | apply Nat.le_0_l].
Qed.

Lemma posts_bind {A B} (n k : nat) (m : M A) (f : A -> M B) :
  posts n m -> (forall a, posts k (f a)) -> posts (n + k) (bind m f).
Proof.
  intros Hm Hf w. unfold bind. destruct (Hm w) as (rs & Hrs & Hlen).
  destruct (m w) as [[a|ex] w']; simpl in *.
  - destruct (Hf a w') as (rs' & Hrs' & Hlen').
    exists (rs ++ rs'). split.
    + now rewrite Hrs', Hrs, app_assoc.
    + rewrite length_app. now apply Nat.add_le_mono.
  - exists rs. split; [assumption|].
    apply (Nat.le_trans _ n); [assumption | apply Nat.le_add_r].
Qed.

Lemma posts_make_request (e : env) (self : ASMPClient) (endpoint : string)
    (data : list (string * json)) :
  posts 1 (make_request e self endpoint data).
Proof.
  intros w. unfold make_request, bind, lift, try_except, post.
  destruct (urljoin (base_url self) endpoint) as [u|ex]; simpl.
  - exists [request_of e u data]. split; [|apply Nat.le_refl].
    now destruct (net e (request_of e u data)) as [j|[]].
  - exists []. rewrite app_nil_r. split; [reflexivity | apply Nat.le_0_l].
Qed.

Lemma posts_search_remote (e : env) (self : ASMPClient) (query : string) :
  posts 1 (search_remote e self query).
Proof.
  unfold search_remote. apply (posts_bind 1 0); [apply posts_make_request|].
  intros response. apply posts_silent.
  pose proof (no_post_update_local_cache e) as Hupd.
  pose proof no_post_search_local as Hloc.
  no_post_frame; auto.
Qed.

Lemma posts_get_package_info_remote (e : env) (self : ASMPClient)
    (package_name : string) (version : json) :
  posts 1 (get_package_info_remote e self package_name version).
Proof.
  unfold get_package_info_remote.
  apply (posts_bind 1 0); [apply posts_make_request|].
  intros response. apply posts_silent. no_post_frame.
Qed.

Lemma posts_server_status (e : env) (self : ASMPClient) :
  posts 1 (server_status e self).
Proof.
  unfold server_status. apply (posts_bind 1 0); [apply posts_make_request|].
  intros response. apply posts_silent. no_post_frame.
Qed.

Lemma posts_install_package_remote (e : env) (self : ASMPClient)
    (package_name : string) (version : json) :
  posts 2 (install_package_remote e self package_name version).
Proof.
  unfold install_package_remote.
  apply (posts_bind 1 1); [apply posts_get_package_info_remote|].
  intros package_info. destruct (negb (truthy package_info)).
  - apply posts_silent. apply (keeps_ret _ no_post_refl).
  - apply (posts_bind 0 1);
      [apply posts_silent, (keeps_lift _ no_post_refl)|].
    intros v. apply (posts_bind 1 0); [apply posts_make_request|].
    intros response. apply posts_silent.
    pose proof (no_post_download_and_install e package_info) as Hd.
    no_post_frame; auto.
Qed.

(** X16. The client never repeats a request: a run of [main] posts at
    most two requests for [install], at most one for [search], [info]
    and [server-status], and none at all for [uninstall], [list],
    [config], [set-server] and [version], which work offline. *)
Theorem requests_are_not_repeated (e : env) (cmd : command) (w : world) :
  exists rs,
    posted (snd (main e (Some cmd) w)) = posted w ++ rs /\
    (List.length rs <= max_requests cmd)%nat.
Proof.
  revert w. change (posts (max_requests cmd) (main e (Some cmd))).
  unfold main, __init__.
  apply (posts_bind 0 (max_requests cmd));
    [apply posts_silent, no_post_init_config|].
  intros asmp. destruct cmd; simpl.
  - apply (posts_bind 2 0); [apply posts_install_package_remote|].
    intros. apply posts_silent, (keeps_ret _ no_post_refl).
  - apply posts_silent. apply (keeps_bind _ no_post_trans).
    + apply no_post_uninstall.
    + intros. apply (keeps_ret _ no_post_refl).
  - apply (posts_bind 1 0); [apply posts_search_remote|].
    intros. apply posts_silent, (keeps_lift _ no_post_refl).
  - apply posts_silent. apply (keeps_bind _ no_post_trans).
    + apply no_post_get_installed_packages.
    + intros. apply (keeps_lift _ no_post_refl).
  - apply (posts_bind 1 0); [apply posts_get_package_info_remote|].
    intros a. apply posts_silent. destruct (truthy a).
    + apply (keeps_lift _ no_post_refl).
    + apply (keeps_ret _ no_post_refl).
  - apply (posts_bind 1 0); [apply posts_server_status|].
    intros. apply posts_silent, (keeps_ret _ no_post_refl).
  - apply posts_silent, no_post_show_config.
  - apply posts_silent. apply (keeps_bind _ no_post_trans).
    + apply no_post_update_server_url.
    + intros. apply (keeps_ret _ no_post_refl).
  - apply posts_silent, (keeps_ret _ no_post_refl).
Qed.

Section DictAppend.
Context {K V : Type}.
Variable eqb : K -> K -> bool.

Lemma assoc_get_app (k : K) (l m : list (K * V)) :
  assoc_get eqb k (l ++ m) =
    match assoc_get eqb k l with
    | Some v => Some v
    | None => assoc_get eqb k m
    end.
Proof.
  induction l as [|[k' v'] l IH]; simpl; [reflexivity|].
  now destruct (eqb k k').
Qed.
End DictAppend.

Lemma dict_update_field (d data : list (string * json)) (k : string) :
  field k (dict_update d data) =
    match assoc_get String.eqb k (rev data) with
    | Some v => Some v
    | None => field k d
    end.
Proof.
  unfold dict_update, field. revert d.
  induction data as [|[k0 v0] data IH]; intros d; simpl; [reflexivity|].
  rewrite IH, assoc_get_app. simpl.
  destruct (assoc_get String.eqb k (rev data)); [reflexivity|].
  destruct (String.eqb_spec k k0) as [->|Hne].
  - apply (assoc_get_set_same String.eqb String.eqb_eq).
  - apply (assoc_get_set_other String.eqb String.eqb_eq). congruence.
Qed.

(** X17. The body of a request is the envelope ([app_name],
    [api_version], [client_version], [timestamp] = the clock) with the
    payload laid over it: a key of the payload reads as the payload has
    it (last), every other key as the envelope has it. *)
Theorem request_body_is_envelope_and_payload (e : env) (u : url)
    (data : list (string * json)) (k : string) :
  field k (req_json (request_of e u data)) =
    match assoc_get String.eqb k (rev data) with
    | Some v => Some v
    | None => field k (envelope e)
    end.
Proof.
  unfold request_of. cbn [req_json].
  destruct data as [|kv data]; [reflexivity|].
  apply dict_update_field.
Qed.

(** X18. On its own, [download_and_install] can report a failure after
    it has written the ledger: given a record with a name but no
    version (and a ledger and a record that UTF-8 encodes), it saves the
    entry, then raises on the [version] of its closing message and
    returns [False]. *)
Theorem download_and_install_fails_after_the_write (e : env) (w : world)
    (o : list (string * json)) (n : string) (du script : json)
    (entries : list json) :
  installed_entries w = Some entries ->
  forallb has_name_field entries = true ->
  field "name" o = Some (JStr n) ->
  field "version" o = None ->
  field "dependencies" o = None ->
  forallb encodable entries = true ->
  encodable (JObj o) = true ->
  download_and_install e (JObj o) du script w =
    (Ok false,
     write_file installed_file
       (JArr (filter (fun p => negb (is_named n p)) entries
              ++ [JObj (stamped e o)])) w).
Proof.
  intros He Hwf Hn Hv Hd Hee Heo.
  unfold download_and_install, try_except, download_steps.
  unfold bind at 1. unfold lift at 1. rewrite dict_get_object, Hd.
  unfold bind at 1. unfold lift at 1. cbn [truthy].
  unfold bind at 1.
  rewrite (save_installed_package_run e w o n entries He Hwf Hn Hee Heo).
  unfold bind, lift, ret, subscript.
  rewrite !stamped_other by discriminate. now rewrite Hn, Hv.
Qed.

Lemma download_and_install_fails_after_the_write_witness :
  download_and_install offline (JObj [("name", JStr "foo")]) JNull JNull
    fresh_world =
    (Ok false,
     write_file installed_file
       (JArr [JObj (stamped offline [("name", JStr "foo")])]) fresh_world).
Proof.
  exact (download_and_install_fails_after_the_write offline fresh_world
           [("name", JStr "foo")] "foo" JNull JNull []
           eq_refl eq_refl eq_refl eq_refl eq_refl eq_refl eq_refl).
Defined.

Lemma not_an_object_fails (v : json) :
  not_an_object v = true -> succeeded v = Raise AttributeError.
Proof.
  unfold succeeded. destruct v as [| | | | |o]; simpl; try discriminate;
    intros ->; reflexivity.
Qed.

(** X19. An answer that is JSON but neither an object nor empty (a list
    with items, a string, a number, [true]) is not taken for a failure:
    [search_remote], [get_package_info_remote] and [server_status] raise
    [AttributeError] on it, with no fallback and no file written. *)
Theorem answer_that_is_not_an_object_raises (e : env) (self : ASMPClient)
    (w : world) (u : url) (v : json) :
  not_an_object v = true ->
  (forall query,
     urljoin (base_url self) "/api/packages/search" = Ok u ->
     net e (request_of e u (search_data query)) = Ok v ->
     search_remote e self query w =
       (Raise AttributeError,
        record_post (request_of e u (search_data query)) w)) /\
  (forall package_name version,
     urljoin (base_url self) "/api/packages/info" = Ok u ->
     net e (request_of e u (info_data package_name version)) = Ok v ->
     get_package_info_remote e self package_name version w =
       (Raise AttributeError,
        record_post (request_of e u (info_data package_name version)) w)) /\
  (urljoin (base_url self) "/api/status" = Ok u ->
   net e (request_of e u [("type_request", JStr "ping")]) = Ok v ->
   server_status e self w =
     (Raise AttributeError,
      record_post (request_of e u [("type_request", JStr "ping")]) w)).
Proof.
  intros Hv. pose proof (not_an_object_fails v Hv) as Hs.
  split; [|split].
  - intros query Hu Hnet. unfold search_remote. unfold bind at 1.
    rewrite (make_request_run e self _ _ u w Hu), Hnet. simpl.
    unfold bind, lift. now rewrite Hs.
  - intros package_name version Hu Hnet.
    unfold get_package_info_remote. unfold bind at 1.
    rewrite (make_request_run e self _ _ u w Hu), Hnet. simpl.
    unfold bind, lift. now rewrite Hs.
  - intros Hu Hnet. unfold server_status. unfold bind at 1.
    rewrite (make_request_run e self _ _ u w Hu), Hnet. simpl.
    unfold bind, lift. now rewrite Hs.
Qed.

Lemma all_str_utf8 (l : list json) (ts : list string) :
  all_str l = Ok ts -> forallb encodable l = true -> forallb utf8 ts = true.
Proof.
  revert ts. induction l as [|x l IH]; intros ts; simpl.
  - now intros [= <-].
  - destruct x as [| | |s| |]; try discriminate.
    destruct (all_str l) as [r|]; [|discriminate]. simpl.
    intros [= <-] H. apply andb_prop in H as [Hs Hl]. simpl.
    now rewrite Hs, (IH r eq_refl Hl).
Qed.

(** The tags of a record, joined, can be printed. *)
Lemma join_prints (l : list json) (ts : list string) :
  all_str l = Ok ts -> forallb encodable l = true ->
  (if truthy (JArr l)
   then joined <~ str_join ", " (JArr l) ;; print [JStr joined]
   else Ok tt) = Ok tt.
Proof.
  intros Hts He. destruct (truthy (JArr l)); [|reflexivity].
  unfold str_join. cbn [py_iter rbind]. rewrite Hts. cbn [rbind].
  apply print_ok. cbn [forallb printable].
  rewrite utf8_concat; [reflexivity|reflexivity|].
  exact (all_str_utf8 l ts Hts He).
Qed.

Lemma field_printable (o : list (string * json)) (k : string) (d : json) :
  encodable (JObj o) = true -> printable d = true ->
  printable (match field k o with Some x => x | None => d end) = true.
Proof.
  intros He Hd. destruct (field k o) as [x|] eqn:Hf; [|exact Hd].
  exact (encodable_printable _ (encodable_field o _ _ He Hf)).
Qed.

Lemma print_package_well_formed (p : json) :
  well_formed p = true -> encodable p = true -> print_package p = Ok tt.
Proof.
  unfold well_formed, name_of, description_of, tags_of, print_package.
  destruct p as [| | | | |o]; try discriminate.
  rewrite !dict_get_object. unfold subscript. intros Hwf He.
  pose proof (fun k d => field_printable o k d He) as Hdef.
  assert (Htags : (if truthy (match field "tags" o with
                              | Some x => x
                              | None => JArr []
                              end)
                   then joined <~ str_join ", "
                                    (match field "tags" o with
                                     | Some x => x
                                     | None => JArr []
                                     end) ;;
                        print [JStr joined]
                   else Ok tt) = Ok tt).
  { destruct (field "name" o) as [[| | |n| |]|]; try discriminate.
    destruct (field "description" o) as [[| | |descr| |]|]; try discriminate;
      destruct (field "tags" o) as [[| | | |l|]|] eqn:Ht; try discriminate;
      try reflexivity;
      (destruct (all_str l) as [ts|] eqn:Hts; [|discriminate]);
      apply (join_prints l ts Hts);
      exact (encodable_field o _ _ He Ht). }
  destruct (field "name" o) as [[| | |n| |]|] eqn:Hn; try discriminate.
  assert (Hpn : printable (JStr n) = true)
    by exact (encodable_printable _ (encodable_field o _ _ He Hn)).
  cbn [rbind].
  rewrite print_ok
    by (cbn [forallb]; rewrite Hpn, Hdef by reflexivity; reflexivity).
  cbn [rbind].
  rewrite print_ok by (cbn [forallb]; rewrite Hdef by reflexivity; reflexivity).
  cbn [rbind]. rewrite Htags. cbn [rbind].
  apply print_ok. cbn [forallb]. now rewrite !Hdef by reflexivity.
Qed.

Lemma for_each_ok (body : json -> result unit) (l : list json) :
  (forall x, In x l -> body x = Ok tt) -> for_each body l = Ok tt.
Proof.
  induction l as [|x l IH]; intros H; simpl; [reflexivity|].
  rewrite (H x (or_introl eq_refl)). simpl. apply IH.
  intros y Hy. apply H. now right.
Qed.

Lemma print_package_list_well_formed (l : list json) :
  forallb well_formed l = true -> forallb encodable l = true ->
  print_package_list (JArr l) = Ok tt.
Proof.
  intros H He. unfold print_package_list.
  destruct (negb (truthy (JArr l))); [reflexivity|]. simpl.
  apply for_each_ok. intros x Hx.
  rewrite forallb_forall in H, He.
  apply print_package_well_formed; auto.
Qed.

Lemma installed_seeded (e : env) (w : world) :
  installed (seeded e w) =
    match installed w with
    | Missing => Holds (JArr [])
    | f => f
    end.
Proof.
  unfold seeded.
  destruct (packages w) eqn:Hp; simpl; destruct (installed w) eqn:Hi; simpl;
    rewrite ?Hi; reflexivity.
Qed.

(** X20. [list] runs to its end on a sound installation: when the
    configuration file is absent or a JSON object and the ledger is
    absent or a list of well-formed records that UTF-8 encodes, [main]
    returns normally. *)
Theorem list_completes (e : env) (w : world) (entries : list json) :
  config_error (config w) = None ->
  installed_entries w = Some entries ->
  forallb well_formed entries = true ->
  forallb encodable entries = true ->
  fst (main e (Some CmdList) w) = Ok tt.
Proof.
  intros Hc He Hwf Hee. unfold main, __init__. unfold bind at 1.
  rewrite init_config_run.
  assert (Hlist : forall w', installed w' = installed w ->
            fst ((pkgs <- get_installed_packages ;;
                  lift (print_package_list pkgs)) (seeded e w')) = Ok tt).
  { intros w' Hw'. unfold bind.
    assert (Hi : installed (seeded e w') = Holds (JArr entries)).
    { rewrite installed_seeded, Hw'. unfold installed_entries in He.
      destruct (installed w) as [| |[| | | |l|]]; try discriminate;
        now injection He as <-. }
    rewrite (get_installed_packages_holds _ _ Hi). unfold lift. simpl.
    now apply print_package_list_well_formed. }
  destruct (config w) as [| |[| | | | |o]]; simpl in Hc; try discriminate.
  - apply Hlist. reflexivity.
  - rewrite dict_get_object. apply Hlist. reflexivity.
Qed.

Lemma list_completes_witness :
  fst (main offline (Some CmdList) ledger_foo) = Ok tt.
Proof.
  exact (list_completes offline ledger_foo
           [JObj (stamped (at_time 1700000000) foo_1)]
           eq_refl eq_refl eq_refl eq_refl).
Defined.

(** Without the proviso on the text, [list] stops at the entry that
    cannot be printed. *)
Example surrogate_entry_stops_the_list :
  fst (main offline (Some CmdList) ledger_odd) = Raise UnicodeEncodeError.
Proof. vm_compute. reflexivity. Qed.

(** ** Files that every command leaves in place *)

Lemma grows_refl (w : world) : grows w w.
Proof. intros p H. exact H. Qed.

Lemma grows_trans (a b c : world) : grows a b -> grows b c -> grows a c.
Proof. intros Hab Hbc p H. apply Hbc, Hab, H. Qed.

Lemma grows_json_dump (q : path) (j : json) : keeps grows (json_dump q j).
Proof.
  intros w p. destruct p, q; simpl; try (intros H; exact H); discriminate.
Qed.

Lemma grows_json_dump_utf8 (q : path) (j : json) :
  keeps grows (json_dump_utf8 q j).
Proof.
  intros w p. unfold json_dump_utf8.
  destruct (encodable j), p, q; simpl; try (intros H; exact H); discriminate.
Qed.

Lemma grows_post (e : env) (r : request) : keeps grows (post e r).
Proof. intros w p. now destruct p. Qed.

Ltac grows_frame :=
  repeat first
    [ apply grows_json_dump
    | apply grows_json_dump_utf8
    | apply grows_post
    | apply (keeps_ret _ grows_refl)
    | apply (keeps_lift _ grows_refl)
    | apply (keeps_raise _ grows_refl)
    | apply (keeps_file_exists _ grows_refl)
    | apply (keeps_json_load _ grows_refl)
    | apply (keeps_bind _ grows_trans); [|intros ?]
    | apply (keeps_try_except _ grows_trans); [|intros ?]
    | match goal with
      | |- keeps _ (if ?b then _ else _) => destruct b
      | |- keeps _ (match ?x with _ => _ end) => destruct x
      end ].

Lemma grows_branch (e : env) (asmp : ASMPClient) (cmd : command) :
  keeps grows
    (match cmd with
     | CmdInstall package_name version =>
         _ <- install_package_remote e asmp package_name version ;; ret tt
     | CmdUninstall package_name => _ <- uninstall package_name ;; ret tt
     | CmdSearch query =>
         pkgs <- search_remote e asmp query ;; lift (print_package_list pkgs)
     | CmdList =>
         pkgs <- get_installed_packages ;; lift (print_package_list pkgs)
     | CmdInfo package_name =>
         package_info <- get_package_info_remote e asmp package_name JNull ;;
         if truthy package_info then lift (print_package_info package_info)
         else ret tt
     | CmdServerStatus => _ <- server_status e asmp ;; ret tt
     | CmdConfig => show_config
     | CmdSetServer url => _ <- update_server_url url ;; ret tt
     | CmdVersion => ret tt
     end).
Proof.
  destruct cmd;
    unfold install_package_remote, download_and_install, download_steps,
      save_installed_package, uninstall, search_remote, update_local_cache,
      search_local, get_package_info_remote, server_status, make_request,
      get_installed_packages, show_config, update_server_url;
    grows_frame.
Qed.

Lemma seeded_files (e : env) (w : world) :
  config w <> Missing ->
  forall p, read_file p (seeded e w) <> Missing.
Proof.
  intros Hc p. unfold seeded.
  destruct (packages w) eqn:Hp; simpl; destruct (installed w) eqn:Hi; simpl;
    destruct p; simpl; rewrite ?Hp, ?Hi; try assumption; discriminate.
Qed.

(** X21. Every subcommand, [version] and [list] included, leaves the
    three files in place: unless the configuration file is unreadable,
    [main] creates whichever is missing before the subcommand runs, and
    no subcommand removes a file. *)
Theorem every_command_leaves_the_files (e : env) (cmd : command) (w : world)
    (p : path) :
  config_error (config w) = None ->
  read_file p (snd (main e (Some cmd) w)) <> Missing.
Proof.
  intros Hc. unfold main, __init__, bind. rewrite init_config_run.
  assert (H : forall asmp w', (forall q, read_file q w' <> Missing) ->
            read_file p
              (snd (match cmd with
                    | CmdInstall package_name version =>
                        _ <- install_package_remote e asmp package_name version ;;
                        ret tt
                    | CmdUninstall package_name =>
                        _ <- uninstall package_name ;; ret tt
                    | CmdSearch query =>
                        pkgs <- search_remote e asmp query ;;
                        lift (print_package_list pkgs)
                    | CmdList =>
                        pkgs <- get_installed_packages ;;
                        lift (print_package_list pkgs)
                    | CmdInfo package_name =>
                        package_info <- get_package_info_remote e asmp
                                          package_name JNull ;;
                        if truthy package_info
                        then lift (print_package_info package_info)
                        else ret tt
                    | CmdServerStatus => _ <- server_status e asmp ;; ret tt
                    | CmdConfig => show_config
                    | CmdSetServer url => _ <- update_server_url url ;; ret tt
                    | CmdVersion => ret tt
                    end w')) <> Missing).
  { intros asmp w' Hw'. apply (grows_branch e asmp cmd w'), Hw'. }
  destruct (config w) as [| |[| | | | |o]] eqn:Hcfg; simpl in Hc;
    try discriminate.
  - apply H. apply seeded_files. discriminate.
  - rewrite dict_get_object. apply H. apply seeded_files.
    rewrite Hcfg. discriminate.
Qed.

Lemma every_command_leaves_the_files_witness :
  read_file packages_file (snd (main offline (Some CmdVersion) fresh_world))
    <> Missing.
Proof.
  exact (every_command_leaves_the_files offline CmdVersion fresh_world
           packages_file eq_refl).
Defined.

(** ** The extras at concrete inputs *)

Lemma command_changes_one_file_witness :
  read_file packages_file
    (snd (main with_download (Some (CmdInstall "foo" JNull)) example_cache))
    = read_file packages_file example_cache.
Proof.
  apply (command_changes_one_file with_download (CmdInstall "foo" JNull)
           packages_file example_cache); discriminate.
Defined.

Lemma broken_config_stops_every_command_witness :
  main offline (Some (CmdSetServer "https://registry.example")) broken_config
    = (Raise JSONDecodeError, broken_config).
Proof.
  exact (broken_config_stops_every_command offline
           (CmdSetServer "https://registry.example") broken_config
           JSONDecodeError eq_refl).
Defined.

Lemma server_url_is_read_back_witness :
  fst (init_config offline {| base_url := JStr "https://other.example" |}
         (snd (init_config offline default_client fresh_world)))
    = Ok default_client.
Proof.
  exact (proj2 (server_url_is_read_back offline offline default_client
                  {| base_url := JStr "https://other.example" |}
                  "unused" fresh_world) eq_refl).
Defined.

Lemma search_returns_the_server_list_witness :
  search_remote search_server default_client "anything" broken_config =
    (Ok (JArr [x_2]),
     snd (update_local_cache search_server (JArr [x_2])
            (record_post
               (request_of search_server
                  {| url_base := JStr "https://api.artstudia.com";
                     url_path := "/api/packages/search" |}
                  (search_data "anything")) broken_config))).
Proof.
  exact (search_returns_the_server_list search_server default_client "anything"
           broken_config _
           [("success", JBool true); ("packages", JArr [x_2])] (JBool true)
           eq_refl eq_refl eq_refl eq_refl).
Defined.

Lemma merged_records_are_found_witness :
  exists found,
    fst (search_local "X"
           (snd (update_local_cache offline (JArr [x_2]) cache_x))) = Ok found /\
    In x_2 found.
Proof.
  exact (merged_records_are_found offline cache_x [x_1; y_1] [x_2] "X" x_2
           (KStr "x") eq_refl eq_refl eq_refl eq_refl eq_refl eq_refl eq_refl).
Defined.

Lemma answer_that_is_not_an_object_raises_witness :
  search_remote odd_server default_client "gui" example_cache =
    (Raise AttributeError,
     record_post
       (request_of odd_server
          {| url_base := JStr "https://api.artstudia.com";
             url_path := "/api/packages/search" |}
          (search_data "gui")) example_cache).
Proof.
  exact (proj1 (answer_that_is_not_an_object_raises odd_server default_client
                  example_cache
                  {| url_base := JStr "https://api.artstudia.com";
                     url_path := "/api/packages/search" |}
                  (JArr [JInt 1]) eq_refl) "gui" eq_refl eq_refl).
Defined.
